(** * ecrspectre: the waste-classification engine

    A shallow embedding of the Go packages [pricing], [registry], [ecr],
    [artifactregistry] and [analyzer], of the SARIF reporter of [report] and
    of the flag handling of [commands], and the properties of the design
    document and of the code that can be stated over them.

    Conventions of the embedding.
    - Go [int] and [int64] values are integers [Z]; the scanners only compare,
      count and convert them, so no wrap-around arises.
    - Go [float64] is IEEE 754 binary64, taken from the standard library's
      executable specification [SpecFloat] at precision 53 and [emax = 1024]
      (round to nearest, ties to even); every operation is rounded on its
      own, none is fused with the next.
    - Go [string] is [string] (a sequence of bytes); [map[string]T] is
      [gmap string T], indexing a missing key giving the zero value of [T].
    - [*T] is [option T].
    - Mutation of the [*ScanResult] accumulator is explicit state passing,
      and the calls to the progress callback are recorded next to it.
    - A cloud service is the replies it gives: a record of functions from
      the request to the reply, a paginated reply being the chain of its
      pages and an iterator the chain of its items.
    - Package-level variables that a function assigns to (the flags of the
      commands) are passed to it and returned. *)

From Stdlib Require Import ZArith Bool Lia.
From Stdlib Require Import Floats.SpecFloat.
From Stdlib Require Import Ascii.
From stdpp Require Import base option list gmap strings.

Local Open Scope Z_scope.

(** ** binary64 arithmetic *)

Module Float64.

Definition prec : Z := 53.
Definition emax : Z := 1024.

Definition float64 : Type := spec_float.

Definition zero : float64 := S754_zero false.

Definition add : float64 -> float64 -> float64 := SFadd prec emax.
Definition mul : float64 -> float64 -> float64 := SFmul prec emax.
Definition div : float64 -> float64 -> float64 := SFdiv prec emax.

(** Go's [x <= y] and [x >= y]: false as soon as one side is NaN. *)
Definition le (x y : float64) : bool := SFleb x y.
Definition ge (x y : float64) : bool := SFleb y x.
Definition eq (x y : float64) : bool := SFeqb x y.

(** The conversion [float64(n)] of an integer. *)
Definition of_int (n : Z) : float64 := binary_normalize prec emax n 0 false.

(** The conversion [int(x)] of a finite float: truncation towards zero. (The
    scanners convert finite values only.) *)
Definition to_int (x : float64) : Z :=
  match x with
  | S754_finite s m e =>
      let a := if 0 <=? e then Z.pos m * 2 ^ e else Z.pos m / 2 ^ (- e) in
      if s then - a else a
  | _ => 0
  end.

(** The decimal literal [0.10]: the nearest binary64 is
    [0x1.999999999999ap-4], that is 7205759403792794 * 2^-56. *)
Definition lit_0_10 : float64 := S754_finite false 7205759403792794 (-56).

End Float64.

Import Float64.

(** ** Go values *)

(** The zero value of a type, which indexing a map yields for a missing key. *)
Class GoZero (V : Type) : Type := zero_value : V.
#[global] Instance float64_zero : GoZero float64 := zero.
#[global] Instance int_zero : GoZero Z := 0.
#[global] Instance bool_zero : GoZero bool := false.
#[global] Instance map_zero {V} : GoZero (gmap string V) := (∅ : gmap string V).
#[global] Instance slice_zero {A} : GoZero (list A) := [].

(** Go's [m[k]]. *)
Definition index {V} `{GoZero V} (m : gmap string V) (k : string) : V :=
  default zero_value (m !! k).

(** Go's [len]. *)
Definition len {A} (l : list A) : Z := Z.of_nat (length l).

(** [strings.Contains] and [strings.Join]. *)
Fixpoint Contains (s substr : string) : bool :=
  if String.prefix substr s then true
  else match s with
       | EmptyString => false
       | String _ s' => Contains s' substr
       end.

Definition Join (elems : list string) (sep : string) : string :=
  String.concat sep elems.

(** A value returned together with an [error]; an error is modelled by its
    message. *)
Inductive Result (A : Type) : Type :=
  | Ok (x : A)
  | Err (err : string).
Arguments Ok {A} x.
Arguments Err {A} err.

(** The text produced by [fmt.Sprintf]: the format and its arguments, kept
    unrendered where a number is formatted. *)
Inductive FmtArg : Type :=
  | ArgInt (n : Z)
  | ArgFloat (x : float64)
  | ArgString (s : string).

Inductive Text : Type :=
  | Sprintf (format : string) (args : list FmtArg).

(** ** Package time, as far as the scanners use it

    A [time.Time] is an instant, counted in nanoseconds from the zero Time
    (January 1, year 1, 00:00:00 UTC). The scanner's clock is in UTC, as in
    the test suites, so that [AddDate(0, 0, d)] moves the instant by [d]
    days of 24 hours. *)
Module time.

Definition Time : Type := Z.
Definition Duration : Type := Z.

Definition Hour : Duration := 60 * 60 * 1000000000.
Definition Day : Duration := 24 * Hour.

Definition minDuration : Duration := - 2 ^ 63.
Definition maxDuration : Duration := 2 ^ 63 - 1.

Definition IsZero (t : Time) : bool := t =? 0.
Definition Before (t u : Time) : bool := t <? u.

(** [t.AddDate(0, 0, days)]. *)
Definition AddDate (t : Time) (days : Z) : Time := t + days * Day.

(** [t.Sub(u)], saturating at the ends of the [int64] range. *)
Definition Sub (t u : Time) : Duration :=
  let d := t - u in
  if d <? minDuration then minDuration
  else if maxDuration <? d then maxDuration
  else d.

(** [d.Hours()]. *)
Definition Hours (d : Duration) : float64 :=
  let hour := Z.quot d Hour in
  let nsec := Z.rem d Hour in
  add (of_int hour) (div (of_int nsec) (of_int (60 * 60 * 1000000000))).

End time.

(** ** Package pricing *)

Module pricing.

(** [StorageCosts]: provider, then region, to the monthly cost of one GB. *)
Definition StorageCosts : gmap string (gmap string float64) :=
  list_to_map
    [ ("ecr", list_to_map [ ("default", lit_0_10) ]);
      ("artifactregistry",
       list_to_map
         [ ("us", lit_0_10);
           ("europe", lit_0_10);
           ("asia", lit_0_10);
           ("us-central1", lit_0_10);
           ("us-east1", lit_0_10);
           ("us-east4", lit_0_10);
           ("us-west1", lit_0_10);
           ("us-west2", lit_0_10);
           ("europe-west1", lit_0_10);
           ("europe-west2", lit_0_10);
           ("europe-west4", lit_0_10);
           ("asia-east1", lit_0_10);
           ("asia-southeast1", lit_0_10);
           ("default", lit_0_10) ]) ].

Definition lookupCostPerGB (provider region : string) : float64 :=
  match StorageCosts !! provider with
  | None => index (index StorageCosts "ecr") "default"
  | Some providerCosts =>
      match providerCosts !! region with
      | None => index providerCosts "default"
      | Some cost => cost
      end
  end.

Definition MonthlyStorageCost (provider region : string) (sizeBytes : Z) : float64 :=
  let costPerGB := lookupCostPerGB provider region in
  let sizeGB := div (of_int sizeBytes) (of_int (1024 * 1024 * 1024)) in
  mul sizeGB costPerGB.

End pricing.

(** ** Package registry *)

Module registry.

(** [Severity], [ResourceType] and [FindingID] are string types. *)
Definition SeverityCritical : string := "critical".
Definition SeverityHigh : string := "high".
Definition SeverityMedium : string := "medium".
Definition SeverityLow : string := "low".

Definition ResourceImage : string := "image".
Definition ResourceRepository : string := "repository".

Definition FindingUntaggedImage : string := "UNTAGGED_IMAGE".
Definition FindingStaleImage : string := "STALE_IMAGE".
Definition FindingLargeImage : string := "LARGE_IMAGE".
Definition FindingNoLifecyclePolicy : string := "NO_LIFECYCLE_POLICY".
Definition FindingVulnerableImage : string := "VULNERABLE_IMAGE".
Definition FindingUnusedRepo : string := "UNUSED_REPO".
Definition FindingMultiArchBloat : string := "MULTI_ARCH_BLOAT".

(** The values stored in a finding's [map[string]any]. [MetaTime t] stands
    for the RFC 3339 rendering of [t]. *)
Inductive MetaValue : Type :=
  | MetaInt (n : Z)
  | MetaString (s : string)
  | MetaTime (t : time.Time)
  | MetaCounts (m : gmap string Z).

Record Finding : Type := {
  ID : string;
  Severity : string;
  ResourceType : string;
  ResourceID : string;
  ResourceName : string;
  Region : string;
  Message : Text;
  EstimatedMonthlyWaste : float64;
  Metadata : gmap string MetaValue
}.

Record ScanResult : Type := {
  Findings : list Finding;
  Errors : list string;
  ResourcesScanned : Z;
  RepositoriesScanned : Z
}.

Record ExcludeConfig : Type := {
  ResourceIDs : gmap string bool;
  Tags : gmap string string
}.

Record ScanConfig : Type := {
  StaleDays : Z;
  MaxSizeBytes : Z;
  MinMonthlyCost : float64;
  Exclude : ExcludeConfig
}.

(** A progress event; its [Timestamp] (the wall clock at the time of the
    call) is not recorded. *)
Record ScanProgress : Type := {
  ProgressRegion : string;
  ProgressScanner : string;
  ProgressMessage : Text
}.

(** [&registry.ScanResult{}] *)
Definition emptyResult : ScanResult :=
  {| Findings := []; Errors := []; ResourcesScanned := 0; RepositoriesScanned := 0 |}.

(** [result.Findings = append(result.Findings, fs...)] *)
Definition appendFindings (fs : list Finding) (r : ScanResult) : ScanResult :=
  {| Findings := Findings r ++ fs; Errors := Errors r;
     ResourcesScanned := ResourcesScanned r;
     RepositoriesScanned := RepositoriesScanned r |}.

(** [result.Errors = append(result.Errors, e)] *)
Definition appendError (e : string) (r : ScanResult) : ScanResult :=
  {| Findings := Findings r; Errors := Errors r ++ [e];
     ResourcesScanned := ResourcesScanned r;
     RepositoriesScanned := RepositoriesScanned r |}.

(** [result.ResourcesScanned++] *)
Definition incResourcesScanned (r : ScanResult) : ScanResult :=
  {| Findings := Findings r; Errors := Errors r;
     ResourcesScanned := ResourcesScanned r + 1;
     RepositoriesScanned := RepositoriesScanned r |}.

(** [result.RepositoriesScanned += n] *)
Definition addRepositoriesScanned (n : Z) (r : ScanResult) : ScanResult :=
  {| Findings := Findings r; Errors := Errors r;
     ResourcesScanned := ResourcesScanned r;
     RepositoriesScanned := RepositoriesScanned r + n |}.

(** [result.RepositoriesScanned = n] *)
Definition setRepositoriesScanned (n : Z) (r : ScanResult) : ScanResult :=
  {| Findings := Findings r; Errors := Errors r;
     ResourcesScanned := ResourcesScanned r;
     RepositoriesScanned := n |}.

(** [findByID] of the test suites: the findings of one kind, in order. *)
Definition findByID (findings : list Finding) (id : string) : list Finding :=
  List.filter (fun f => String.eqb (ID f) id) findings.

End registry.

(** The state a scan works on: the [*ScanResult] it fills, and the calls it
    has made to the progress callback, oldest first. *)
Record Run : Type := {
  result : registry.ScanResult;
  progressed : list registry.ScanProgress
}.

Definition newRun : Run :=
  {| result := registry.emptyResult; progressed := [] |}.

Definition onResult (f : registry.ScanResult -> registry.ScanResult) (run : Run) : Run :=
  {| result := f (result run); progressed := progressed run |}.

(** Replies of a paginated service call, followed through [NextToken]: the
    call fails, or it returns the last page, or it returns a page with a
    token under which the next call is answered by [rest]. *)
Inductive Paged (A : Type) : Type :=
  | PageFail (err : string)
  | PageLast (items : list A)
  | PageNext (items : list A) (rest : Paged A).
Arguments PageFail {A} err.
Arguments PageLast {A} items.
Arguments PageNext {A} items rest.

(** ** Package ecr *)

Module ecr.
Import registry.

(** [ecrtypes.Repository] and [ecrtypes.ImageDetail], with the fields the
    scanner reads. *)
Record Repository : Type := {
  RepositoryName : option string
}.

Record ImageDetail : Type := {
  ImageDigest : option string;
  ImageSizeInBytes : option Z;
  ImagePushedAt : option time.Time;
  LastRecordedPullTime : option time.Time;
  ImageTags : list string;
  ImageManifestMediaType : option string
}.

(** The reply of [GetLifecyclePolicy]: a policy, the
    [LifecyclePolicyNotFoundException], or another error. *)
Inductive LifecyclePolicyReply : Type :=
  | PolicyOutput
  | PolicyNotFound (err : string)
  | PolicyFailure (err : string).

(** [DescribeImageScanFindingsOutput]: [ImageScanFindings] may be nil;
    otherwise the severity of each finding. *)
Record ScanFindingsOutput : Type := {
  ImageScanFindings : option (list string)
}.

(** [ECRAPI]: the service the scanner talks to. *)
Record ECRAPI : Type := {
  DescribeRepositories : Paged Repository;
  DescribeImages : string -> Paged ImageDetail;
  GetLifecyclePolicy : string -> LifecyclePolicyReply;
  DescribeImageScanFindings : string -> string -> Result ScanFindingsOutput
}.

(** The pagination loop shared by [ListRepositories] and [ListImages]. *)
Fixpoint collectPages {A} (acc : list A) (pages : Paged A) : Result (list A) :=
  match pages with
  | PageFail err => Err err
  | PageLast items => Ok (acc ++ items)
  | PageNext items rest => collectPages (acc ++ items) rest
  end.

Definition ListRepositories (client : ECRAPI) : Result (list Repository) :=
  match collectPages [] (DescribeRepositories client) with
  | Err err => Err ("describe repositories: " +:+ err)
  | Ok repos => Ok repos
  end.

Definition ListImages (client : ECRAPI) (repoName : string) : Result (list ImageDetail) :=
  match collectPages [] (DescribeImages client repoName) with
  | Err err => Err ("describe images for " +:+ repoName +:+ ": " +:+ err)
  | Ok images => Ok images
  end.

Definition HasLifecyclePolicy (client : ECRAPI) (repoName : string) : Result bool :=
  match GetLifecyclePolicy client repoName with
  | PolicyOutput => Ok true
  | PolicyNotFound _ => Ok false
  | PolicyFailure err => Err ("get lifecycle policy for " +:+ repoName +:+ ": " +:+ err)
  end.

Record ECRScanner : Type := {
  client : ECRAPI;
  region : string;
  includeScan : bool;
  now : time.Time
}.

Definition deref (s : option string) : string :=
  match s with
  | None => ""
  | Some v => v
  end.

Definition derefInt64 (p : option Z) : Z :=
  match p with
  | None => 0
  | Some v => v
  end.

Definition lastActivityTime (img : ImageDetail) : option time.Time :=
  match LastRecordedPullTime img with
  | Some t => Some t
  | None => ImagePushedAt img
  end.

(** [progress] tells whether a callback was passed. *)
Definition reportProgress (s : ECRScanner) (progress : bool) (msg : Text) (run : Run) : Run :=
  if progress then
    {| result := result run;
       progressed := progressed run ++
         [ {| ProgressRegion := region s; ProgressScanner := "ecr"; ProgressMessage := msg |} ] |}
  else run.

Definition analyzeImage (s : ECRScanner) (cfg : ScanConfig) (repoName : string)
    (img : ImageDetail) : list Finding :=
  let findings : list Finding := [] in
  let digest := deref (ImageDigest img) in
  let imageID := repoName +:+ "@" +:+ digest in
  let sizeBytes := derefInt64 (ImageSizeInBytes img) in
  let cost := pricing.MonthlyStorageCost "ecr" (region s) sizeBytes in
  let sizeMB := div (of_int sizeBytes) (of_int (1024 * 1024)) in
  let resourceName :=
    if 0 <? len (ImageTags img)
    then repoName +:+ ":" +:+ Join (ImageTags img) ","
    else "" in
  (* Untagged image *)
  let findings :=
    if len (ImageTags img) =? 0 then
      findings ++
      [ {| ID := FindingUntaggedImage;
           Severity := SeverityHigh;
           ResourceType := ResourceImage;
           ResourceID := imageID;
           ResourceName := "";
           Region := region s;
           Message := Sprintf "Untagged image (%.0f MB)" [ArgFloat sizeMB];
           EstimatedMonthlyWaste := cost;
           Metadata := list_to_map
             [ ("size_bytes", MetaInt sizeBytes); ("digest", MetaString digest) ] |} ]
    else findings in
  (* Stale image: not pulled in more than StaleDays *)
  let findings :=
    if 0 <? StaleDays cfg then
      let staleThreshold := time.AddDate (now s) (- StaleDays cfg) in
      match lastActivityTime img with
      | Some lastActivity =>
          if time.Before lastActivity staleThreshold then
            let daysSince :=
              to_int (div (time.Hours (time.Sub (now s) lastActivity)) (of_int 24)) in
            findings ++
            [ {| ID := FindingStaleImage;
                 Severity := SeverityHigh;
                 ResourceType := ResourceImage;
                 ResourceID := imageID;
                 ResourceName := resourceName;
                 Region := region s;
                 Message := Sprintf "Not pulled in %d days (%.0f MB)"
                              [ArgInt daysSince; ArgFloat sizeMB];
                 EstimatedMonthlyWaste := cost;
                 Metadata := list_to_map
                   [ ("last_pull", MetaTime lastActivity);
                     ("days_stale", MetaInt daysSince);
                     ("size_bytes", MetaInt sizeBytes);
                     ("stale_days", MetaInt (StaleDays cfg)) ] |} ]
          else findings
      | None => findings
      end
    else findings in
  (* Large image *)
  let findings :=
    if (0 <? MaxSizeBytes cfg) && (MaxSizeBytes cfg <? sizeBytes) then
      findings ++
      [ {| ID := FindingLargeImage;
           Severity := SeverityMedium;
           ResourceType := ResourceImage;
           ResourceID := imageID;
           ResourceName := resourceName;
           Region := region s;
           Message := Sprintf "Image is %.0f MB (threshold: %d MB)"
                        [ArgFloat sizeMB; ArgInt (Z.quot (MaxSizeBytes cfg) (1024 * 1024))];
           EstimatedMonthlyWaste := cost;
           Metadata := list_to_map
             [ ("size_bytes", MetaInt sizeBytes);
               ("threshold_bytes", MetaInt (MaxSizeBytes cfg)) ] |} ]
    else findings in
  (* Multi-arch bloat: image manifest list with multiple platforms *)
  let findings :=
    match ImageManifestMediaType img with
    | Some mediaType =>
        if Contains mediaType "manifest.list" then
          if 0 <? StaleDays cfg then
            let lastActivity := lastActivityTime img in
            let staleThreshold := time.AddDate (now s) (- StaleDays cfg) in
            match lastActivity with
            | Some lastActivity =>
                if time.Before lastActivity staleThreshold then
                  findings ++
                  [ {| ID := FindingMultiArchBloat;
                       Severity := SeverityLow;
                       ResourceType := ResourceImage;
                       ResourceID := imageID;
                       ResourceName := resourceName;
                       Region := region s;
                       Message := Sprintf "Stale multi-architecture image (%.0f MB)"
                                    [ArgFloat sizeMB];
                       EstimatedMonthlyWaste := cost;
                       Metadata := list_to_map
                         [ ("size_bytes", MetaInt sizeBytes);
                           ("media_type", MetaString mediaType) ] |} ]
                else findings
            | None => findings
            end
          else findings
        else findings
    | None => findings
    end in
  findings.

(** The inner loop of [scanRepository]: [staleCount] counts the
    [STALE_IMAGE] findings of the images seen so far. *)
Definition countStale (findings : list Finding) (staleCount : Z) : Z :=
  fold_left
    (fun staleCount f =>
       if String.eqb (ID f) FindingStaleImage then staleCount + 1 else staleCount)
    findings staleCount.

Definition scanImages (s : ECRScanner) (cfg : ScanConfig) (repoName : string)
    (images : list ImageDetail) (run : Run) : Run * Z :=
  fold_left
    (fun '(run, staleCount) img =>
       let run := onResult incResourcesScanned run in
       let findings := analyzeImage s cfg repoName img in
       let run := onResult (appendFindings findings) run in
       (run, countStale findings staleCount))
    images (run, 0).

Definition scanRepository (s : ECRScanner) (cfg : ScanConfig) (repo : Repository)
    (progress : bool) (run : Run) : Run :=
  let repoName := deref (RepositoryName repo) in
  let run := reportProgress s progress (Sprintf "Scanning %s" [ArgString repoName]) run in
  match ListImages (client s) repoName with
  | Err err =>
      onResult (appendError (region s +:+ "/" +:+ repoName +:+ ": " +:+ err)) run
  | Ok images =>
      if len images =? 0 then
        onResult (appendFindings
          [ {| ID := FindingUnusedRepo;
               Severity := SeverityLow;
               ResourceType := ResourceRepository;
               ResourceID := repoName;
               ResourceName := "";
               Region := region s;
               Message := Sprintf "Repository has no images" [];
               EstimatedMonthlyWaste := zero;
               Metadata := ∅ |} ]) run
      else
        (* Check lifecycle policy *)
        let run :=
          match HasLifecyclePolicy (client s) repoName with
          | Err err =>
              onResult (appendError
                (region s +:+ "/" +:+ repoName +:+ " lifecycle: " +:+ err)) run
          | Ok hasPolicy =>
              if negb hasPolicy then
                onResult (appendFindings
                  [ {| ID := FindingNoLifecyclePolicy;
                       Severity := SeverityMedium;
                       ResourceType := ResourceRepository;
                       ResourceID := repoName;
                       ResourceName := "";
                       Region := region s;
                       Message := Sprintf
                         "No lifecycle policy configured — images accumulate indefinitely" [];
                       EstimatedMonthlyWaste := zero;
                       Metadata := ∅ |} ]) run
              else run
          end in
        let '(run, staleCount) := scanImages s cfg repoName images run in
        (* All images stale = unused repo *)
        if (staleCount =? len images) && (0 <? len images) then
          let totalWaste :=
            fold_left
              (fun totalWaste img =>
                 add totalWaste
                   (pricing.MonthlyStorageCost "ecr" (region s)
                      (derefInt64 (ImageSizeInBytes img))))
              images zero in
          onResult (appendFindings
            [ {| ID := FindingUnusedRepo;
                 Severity := SeverityLow;
                 ResourceType := ResourceRepository;
                 ResourceID := repoName;
                 ResourceName := "";
                 Region := region s;
                 Message := Sprintf "All %d images are stale" [ArgInt (len images)];
                 EstimatedMonthlyWaste := totalWaste;
                 Metadata := list_to_map [ ("image_count", MetaInt (len images)) ] |} ]) run
        else run
  end.

(** The loop of [Scan] over the repositories. *)
Definition scanRepositories (s : ECRScanner) (cfg : ScanConfig) (progress : bool)
    (repos : list Repository) (run : Run) : Run :=
  fold_left
    (fun run repo =>
       let repoName := deref (RepositoryName repo) in
       if index (ResourceIDs (Exclude cfg)) repoName then run
       else scanRepository s cfg repo progress run)
    repos run.

Definition Scan (s : ECRScanner) (cfg : ScanConfig) (progress : bool) : Run :=
  let run := newRun in
  match ListRepositories (client s) with
  | Err err => onResult (appendError (region s +:+ ": " +:+ err)) run
  | Ok repos =>
      let run := onResult (setRepositoriesScanned (len repos)) run in
      let run := reportProgress s progress
                   (Sprintf "Found %d repositories" [ArgInt (len repos)]) run in
      scanRepositories s cfg progress repos run
  end.

(** [counts[string(f.Severity)]++] over the scan findings. *)
Definition countSeverities (severities : list string) : gmap string Z :=
  fold_left (fun counts sev => <[ sev := index counts sev + 1 ]> counts) severities ∅.

(** [ScanVulnerabilities] returns findings and an error ([None] is nil). *)
Definition ScanVulnerabilities (s : ECRScanner) (repoName digest : string)
    : list Finding * option string :=
  match DescribeImageScanFindings (client s) repoName digest with
  | Err err => ([], None)
  | Ok out =>
      match ImageScanFindings out with
      | None => ([], None)
      | Some scanFindings =>
          if len scanFindings =? 0 then ([], None)
          else
            let counts := countSeverities scanFindings in
            let critCount := index counts "CRITICAL" in
            let highCount := index counts "HIGH" in
            let total := len scanFindings in
            if (critCount =? 0) && (highCount =? 0) then ([], None)
            else
              let imageID := repoName +:+ "@" +:+ digest in
              ([ {| ID := FindingVulnerableImage;
                    Severity := SeverityCritical;
                    ResourceType := ResourceImage;
                    ResourceID := imageID;
                    ResourceName := "";
                    Region := region s;
                    Message := Sprintf "%d vulnerabilities (%d critical, %d high)"
                                 [ArgInt total; ArgInt critCount; ArgInt highCount];
                    EstimatedMonthlyWaste := zero;
                    Metadata := list_to_map
                      [ ("total_findings", MetaInt total);
                        ("critical_count", MetaInt critCount);
                        ("high_count", MetaInt highCount);
                        ("severity_counts", MetaCounts counts) ] |} ], None)
      end
  end.

End ecr.

(** ** Package artifactregistry *)

Module artifactregistry.
Import registry.

Record Repository : Type := {
  Name : string;
  Location : string;
  RepoID : string;
  Format : string
}.

(** [DockerImage]; its [Name] field is [ImageName] here. A zero
    [UploadTime] is the zero Time. *)
Record DockerImage : Type := {
  ImageName : string;
  URI : string;
  Tags : list string;
  SizeBytes : Z;
  UploadTime : time.Time;
  MediaType : string;
  RepositoryID : string
}.

(** [ARAPI]: the service the scanner talks to. *)
Record ARAPI : Type := {
  ListRepositories : string -> string -> Result (list Repository);
  ListDockerImages : string -> Result (list DockerImage)
}.

Record ARScanner : Type := {
  client : ARAPI;
  project : string;
  locations : list string;
  now : time.Time
}.

(** [progress] tells whether a callback was passed. *)
Definition reportProgress (s : ARScanner) (progress : bool) (location : string)
    (msg : Text) (run : Run) : Run :=
  if progress then
    {| result := result run;
       progressed := progressed run ++
         [ {| ProgressRegion := location; ProgressScanner := "artifactregistry";
              ProgressMessage := msg |} ] |}
  else run.

Definition analyzeImage (s : ARScanner) (cfg : ScanConfig) (repo : Repository)
    (img : DockerImage) : list Finding :=
  let findings : list Finding := [] in
  let imageID := if String.eqb (URI img) "" then ImageName img else URI img in
  let sizeBytes := SizeBytes img in
  let cost := pricing.MonthlyStorageCost "artifactregistry" (Location repo) sizeBytes in
  let sizeMB := div (of_int sizeBytes) (of_int (1024 * 1024)) in
  let resourceName :=
    if 0 <? len (Tags img)
    then RepoID repo +:+ ":" +:+ Join (Tags img) ","
    else "" in
  (* Untagged image *)
  let findings :=
    if len (Tags img) =? 0 then
      findings ++
      [ {| ID := FindingUntaggedImage;
           Severity := SeverityHigh;
           ResourceType := ResourceImage;
           ResourceID := imageID;
           ResourceName := "";
           Region := Location repo;
           Message := Sprintf "Untagged image (%.0f MB)" [ArgFloat sizeMB];
           EstimatedMonthlyWaste := cost;
           Metadata := list_to_map
             [ ("size_bytes", MetaInt sizeBytes); ("uri", MetaString (URI img)) ] |} ]
    else findings in
  (* Stale image: uploaded more than StaleDays ago (no pull timestamp) *)
  let findings :=
    if (0 <? StaleDays cfg) && negb (time.IsZero (UploadTime img)) then
      let staleThreshold := time.AddDate (now s) (- StaleDays cfg) in
      if time.Before (UploadTime img) staleThreshold then
        let daysSince :=
          to_int (div (time.Hours (time.Sub (now s) (UploadTime img))) (of_int 24)) in
        findings ++
        [ {| ID := FindingStaleImage;
             Severity := SeverityHigh;
             ResourceType := ResourceImage;
             ResourceID := imageID;
             ResourceName := resourceName;
             Region := Location repo;
             Message := Sprintf "Uploaded %d days ago, no pull data available (%.0f MB)"
                          [ArgInt daysSince; ArgFloat sizeMB];
             EstimatedMonthlyWaste := cost;
             Metadata := list_to_map
               [ ("upload_time", MetaTime (UploadTime img));
                 ("days_stale", MetaInt daysSince);
                 ("size_bytes", MetaInt sizeBytes);
                 ("stale_days", MetaInt (StaleDays cfg));
                 ("note", MetaString
                    "GCP AR has no pull timestamp; staleness based on upload time") ] |} ]
      else findings
    else findings in
  (* Large image *)
  let findings :=
    if (0 <? MaxSizeBytes cfg) && (MaxSizeBytes cfg <? sizeBytes) then
      findings ++
      [ {| ID := FindingLargeImage;
           Severity := SeverityMedium;
           ResourceType := ResourceImage;
           ResourceID := imageID;
           ResourceName := resourceName;
           Region := Location repo;
           Message := Sprintf "Image is %.0f MB (threshold: %d MB)"
                        [ArgFloat sizeMB; ArgInt (Z.quot (MaxSizeBytes cfg) (1024 * 1024))];
           EstimatedMonthlyWaste := cost;
           Metadata := list_to_map
             [ ("size_bytes", MetaInt sizeBytes);
               ("threshold_bytes", MetaInt (MaxSizeBytes cfg)) ] |} ]
    else findings in
  (* Multi-arch bloat *)
  let findings :=
    if Contains (MediaType img) "manifest.list" || Contains (MediaType img) "image.index" then
      if (0 <? StaleDays cfg) && negb (time.IsZero (UploadTime img)) then
        let staleThreshold := time.AddDate (now s) (- StaleDays cfg) in
        if time.Before (UploadTime img) staleThreshold then
          findings ++
          [ {| ID := FindingMultiArchBloat;
               Severity := SeverityLow;
               ResourceType := ResourceImage;
               ResourceID := imageID;
               ResourceName := resourceName;
               Region := Location repo;
               Message := Sprintf "Stale multi-architecture image (%.0f MB)"
                            [ArgFloat sizeMB];
               EstimatedMonthlyWaste := cost;
               Metadata := list_to_map
                 [ ("size_bytes", MetaInt sizeBytes);
                   ("media_type", MetaString (MediaType img)) ] |} ]
        else findings
      else findings
    else findings in
  findings.

Definition countStale (findings : list Finding) (staleCount : Z) : Z :=
  fold_left
    (fun staleCount f =>
       if String.eqb (ID f) FindingStaleImage then staleCount + 1 else staleCount)
    findings staleCount.

Definition scanImages (s : ARScanner) (cfg : ScanConfig) (repo : Repository)
    (images : list DockerImage) (run : Run) : Run * Z :=
  fold_left
    (fun '(run, staleCount) img =>
       let run := onResult incResourcesScanned run in
       let findings := analyzeImage s cfg repo img in
       let run := onResult (appendFindings findings) run in
       (run, countStale findings staleCount))
    images (run, 0).

Definition scanRepository (s : ARScanner) (cfg : ScanConfig) (repo : Repository)
    (progress : bool) (run : Run) : Run :=
  let run := reportProgress s progress (Location repo)
               (Sprintf "Scanning %s" [ArgString (RepoID repo)]) run in
  match ListDockerImages (client s) (Name repo) with
  | Err err =>
      onResult (appendError (Location repo +:+ "/" +:+ RepoID repo +:+ ": " +:+ err)) run
  | Ok images =>
      if len images =? 0 then
        onResult (appendFindings
          [ {| ID := FindingUnusedRepo;
               Severity := SeverityLow;
               ResourceType := ResourceRepository;
               ResourceID := RepoID repo;
               ResourceName := "";
               Region := Location repo;
               Message := Sprintf "Repository has no Docker images" [];
               EstimatedMonthlyWaste := zero;
               Metadata := ∅ |} ]) run
      else
        let '(run, staleCount) := scanImages s cfg repo images run in
        (* All images stale = unused repo *)
        if (staleCount =? len images) && (0 <? len images) then
          let totalWaste :=
            fold_left
              (fun totalWaste img =>
                 add totalWaste
                   (pricing.MonthlyStorageCost "artifactregistry" (Location repo)
                      (SizeBytes img)))
              images zero in
          onResult (appendFindings
            [ {| ID := FindingUnusedRepo;
                 Severity := SeverityLow;
                 ResourceType := ResourceRepository;
                 ResourceID := RepoID repo;
                 ResourceName := "";
                 Region := Location repo;
                 Message := Sprintf "All %d images are stale" [ArgInt (len images)];
                 EstimatedMonthlyWaste := totalWaste;
                 Metadata := list_to_map [ ("image_count", MetaInt (len images)) ] |} ]) run
        else run
  end.

(** The loop of [Scan] over the repositories of a location. *)
Definition scanRepositories (s : ARScanner) (cfg : ScanConfig) (progress : bool)
    (repos : list Repository) (run : Run) : Run :=
  fold_left
    (fun run repo =>
       if index (ResourceIDs (Exclude cfg)) (RepoID repo) then run
       else scanRepository s cfg repo progress run)
    repos run.

(** The body of the loop of [Scan] over the locations. *)
Definition scanLocation (s : ARScanner) (cfg : ScanConfig) (progress : bool)
    (run : Run) (location : string) : Run :=
  let run := reportProgress s progress location
               (Sprintf "Scanning location %s" [ArgString location]) run in
  match ListRepositories (client s) (project s) location with
  | Err err => onResult (appendError (location +:+ ": " +:+ err)) run
  | Ok repos =>
      let run := onResult (addRepositoriesScanned (len repos)) run in
      let run := reportProgress s progress location
                   (Sprintf "Found %d Docker repositories" [ArgInt (len repos)]) run in
      scanRepositories s cfg progress repos run
  end.

Definition Scan (s : ARScanner) (cfg : ScanConfig) (progress : bool) : Run :=
  fold_left (scanLocation s cfg progress) (locations s) newRun.

(** *** The client

    [Client] implements [ARAPI] over the SDK. The SDK is the replies of its
    two listing requests, each an iterator. *)

(** What an iterator yields: the end of the listing, an error, or an item
    and the rest. *)
Inductive Iterator (A : Type) : Type :=
  | Done
  | IterFail (err : string)
  | Next (item : A) (rest : Iterator A).
Arguments Done {A}.
Arguments IterFail {A} err.
Arguments Next {A} item rest.

(** [arpb.Repository_Format]: [DOCKER], or another format. *)
Inductive Repository_Format : Type :=
  | Repository_DOCKER
  | Repository_FORMAT (other : Z).

(** [arpb.Repository] and [arpb.DockerImage], through the getters that the
    client calls. The image's [GetName] is [ImageGetName] here;
    [GetUploadTime] is nil, or a timestamp given by its [AsTime]. *)
Record arpbRepository : Type := {
  GetName : string;
  GetFormat : Repository_Format
}.

Record arpbDockerImage : Type := {
  ImageGetName : string;
  GetUri : string;
  GetTags : list string;
  GetImageSizeBytes : Z;
  GetUploadTime : option time.Time;
  GetMediaType : string
}.

(** [Client]: [inner], as its replies to the two listing requests for a
    parent, and the project ([clientProject] here). *)
Record Client : Type := {
  innerListRepositories : string -> Iterator arpbRepository;
  innerListDockerImages : string -> Iterator arpbDockerImage;
  clientProject : string
}.

(** The loop of [extractRepoID], with [i = n - 1]. *)
Fixpoint extractRepoIDLoop (name : string) (n : nat) : string :=
  match n with
  | O => name
  | S i =>
      if match String.get i name with
         | Some c => Ascii.eqb c "/"%char
         | None => false
         end
      then String.substring (S i) (String.length name - S i) name
      else extractRepoIDLoop name i
  end.

Definition extractRepoID (name : string) : string :=
  extractRepoIDLoop name (String.length name).

Definition marker : string := "/dockerImages/".

(** The first loop of [extractRepoIDFromImage], which looks for the marker
    at index [i] and then further on, [steps] times in all; [None] is
    [idx = -1]. *)
Fixpoint findMarker (name : string) (i steps : nat) : option nat :=
  match steps with
  | O => None
  | S steps =>
      if String.eqb (String.substring i (String.length marker) name) marker
      then Some i
      else findMarker name (S i) steps
  end.

(** Its second loop, with [i = n - 1]. *)
Fixpoint segmentBefore (name : string) (idx n : nat) : string :=
  match n with
  | O => ""
  | S i =>
      if match String.get i name with
         | Some c => Ascii.eqb c "/"%char
         | None => false
         end
      then String.substring (S i) (idx - S i) name
      else segmentBefore name idx i
  end.

Definition extractRepoIDFromImage (name : string) : string :=
  match findMarker name 0 (S (String.length name) - String.length marker) with
  | None => ""
  | Some idx => segmentBefore name idx idx
  end.

(** The loop of [Client.ListRepositories] over the iterator. *)
Fixpoint listRepositoriesLoop (parent location : string) (it : Iterator arpbRepository)
    (repos : list Repository) : Result (list Repository) :=
  match it with
  | Done => Ok repos
  | IterFail err => Err ("list repositories in " +:+ parent +:+ ": " +:+ err)
  | Next repo rest =>
      (* Only include Docker repositories *)
      let repos :=
        match GetFormat repo with
        | Repository_DOCKER =>
            repos ++
            [ {| Name := GetName repo;
                 Location := location;
                 RepoID := extractRepoID (GetName repo);
                 Format := "DOCKER" |} ]
        | Repository_FORMAT _ => repos
        end in
      listRepositoriesLoop parent location rest repos
  end.

(** [Client.ListRepositories] *)
Definition ClientListRepositories (c : Client) (project location : string)
    : Result (list Repository) :=
  let parent := "projects/" +:+ project +:+ "/locations/" +:+ location in
  let it := innerListRepositories c parent in
  listRepositoriesLoop parent location it [].

(** The loop of [Client.ListDockerImages] over the iterator. *)
Fixpoint listDockerImagesLoop (parent : string) (it : Iterator arpbDockerImage)
    (images : list DockerImage) : Result (list DockerImage) :=
  match it with
  | Done => Ok images
  | IterFail err => Err ("list docker images in " +:+ parent +:+ ": " +:+ err)
  | Next img rest =>
      let uploadTime :=
        match GetUploadTime img with
        | Some t => t
        | None => 0
        end in
      listDockerImagesLoop parent rest
        (images ++
         [ {| ImageName := ImageGetName img;
              URI := GetUri img;
              Tags := GetTags img;
              SizeBytes := GetImageSizeBytes img;
              UploadTime := uploadTime;
              MediaType := GetMediaType img;
              RepositoryID := extractRepoIDFromImage (ImageGetName img) |} ])
  end.

(** [Client.ListDockerImages] *)
Definition ClientListDockerImages (c : Client) (parent : string)
    : Result (list DockerImage) :=
  let it := innerListDockerImages c parent in
  listDockerImagesLoop parent it [].

(** [*Client] as an [ARAPI]. *)
Definition ClientAPI (c : Client) : ARAPI :=
  {| ListRepositories := ClientListRepositories c;
     ListDockerImages := ClientListDockerImages c |}.

End artifactregistry.

(** ** Package analyzer *)

Module analyzer.

Record Summary : Type := {
  TotalResourcesScanned : Z;
  TotalFindings : Z;
  TotalMonthlyWaste : float64;
  BySeverity : gmap string Z;
  ByResourceType : gmap string Z;
  RepositoriesScanned : Z
}.

(** The field [Summary] is [Summary_] here. *)
Record AnalysisResult : Type := {
  Findings : list registry.Finding;
  Summary_ : Summary;
  Errors : list string
}.

Record AnalyzerConfig : Type := {
  MinMonthlyCost : float64
}.

(** [m[k]++] *)
Definition increment (k : string) (m : gmap string Z) : gmap string Z :=
  <[ k := index m k + 1 ]> m.

(** The body of the loop over the filtered findings. *)
Definition summaryStep (summary : Summary) (f : registry.Finding) : Summary :=
  {| TotalResourcesScanned := TotalResourcesScanned summary;
     TotalFindings := TotalFindings summary;
     TotalMonthlyWaste :=
       add (TotalMonthlyWaste summary) (registry.EstimatedMonthlyWaste f);
     BySeverity := increment (registry.Severity f) (BySeverity summary);
     ByResourceType := increment (registry.ResourceType f) (ByResourceType summary);
     RepositoriesScanned := RepositoriesScanned summary |}.

Definition Analyze (result : registry.ScanResult) (cfg : AnalyzerConfig) : AnalysisResult :=
  let filtered :=
    fold_left
      (fun filtered f =>
         if ge (registry.EstimatedMonthlyWaste f) (MinMonthlyCost cfg)
         then filtered ++ [f] else filtered)
      (registry.Findings result) [] in
  let summary :=
    {| TotalResourcesScanned := registry.ResourcesScanned result;
       TotalFindings := len filtered;
       TotalMonthlyWaste := zero;
       BySeverity := ∅;
       ByResourceType := ∅;
       RepositoriesScanned := registry.RepositoriesScanned result |} in
  let summary := fold_left summaryStep filtered summary in
  {| Findings := filtered; Summary_ := summary; Errors := registry.Errors result |}.

End analyzer.

(** ** Package report: the SARIF reporter

    [Generate] builds a [sarifReport] and hands it to the JSON encoder; the
    report is modelled, its encoding is not. *)
Module report.

(** [Data], with the fields the SARIF reporter reads. *)
Record Data : Type := {
  Tool : string;
  Version : string;
  Findings : list registry.Finding
}.

(** The field [Text] is [MessageText] here. *)
Record sarifMessage : Type := {
  MessageText : Text
}.

Record sarifDefaultLevel : Type := {
  Level : string
}.

Record sarifRule : Type := {
  ID : string;
  ShortDescription : sarifMessage;
  DefaultConfig : sarifDefaultLevel
}.

Record sarifArtifact : Type := {
  URI : string
}.

Record sarifPhysical : Type := {
  ArtifactLocation : sarifArtifact
}.

Record sarifLoc : Type := {
  PhysicalLocation : sarifPhysical
}.

(** The values of a result's property bag. *)
Inductive PropValue : Type :=
  | PropString (s : string)
  | PropFloat (x : float64)
  | PropMetadata (m : gmap string registry.MetaValue).

(** The field [Level] of a result is [ResultLevel] here. *)
Record sarifResult : Type := {
  RuleID : string;
  ResultLevel : string;
  Message : sarifMessage;
  Locations : list sarifLoc;
  Props : gmap string PropValue
}.

Record sarifDriver : Type := {
  Name : string;
  DriverVersion : string;
  Rules : list sarifRule
}.

Record sarifTool : Type := {
  Driver : sarifDriver
}.

Record sarifRun : Type := {
  RunTool : sarifTool;
  Results : list sarifResult
}.

Record sarifReport : Type := {
  Schema : string;
  ReportVersion : string;
  Runs : list sarifRun
}.

Definition sarifSchema : string :=
  "https://raw.githubusercontent.com/oasis-tcs/sarif-spec/main/sarif-2.1/schema/sarif-schema-2.1.0.json".

Definition sarifLevel (s : string) : string :=
  if String.eqb s registry.SeverityCritical then "error"
  else if String.eqb s registry.SeverityHigh then "error"
  else if String.eqb s registry.SeverityMedium then "warning"
  else "note".

Definition buildSARIFRules : list sarifRule :=
  [ {| ID := registry.FindingUntaggedImage;
       ShortDescription := {| MessageText := Sprintf "Untagged container image" [] |};
       DefaultConfig := {| Level := "error" |} |};
    {| ID := registry.FindingStaleImage;
       ShortDescription := {| MessageText := Sprintf "Stale container image" [] |};
       DefaultConfig := {| Level := "error" |} |};
    {| ID := registry.FindingLargeImage;
       ShortDescription := {| MessageText := Sprintf "Oversized container image" [] |};
       DefaultConfig := {| Level := "warning" |} |};
    {| ID := registry.FindingNoLifecyclePolicy;
       ShortDescription := {| MessageText := Sprintf "No lifecycle policy on repository" [] |};
       DefaultConfig := {| Level := "warning" |} |};
    {| ID := registry.FindingVulnerableImage;
       ShortDescription := {| MessageText := Sprintf "Vulnerable container image" [] |};
       DefaultConfig := {| Level := "error" |} |};
    {| ID := registry.FindingUnusedRepo;
       ShortDescription := {| MessageText := Sprintf "Unused container repository" [] |};
       DefaultConfig := {| Level := "note" |} |};
    {| ID := registry.FindingMultiArchBloat;
       ShortDescription := {| MessageText := Sprintf "Multi-architecture bloat" [] |};
       DefaultConfig := {| Level := "note" |} |} ].

(** The report that [SARIFReporter.Generate] encodes. *)
Definition Generate (data : Data) : sarifReport :=
  let rules := buildSARIFRules in
  let results :=
    fold_left
      (fun results f =>
         results ++
         [ {| RuleID := registry.ID f;
              ResultLevel := sarifLevel (registry.Severity f);
              Message := {| MessageText := registry.Message f |};
              Locations :=
                [ {| PhysicalLocation :=
                       {| ArtifactLocation :=
                            {| URI := "registry://" +:+ registry.Region f +:+ "/" +:+
                                      registry.ResourceType f +:+ "/" +:+
                                      registry.ResourceID f |} |} |} ];
              Props := list_to_map
                [ ("resourceName", PropString (registry.ResourceName f));
                  ("estimatedMonthlyWaste", PropFloat (registry.EstimatedMonthlyWaste f));
                  ("metadata", PropMetadata (registry.Metadata f)) ] |} ])
      (Findings data) [] in
  {| Schema := sarifSchema;
     ReportVersion := "2.1.0";
     Runs :=
       [ {| RunTool :=
              {| Driver :=
                   {| Name := Tool data; DriverVersion := Version data; Rules := rules |} |};
            Results := results |} ] |}.

End report.

(** ** Package config *)
Module config.

Record Exclude : Type := {
  ResourceIDs : list string;
  Tags : list string
}.

(** The field [Exclude] is [Exclude_] here. *)
Record Config : Type := {
  Provider : string;
  Regions : list string;
  Profile : string;
  Project : string;
  StaleDays : Z;
  MaxSizeMB : Z;
  MinMonthlyCost : float64;
  Format : string;
  Timeout : string;
  Exclude_ : Exclude
}.

End config.

(** ** Package commands: flags and configuration defaults

    The flag variables [awsFlags] and [gcpFlags] are package-level state;
    the functions that assign to them take the flags and return them. *)
Module commands.

(** [x > y] on [float64]. *)
Definition gt (x y : float64) : bool := SFltb y x.

(** The two flag structs, [awsFlags] and [gcpFlags]. *)
Module awsFlags.
Record t : Type := {
  region : string;
  profile : string;
  staleDays : Z;
  maxSizeMB : Z;
  format : string;
  outputFile : string;
  minMonthlyCost : float64;
  includeScan : bool;
  noProgress : bool;
  timeout : time.Duration;
  excludeTags : list string
}.
End awsFlags.

Module gcpFlags.
Record t : Type := {
  project : string;
  locations : list string;
  staleDays : Z;
  maxSizeMB : Z;
  format : string;
  outputFile : string;
  minMonthlyCost : float64;
  noProgress : bool;
  timeout : time.Duration;
  excludeTags : list string
}.
End gcpFlags.

(** The values that the two [init] functions register as defaults. *)
Definition awsFlagDefaults : awsFlags.t :=
  {| awsFlags.region := ""; awsFlags.profile := ""; awsFlags.staleDays := 90;
     awsFlags.maxSizeMB := 1024; awsFlags.format := "text"; awsFlags.outputFile := "";
     awsFlags.minMonthlyCost := lit_0_10; awsFlags.includeScan := false;
     awsFlags.noProgress := false; awsFlags.timeout := 10 * 60 * 1000000000;
     awsFlags.excludeTags := [] |}.

Definition gcpFlagDefaults : gcpFlags.t :=
  {| gcpFlags.project := ""; gcpFlags.locations := []; gcpFlags.staleDays := 90;
     gcpFlags.maxSizeMB := 1024; gcpFlags.format := "text"; gcpFlags.outputFile := "";
     gcpFlags.minMonthlyCost := lit_0_10; gcpFlags.noProgress := false;
     gcpFlags.timeout := 10 * 60 * 1000000000; gcpFlags.excludeTags := [] |}.

(** [applyAWSConfigDefaults]: each of its four tests reads the one flag it
    may assign, so the flags are computed one by one. *)
Definition applyAWSConfigDefaults (cfg : config.Config) (flags : awsFlags.t) : awsFlags.t :=
  let format :=
    if String.eqb (awsFlags.format flags) "text" && negb (String.eqb (config.Format cfg) "")
    then config.Format cfg else awsFlags.format flags in
  let staleDays :=
    if (awsFlags.staleDays flags =? 90) && (0 <? config.StaleDays cfg)
    then config.StaleDays cfg else awsFlags.staleDays flags in
  let maxSizeMB :=
    if (awsFlags.maxSizeMB flags =? 1024) && (0 <? config.MaxSizeMB cfg)
    then config.MaxSizeMB cfg else awsFlags.maxSizeMB flags in
  let minMonthlyCost :=
    if eq (awsFlags.minMonthlyCost flags) lit_0_10 && gt (config.MinMonthlyCost cfg) zero
    then config.MinMonthlyCost cfg else awsFlags.minMonthlyCost flags in
  {| awsFlags.region := awsFlags.region flags;
     awsFlags.profile := awsFlags.profile flags;
     awsFlags.staleDays := staleDays;
     awsFlags.maxSizeMB := maxSizeMB;
     awsFlags.format := format;
     awsFlags.outputFile := awsFlags.outputFile flags;
     awsFlags.minMonthlyCost := minMonthlyCost;
     awsFlags.includeScan := awsFlags.includeScan flags;
     awsFlags.noProgress := awsFlags.noProgress flags;
     awsFlags.timeout := awsFlags.timeout flags;
     awsFlags.excludeTags := awsFlags.excludeTags flags |}.

(** [applyGCPConfigDefaults], likewise, with the project as a fifth. *)
Definition applyGCPConfigDefaults (cfg : config.Config) (flags : gcpFlags.t) : gcpFlags.t :=
  let format :=
    if String.eqb (gcpFlags.format flags) "text" && negb (String.eqb (config.Format cfg) "")
    then config.Format cfg else gcpFlags.format flags in
  let staleDays :=
    if (gcpFlags.staleDays flags =? 90) && (0 <? config.StaleDays cfg)
    then config.StaleDays cfg else gcpFlags.staleDays flags in
  let maxSizeMB :=
    if (gcpFlags.maxSizeMB flags =? 1024) && (0 <? config.MaxSizeMB cfg)
    then config.MaxSizeMB cfg else gcpFlags.maxSizeMB flags in
  let minMonthlyCost :=
    if eq (gcpFlags.minMonthlyCost flags) lit_0_10 && gt (config.MinMonthlyCost cfg) zero
    then config.MinMonthlyCost cfg else gcpFlags.minMonthlyCost flags in
  let project :=
    if String.eqb (gcpFlags.project flags) "" && negb (String.eqb (config.Project cfg) "")
    then config.Project cfg else gcpFlags.project flags in
  {| gcpFlags.project := project;
     gcpFlags.locations := gcpFlags.locations flags;
     gcpFlags.staleDays := staleDays;
     gcpFlags.maxSizeMB := maxSizeMB;
     gcpFlags.format := format;
     gcpFlags.outputFile := gcpFlags.outputFile flags;
     gcpFlags.minMonthlyCost := minMonthlyCost;
     gcpFlags.noProgress := gcpFlags.noProgress flags;
     gcpFlags.timeout := gcpFlags.timeout flags;
     gcpFlags.excludeTags := gcpFlags.excludeTags flags |}.

(** [runGCP], up to the creation of the client: the error it returns there,
    or the flags and the locations it goes on with. [cfg] is the
    configuration that [config.Load] returned. *)
Definition runGCP (cfg : config.Config) (flags : gcpFlags.t)
    : Result (gcpFlags.t * list string) :=
  if String.eqb (gcpFlags.project flags) "" then
    Err "--project is required for GCP scans"
  else
    let flags := applyGCPConfigDefaults cfg flags in
    let locations := gcpFlags.locations flags in
    let locations :=
      if (len locations =? 0) && (0 <? len (config.Regions cfg))
      then config.Regions cfg else locations in
    if len locations =? 0 then
      Err "--locations is required (e.g., us-central1,europe-west1)"
    else Ok (flags, locations).

End commands.

(** ** The design's words

    Definitions that follow the design document, to which the code is
    compared. *)

Module design.

(** "a single global default" *)
Definition globalDefaultRate : float64 := lit_0_10.

(** "keyed first by exact (provider, region), then (provider, "default"),
    then a single global default" *)
Definition ratePerGB (provider region : string) : float64 :=
  match pricing.StorageCosts !! provider ≫= (.!! region) with
  | Some rate => rate
  | None =>
      match pricing.StorageCosts !! provider ≫= (.!! "default") with
      | Some rate => rate
      | None => globalDefaultRate
      end
  end.

(** "last-pull time if the provider supplies one, else push/upload time" *)
Definition lastActivity (lastPull pushed : option time.Time) : option time.Time :=
  match lastPull with
  | Some t => Some t
  | None => pushed
  end.


(** "the sum of all images' individual monthly costs", added up in order
    from zero. *)
Definition sum (costs : list float64) : float64 := fold_left add costs zero.

(** The number of elements of a list that satisfy a test. *)
Definition count {A} (test : A -> bool) (l : list A) : Z :=
  len (List.filter test l).

(** The largest [int64]. *)
Definition maxInt64 : Z := 2 ^ 63 - 1.


(** The [UNUSED_REPO] rule for a repository with [count] images, on the
    findings [unused] of that kind which its scan added: when every image
    was flagged stale there is exactly one, repository-scoped, whose waste
    is the sum of the images' costs and whose metadata records the image
    count; otherwise there is none. *)
Definition unusedRepoRule (count : Z) (allStale : Prop) (costs : list float64)
    (unused : list registry.Finding) : Prop :=
  (allStale ->
     exists f, unused = [f] /\
       registry.ResourceType f = registry.ResourceRepository /\
       registry.EstimatedMonthlyWaste f = sum costs /\
       registry.Metadata f !! "image_count" = Some (registry.MetaInt count)) /\
  (~ allStale -> unused = []).


End design.

(** ** The rule conditions of the classifiers

    The tests under which each scanner's [analyzeImage] adds a finding, read
    off its branches, and the kinds of findings they give in order. *)

Module Rules.
Import registry.

(** What the properties below look at in a finding. *)
Definition kind (f : Finding) : string * string * string :=
  (ID f, Severity f, ResourceType f).

Definition ecrUntagged (img : ecr.ImageDetail) : bool :=
  len (ecr.ImageTags img) =? 0.

Definition ecrStale (s : ecr.ECRScanner) (cfg : ScanConfig) (img : ecr.ImageDetail) : bool :=
  (0 <? StaleDays cfg) &&
  match ecr.lastActivityTime img with
  | Some lastActivity =>
      time.Before lastActivity (time.AddDate (ecr.now s) (- StaleDays cfg))
  | None => false
  end.

Definition ecrLarge (cfg : ScanConfig) (img : ecr.ImageDetail) : bool :=
  (0 <? MaxSizeBytes cfg) && (MaxSizeBytes cfg <? ecr.derefInt64 (ecr.ImageSizeInBytes img)).

Definition ecrManifestList (img : ecr.ImageDetail) : bool :=
  match ecr.ImageManifestMediaType img with
  | Some mediaType => Contains mediaType "manifest.list"
  | None => false
  end.

Definition ecrKinds (s : ecr.ECRScanner) (cfg : ScanConfig) (img : ecr.ImageDetail)
    : list (string * string * string) :=
  (if ecrUntagged img then [(FindingUntaggedImage, SeverityHigh, ResourceImage)] else []) ++
  (if ecrStale s cfg img then [(FindingStaleImage, SeverityHigh, ResourceImage)] else []) ++
  (if ecrLarge cfg img then [(FindingLargeImage, SeverityMedium, ResourceImage)] else []) ++
  (if ecrManifestList img && ecrStale s cfg img
   then [(FindingMultiArchBloat, SeverityLow, ResourceImage)] else []).

Definition arUntagged (img : artifactregistry.DockerImage) : bool :=
  len (artifactregistry.Tags img) =? 0.

Definition arStale (s : artifactregistry.ARScanner) (cfg : ScanConfig)
    (img : artifactregistry.DockerImage) : bool :=
  (0 <? StaleDays cfg) && negb (time.IsZero (artifactregistry.UploadTime img)) &&
  time.Before (artifactregistry.UploadTime img)
    (time.AddDate (artifactregistry.now s) (- StaleDays cfg)).

Definition arLarge (cfg : ScanConfig) (img : artifactregistry.DockerImage) : bool :=
  (0 <? MaxSizeBytes cfg) && (MaxSizeBytes cfg <? artifactregistry.SizeBytes img).

Definition arMultiPlatform (img : artifactregistry.DockerImage) : bool :=
  Contains (artifactregistry.MediaType img) "manifest.list"
  || Contains (artifactregistry.MediaType img) "image.index".

Definition arKinds (s : artifactregistry.ARScanner) (cfg : ScanConfig)
    (img : artifactregistry.DockerImage) : list (string * string * string) :=
  (if arUntagged img then [(FindingUntaggedImage, SeverityHigh, ResourceImage)] else []) ++
  (if arStale s cfg img then [(FindingStaleImage, SeverityHigh, ResourceImage)] else []) ++
  (if arLarge cfg img then [(FindingLargeImage, SeverityMedium, ResourceImage)] else []) ++
  (if arMultiPlatform img && arStale s cfg img
   then [(FindingMultiArchBloat, SeverityLow, ResourceImage)] else []).

(** A finding of a kind that an Artifact Registry scan may hold. *)
Definition gcpKind (f : Finding) : Prop :=
  ID f <> FindingNoLifecyclePolicy /\ ID f <> FindingVulnerableImage.

(** The kinds of findings an image can receive. *)
Definition imageIDs : list string :=
  [FindingUntaggedImage; FindingStaleImage; FindingLargeImage; FindingMultiArchBloat].

(** Accumulation: what a scan step adds to a [ScanResult] is merged into
    it. *)
Definition merge (a b : ScanResult) : ScanResult :=
  {| Findings := Findings a ++ Findings b;
     Errors := Errors a ++ Errors b;
     ResourcesScanned := ResourcesScanned a + ResourcesScanned b;
     RepositoriesScanned := RepositoriesScanned a + RepositoriesScanned b |}.

Definition mergeAll (l : list ScanResult) : ScanResult :=
  fold_right merge emptyResult l.

(** The [STALE_IMAGE] findings that the images of a repository receive. *)
Definition ecrStaleTotal (s : ecr.ECRScanner) (cfg : ScanConfig) (repoName : string)
    (images : list ecr.ImageDetail) : Z :=
  len (findByID (flat_map (ecr.analyzeImage s cfg repoName) images) FindingStaleImage).

Definition arStaleTotal (s : artifactregistry.ARScanner) (cfg : ScanConfig)
    (repo : artifactregistry.Repository) (images : list artifactregistry.DockerImage) : Z :=
  len (findByID (flat_map (artifactregistry.analyzeImage s cfg repo) images) FindingStaleImage).

(** What scanning one ECR repository adds to the result, step by step. *)
Definition ecrListingError (s : ecr.ECRScanner) (repoName err : string) : ScanResult :=
  {| Findings := [];
     Errors := [ecr.region s +:+ "/" +:+ repoName +:+ ": " +:+ err];
     ResourcesScanned := 0;
     RepositoriesScanned := 0 |}.

Definition ecrEmptyRepo (s : ecr.ECRScanner) (repoName : string) : Finding :=
  {| ID := FindingUnusedRepo;
     Severity := SeverityLow;
     ResourceType := ResourceRepository;
     ResourceID := repoName;
     ResourceName := "";
     Region := ecr.region s;
     Message := Sprintf "Repository has no images" [];
     EstimatedMonthlyWaste := zero;
     Metadata := ∅ |}.

Definition ecrNoPolicy (s : ecr.ECRScanner) (repoName : string) : Finding :=
  {| ID := FindingNoLifecyclePolicy;
     Severity := SeverityMedium;
     ResourceType := ResourceRepository;
     ResourceID := repoName;
     ResourceName := "";
     Region := ecr.region s;
     Message := Sprintf
       "No lifecycle policy configured — images accumulate indefinitely" [];
     EstimatedMonthlyWaste := zero;
     Metadata := ∅ |}.

Definition ecrAllStale (s : ecr.ECRScanner) (repoName : string)
    (images : list ecr.ImageDetail) : Finding :=
  {| ID := FindingUnusedRepo;
     Severity := SeverityLow;
     ResourceType := ResourceRepository;
     ResourceID := repoName;
     ResourceName := "";
     Region := ecr.region s;
     Message := Sprintf "All %d images are stale" [ArgInt (len images)];
     EstimatedMonthlyWaste :=
       fold_left
         (fun totalWaste img =>
            add totalWaste
              (pricing.MonthlyStorageCost "ecr" (ecr.region s)
                 (ecr.derefInt64 (ecr.ImageSizeInBytes img))))
         images zero;
     Metadata := list_to_map [ ("image_count", MetaInt (len images)) ] |}.

Definition findingsOnly (fs : list Finding) : ScanResult :=
  {| Findings := fs; Errors := []; ResourcesScanned := 0; RepositoriesScanned := 0 |}.

Definition ecrPolicyAdds (s : ecr.ECRScanner) (repoName : string) : ScanResult :=
  match ecr.HasLifecyclePolicy (ecr.client s) repoName with
  | Err err =>
      {| Findings := [];
         Errors := [ecr.region s +:+ "/" +:+ repoName +:+ " lifecycle: " +:+ err];
         ResourcesScanned := 0;
         RepositoriesScanned := 0 |}
  | Ok hasPolicy =>
      if negb hasPolicy then findingsOnly [ecrNoPolicy s repoName] else emptyResult
  end.

Definition ecrImagesAdd (s : ecr.ECRScanner) (cfg : ScanConfig) (repoName : string)
    (images : list ecr.ImageDetail) : ScanResult :=
  {| Findings := flat_map (ecr.analyzeImage s cfg repoName) images;
     Errors := [];
     ResourcesScanned := len images;
     RepositoriesScanned := 0 |}.

Definition ecrUnusedAdds (s : ecr.ECRScanner) (cfg : ScanConfig) (repoName : string)
    (images : list ecr.ImageDetail) : ScanResult :=
  if (ecrStaleTotal s cfg repoName images =? len images) && (0 <? len images)
  then findingsOnly [ecrAllStale s repoName images] else emptyResult.

Definition ecrRepoAdds (s : ecr.ECRScanner) (cfg : ScanConfig) (repo : ecr.Repository)
    : ScanResult :=
  let repoName := ecr.deref (ecr.RepositoryName repo) in
  match ecr.ListImages (ecr.client s) repoName with
  | Err err => ecrListingError s repoName err
  | Ok images =>
      if len images =? 0 then findingsOnly [ecrEmptyRepo s repoName]
      else merge (ecrPolicyAdds s repoName)
             (merge (ecrImagesAdd s cfg repoName images)
                (ecrUnusedAdds s cfg repoName images))
  end.

(** What scanning one Artifact Registry repository adds. *)
Definition arListingError (repo : artifactregistry.Repository) (err : string) : ScanResult :=
  {| Findings := [];
     Errors := [artifactregistry.Location repo +:+ "/" +:+ artifactregistry.RepoID repo
                +:+ ": " +:+ err];
     ResourcesScanned := 0;
     RepositoriesScanned := 0 |}.

Definition arEmptyRepo (repo : artifactregistry.Repository) : Finding :=
  {| ID := FindingUnusedRepo;
     Severity := SeverityLow;
     ResourceType := ResourceRepository;
     ResourceID := artifactregistry.RepoID repo;
     ResourceName := "";
     Region := artifactregistry.Location repo;
     Message := Sprintf "Repository has no Docker images" [];
     EstimatedMonthlyWaste := zero;
     Metadata := ∅ |}.

Definition arAllStale (repo : artifactregistry.Repository)
    (images : list artifactregistry.DockerImage) : Finding :=
  {| ID := FindingUnusedRepo;
     Severity := SeverityLow;
     ResourceType := ResourceRepository;
     ResourceID := artifactregistry.RepoID repo;
     ResourceName := "";
     Region := artifactregistry.Location repo;
     Message := Sprintf "All %d images are stale" [ArgInt (len images)];
     EstimatedMonthlyWaste :=
       fold_left
         (fun totalWaste img =>
            add totalWaste
              (pricing.MonthlyStorageCost "artifactregistry"
                 (artifactregistry.Location repo) (artifactregistry.SizeBytes img)))
         images zero;
     Metadata := list_to_map [ ("image_count", MetaInt (len images)) ] |}.

Definition arImagesAdd (s : artifactregistry.ARScanner) (cfg : ScanConfig)
    (repo : artifactregistry.Repository) (images : list artifactregistry.DockerImage)
    : ScanResult :=
  {| Findings := flat_map (artifactregistry.analyzeImage s cfg repo) images;
     Errors := [];
     ResourcesScanned := len images;
     RepositoriesScanned := 0 |}.

Definition arUnusedAdds (s : artifactregistry.ARScanner) (cfg : ScanConfig)
    (repo : artifactregistry.Repository) (images : list artifactregistry.DockerImage)
    : ScanResult :=
  if (arStaleTotal s cfg repo images =? len images) && (0 <? len images)
  then findingsOnly [arAllStale repo images] else emptyResult.

Definition arRepoAdds (s : artifactregistry.ARScanner) (cfg : ScanConfig)
    (repo : artifactregistry.Repository) : ScanResult :=
  match artifactregistry.ListDockerImages (artifactregistry.client s)
          (artifactregistry.Name repo) with
  | Err err => arListingError repo err
  | Ok images =>
      if len images =? 0 then findingsOnly [arEmptyRepo repo]
      else merge (arImagesAdd s cfg repo images) (arUnusedAdds s cfg repo images)
  end.

(** The repositories in the exclusion set. *)
Definition ecrExcluded (cfg : ScanConfig) (repo : ecr.Repository) : bool :=
  index (ResourceIDs (Exclude cfg)) (ecr.deref (ecr.RepositoryName repo)).

Definition arExcluded (cfg : ScanConfig) (repo : artifactregistry.Repository) : bool :=
  index (ResourceIDs (Exclude cfg)) (artifactregistry.RepoID repo).

(** What the repositories of a listing add, the excluded ones apart. *)
Definition ecrReposAdd (s : ecr.ECRScanner) (cfg : ScanConfig) (repos : list ecr.Repository)
    : ScanResult :=
  mergeAll (map (fun repo =>
                   if ecrExcluded cfg repo then emptyResult else ecrRepoAdds s cfg repo)
              repos).

Definition arReposAdd (s : artifactregistry.ARScanner) (cfg : ScanConfig)
    (repos : list artifactregistry.Repository) : ScanResult :=
  mergeAll (map (fun repo =>
                   if arExcluded cfg repo then emptyResult else arRepoAdds s cfg repo)
              repos).

Definition repositoriesOnly (n : Z) : ScanResult :=
  {| Findings := []; Errors := []; ResourcesScanned := 0; RepositoriesScanned := n |}.

Definition errorOnly (e : string) : ScanResult :=
  {| Findings := []; Errors := [e]; ResourcesScanned := 0; RepositoriesScanned := 0 |}.

(** The repositories that the listing of a location returns. *)
Definition arListed (s : artifactregistry.ARScanner) (location : string) : Z :=
  match artifactregistry.ListRepositories (artifactregistry.client s)
          (artifactregistry.project s) location with
  | Err _ => 0
  | Ok repos => len repos
  end.

Definition total (l : list Z) : Z := fold_right Z.add 0 l.

(** What scanning one location adds. *)
Definition arLocationAdds (s : artifactregistry.ARScanner) (cfg : ScanConfig)
    (location : string) : ScanResult :=
  match artifactregistry.ListRepositories (artifactregistry.client s)
          (artifactregistry.project s) location with
  | Err err => errorOnly (location +:+ ": " +:+ err)
  | Ok repos => merge (repositoriesOnly (len repos)) (arReposAdd s cfg repos)
  end.

(** The progress events of each scanner. *)
Definition ecrProgress (s : ecr.ECRScanner) (msg : Text) : ScanProgress :=
  {| ProgressRegion := ecr.region s; ProgressScanner := "ecr"; ProgressMessage := msg |}.

Definition arProgress (location : string) (msg : Text) : ScanProgress :=
  {| ProgressRegion := location; ProgressScanner := "artifactregistry";
     ProgressMessage := msg |}.

(** A chain of pages that ends in [last]. *)
Definition pagesThen {A} (pages : list (list A)) (last : Paged A) : Paged A :=
  fold_right PageNext last pages.

(** The items that an iterator yields before it ends, and the error it
    ends with, if it does. *)
Fixpoint iteratorItems {A} (it : artifactregistry.Iterator A) : list A :=
  match it with
  | artifactregistry.Done | artifactregistry.IterFail _ => []
  | artifactregistry.Next item rest => item :: iteratorItems rest
  end.

Fixpoint iteratorError {A} (it : artifactregistry.Iterator A) : option string :=
  match it with
  | artifactregistry.Done => None
  | artifactregistry.IterFail err => Some err
  | artifactregistry.Next _ rest => iteratorError rest
  end.

Definition isDocker (repo : artifactregistry.arpbRepository) : bool :=
  match artifactregistry.GetFormat repo with
  | artifactregistry.Repository_DOCKER => true
  | artifactregistry.Repository_FORMAT _ => false
  end.

(** The result of an analysis, read as a scan result again. *)
Definition analysed (a : analyzer.AnalysisResult) : ScanResult :=
  {| Findings := analyzer.Findings a;
     Errors := analyzer.Errors a;
     ResourcesScanned := analyzer.TotalResourcesScanned (analyzer.Summary_ a);
     RepositoriesScanned := analyzer.RepositoriesScanned (analyzer.Summary_ a) |}.

(** The sum of the counts of a histogram. *)
Definition countsTotal (m : gmap string Z) : Z :=
  map_fold (fun _ count sum => sum + count) 0 m.

End Rules.

(** ** Rounding to binary64, arithmetically

    The rounding that [SpecFloat] performs by shifting, restated on integers:
    [rne N k] is [N / 2^k] rounded to nearest, ties to even, and
    [round53 M E] is the 53-bit mantissa and the exponent of the binary64
    nearest to [M * 2^E]. They serve the proofs about [pricing]. *)

Module Rounding.

Definition locR (R P : Z) : location :=
  if R =? 0 then loc_Exact else loc_Inexact (2 * R ?= P).

Definition rne (N k : Z) : Z :=
  round_nearest_even (N / 2 ^ k) (locR (N mod 2 ^ k) (2 ^ k)).

Definition round53 (M E : Z) : Z * Z :=
  let D := Zdigits2 M in
  if D <=? 53 then (M * 2 ^ (53 - D), E + D - 53)
  else
    let k := D - 53 in
    let m1 := rne M k in
    if m1 =? 2 ^ 53 then (2 ^ 52, E + k + 1) else (m1, E + k).

(** The order of positive floats with 53-bit mantissas. *)
Definition lexle (a b : Z * Z) : Prop :=
  snd a < snd b \/ (snd a = snd b /\ fst a <= fst b).

Definition fin (a : Z * Z) : float64 :=
  S754_finite false (Z.to_pos (fst a)) (snd a).

End Rounding.

(** ** Fixtures of the test suites *)

Module Fixtures.
Import registry.

(** 2026-02-28 12:00:00 UTC *)
Definition now : time.Time := 739674 * time.Day + 12 * time.Hour.
Definition recent : time.Time := time.AddDate now (-10).
Definition stale120 : time.Time := time.AddDate now (-120).
Definition stale200 : time.Time := time.AddDate now (-200).
Definition oneGB : Z := 1073741824.
Definition twoGB : Z := 2 * 1073741824.
Definition halfGB : Z := 536870912.
Definition hundredMB : Z := 104857600.

Definition defaultCfg : ScanConfig :=
  {| StaleDays := 90; MaxSizeBytes := oneGB; MinMonthlyCost := zero;
     Exclude := {| ResourceIDs := ∅; Tags := ∅ |} |}.

(** [mockECRClient] *)
Record mockECRClient : Type := {
  repos : list ecr.Repository;
  images : gmap string (list ecr.ImageDetail);
  lifecycleRepos : gmap string bool;
  scanFindings : gmap string ecr.ScanFindingsOutput;
  descRepoErr : option string;
  descImagesErr : gmap string string;
  lifecycleErr : gmap string string
}.

Definition newMockClient : mockECRClient :=
  {| repos := []; images := ∅; lifecycleRepos := ∅; scanFindings := ∅;
     descRepoErr := None; descImagesErr := ∅; lifecycleErr := ∅ |}.

Definition mockECR (m : mockECRClient) : ecr.ECRAPI :=
  {| ecr.DescribeRepositories :=
       match descRepoErr m with
       | Some err => PageFail err
       | None => PageLast (repos m)
       end;
     ecr.DescribeImages := fun repo =>
       match descImagesErr m !! repo with
       | Some err => PageFail err
       | None => PageLast (index (images m) repo)
       end;
     ecr.GetLifecyclePolicy := fun repo =>
       match lifecycleErr m !! repo with
       | Some err => ecr.PolicyFailure err
       | None =>
           if index (lifecycleRepos m) repo then ecr.PolicyOutput
           else ecr.PolicyNotFound "lifecycle policy not found"
       end;
     ecr.DescribeImageScanFindings := fun repo digest =>
       match scanFindings m !! (repo +:+ "@" +:+ digest) with
       | Some out => Ok out
       | None => Ok {| ecr.ImageScanFindings := None |}
       end |}.

(** [makeImage] of the ECR tests; a zero [lastPull] is [None]. *)
Definition makeImage (digest : string) (tags : list string) (sizeBytes : Z)
    (pushedAt : time.Time) (lastPull : option time.Time) : ecr.ImageDetail :=
  {| ecr.ImageDigest := Some digest;
     ecr.ImageSizeInBytes := Some sizeBytes;
     ecr.ImagePushedAt := Some pushedAt;
     ecr.LastRecordedPullTime := lastPull;
     ecr.ImageTags := tags;
     ecr.ImageManifestMediaType := None |}.

Definition withMediaType (mediaType : string) (img : ecr.ImageDetail) : ecr.ImageDetail :=
  {| ecr.ImageDigest := ecr.ImageDigest img;
     ecr.ImageSizeInBytes := ecr.ImageSizeInBytes img;
     ecr.ImagePushedAt := ecr.ImagePushedAt img;
     ecr.LastRecordedPullTime := ecr.LastRecordedPullTime img;
     ecr.ImageTags := ecr.ImageTags img;
     ecr.ImageManifestMediaType := Some mediaType |}.

Definition makeRepo (name : string) : ecr.Repository :=
  {| ecr.RepositoryName := Some name |}.

Definition newTestScanner (client : ecr.ECRAPI) : ecr.ECRScanner :=
  {| ecr.client := client; ecr.region := "us-east-1"; ecr.includeScan := false;
     ecr.now := now |}.

(** [mockARClient] *)
Record mockARClient : Type := {
  arRepos : gmap string (list artifactregistry.Repository);
  arImages : gmap string (list artifactregistry.DockerImage);
  listRepoErr : gmap string string;
  listImagesErr : gmap string string
}.

Definition newMockARClient : mockARClient :=
  {| arRepos := ∅; arImages := ∅; listRepoErr := ∅; listImagesErr := ∅ |}.

Definition mockAR (m : mockARClient) : artifactregistry.ARAPI :=
  {| artifactregistry.ListRepositories := fun project location =>
       let key := project +:+ "/" +:+ location in
       match listRepoErr m !! key with
       | Some err => Err err
       | None => Ok (index (arRepos m) key)
       end;
     artifactregistry.ListDockerImages := fun parent =>
       match listImagesErr m !! parent with
       | Some err => Err err
       | None => Ok (index (arImages m) parent)
       end |}.

Definition makeARRepo (name location repoID : string) : artifactregistry.Repository :=
  {| artifactregistry.Name := name; artifactregistry.Location := location;
     artifactregistry.RepoID := repoID; artifactregistry.Format := "DOCKER" |}.

Definition makeARImage (uri : string) (tags : list string) (sizeBytes : Z)
    (uploadTime : time.Time) (mediaType : string) : artifactregistry.DockerImage :=
  {| artifactregistry.ImageName := "projects/p/locations/l/repositories/r/dockerImages/img";
     artifactregistry.URI := uri;
     artifactregistry.Tags := tags;
     artifactregistry.SizeBytes := sizeBytes;
     artifactregistry.UploadTime := uploadTime;
     artifactregistry.MediaType := mediaType;
     artifactregistry.RepositoryID := "" |}.

Definition newARTestScanner (client : artifactregistry.ARAPI) (locations : list string)
    : artifactregistry.ARScanner :=
  {| artifactregistry.client := client; artifactregistry.project := "my-project";
     artifactregistry.locations := locations; artifactregistry.now := now |}.

Definition ociIndex : string := "application/vnd.oci.image.index.v1+json".
Definition dockerManifestList : string :=
  "application/vnd.docker.distribution.manifest.list.v2+json".

(** [TestScanAllStaleRepo] *)
Definition allStaleImages : list ecr.ImageDetail :=
  [ makeImage "sha256:h1" ["v1"] halfGB stale200 (Some stale120);
    makeImage "sha256:h2" ["v2"] halfGB stale200 (Some stale120) ].

Definition allStaleScanner : ecr.ECRScanner :=
  newTestScanner (mockECR
    {| repos := [makeRepo "old-repo"];
       images := {[ "old-repo" := allStaleImages ]};
       lifecycleRepos := ∅; scanFindings := ∅;
       descRepoErr := None; descImagesErr := ∅; lifecycleErr := ∅ |}).

Definition arOldRepo : artifactregistry.Repository :=
  makeARRepo "projects/my-project/locations/us-central1/repositories/old-repo"
    "us-central1" "old-repo".

Definition arAllStaleImages : list artifactregistry.DockerImage :=
  [ makeARImage "uri1" ["v1"] halfGB stale200 "";
    makeARImage "uri2" ["v2"] halfGB stale200 "" ].

Definition arAllStaleScanner : artifactregistry.ARScanner :=
  newARTestScanner (mockAR
    {| arRepos := {[ "my-project/us-central1" := [arOldRepo] ]};
       arImages := {[ "projects/my-project/locations/us-central1/repositories/old-repo"
                      := arAllStaleImages ]};
       listRepoErr := ∅; listImagesErr := ∅ |}) ["us-central1"].

(** A client whose vulnerability lookup fails, and a scanner that was
    asked to include scan data. *)
Definition scanFailingClient : ecr.ECRAPI :=
  {| ecr.DescribeRepositories := PageLast [makeRepo "myapp"];
     ecr.DescribeImages := fun _ =>
       PageLast [makeImage "sha256:vuln" ["latest"] hundredMB recent (Some recent)];
     ecr.GetLifecyclePolicy := fun _ => ecr.PolicyOutput;
     ecr.DescribeImageScanFindings := fun _ _ => Err "scan not found" |}.

Definition scanFailingScanner : ecr.ECRScanner :=
  {| ecr.client := scanFailingClient; ecr.region := "us-east-1";
     ecr.includeScan := true; ecr.now := now |}.

(** Two locations: the listing of the first fails, the second holds one
    empty repository. *)
Definition arEmptyRepoFixture : artifactregistry.Repository :=
  makeARRepo "projects/my-project/locations/us-central1/repositories/empty-repo"
    "us-central1" "empty-repo".

Definition twoLocationScanner : artifactregistry.ARScanner :=
  newARTestScanner (mockAR
    {| arRepos := {[ "my-project/us-central1" := [arEmptyRepoFixture] ]};
       arImages := ∅;
       listRepoErr := {[ "my-project/europe-west1" := "permission denied" ]};
       listImagesErr := ∅ |}) ["europe-west1"; "us-central1"].

(** [TestScanDescribeRepositoriesError] and [TestScanDescribeImagesError] *)
Definition listingFailingScanner : ecr.ECRScanner :=
  newTestScanner (mockECR
    {| repos := []; images := ∅; lifecycleRepos := ∅; scanFindings := ∅;
       descRepoErr := Some "access denied"; descImagesErr := ∅; lifecycleErr := ∅ |}).

Definition brokenRepoScanner : ecr.ECRScanner :=
  newTestScanner (mockECR
    {| repos := [makeRepo "broken-repo"; makeRepo "old-repo"];
       images := {[ "old-repo" := allStaleImages ]};
       lifecycleRepos := ∅; scanFindings := ∅;
       descRepoErr := None;
       descImagesErr := {[ "broken-repo" := "throttled" ]};
       lifecycleErr := {[ "old-repo" := "timeout" ]} |}).

(** [TestScanExcludeRepo] *)
Definition excludeCfg : ScanConfig :=
  {| StaleDays := 90; MaxSizeBytes := oneGB; MinMonthlyCost := zero;
     Exclude := {| ResourceIDs := {[ "excluded" := true ]}; Tags := ∅ |} |}.

Definition excludeScanner : ecr.ECRScanner :=
  newTestScanner (mockECR
    {| repos := [makeRepo "excluded"; makeRepo "included"];
       images := {[ "included" :=
                      [makeImage "sha256:iii" ["latest"] halfGB recent (Some recent)] ]};
       lifecycleRepos := ∅; scanFindings := ∅;
       descRepoErr := None; descImagesErr := ∅; lifecycleErr := ∅ |}).

(** A stale image whose manifest is an OCI image index, in each registry. *)
Definition ecrOciIndexImage : ecr.ImageDetail :=
  withMediaType ociIndex
    (makeImage "sha256:multi" ["latest"] twoGB stale200 (Some stale120)).

Definition arOciIndexImage : artifactregistry.DockerImage :=
  makeARImage "uri-multi" ["latest"] twoGB stale200 ociIndex.

Definition arMultiarchRepo : artifactregistry.Repository :=
  makeARRepo "projects/my-project/locations/us-central1/repositories/multiarch"
    "us-central1" "multiarch".

End Fixtures.

(** * Properties *)

(** ** binary64 rounding *)

Section RoundingFacts.
Import Rounding.

Lemma digits2_pos_bounds p :
  2 ^ (Z.pos (digits2_pos p) - 1) <= Z.pos p < 2 ^ Z.pos (digits2_pos p).
Proof.
  induction p as [p IH|p IH|]; simpl digits2_pos.
  - rewrite Pos2Z.inj_succ, Z.pow_succ_r by lia.
    replace (Z.succ (Z.pos (digits2_pos p)) - 1) with (Z.succ (Z.pos (digits2_pos p) - 1)) by lia.
    rewrite Z.pow_succ_r by lia. lia.
  - rewrite Pos2Z.inj_succ, Z.pow_succ_r by lia.
    replace (Z.succ (Z.pos (digits2_pos p)) - 1) with (Z.succ (Z.pos (digits2_pos p) - 1)) by lia.
    rewrite Z.pow_succ_r by lia. lia.
  - simpl. lia.
Qed.

Lemma Zdigits2_unique n d :
  2 ^ (d - 1) <= n < 2 ^ d -> 0 < n -> Zdigits2 n = d.
Proof.
  intros [Hlo Hhi] Hn. destruct n as [|p|p]; try lia. simpl.
  pose proof (digits2_pos_bounds p) as [Blo Bhi].
  set (d' := Z.pos (digits2_pos p)) in *.
  assert (0 < d') by (unfold d'; lia).
  assert (0 < d).
  { destruct (Z.ltb_spec 0 d); auto. rewrite Z.pow_neg_r in Hlo by lia.
    assert (d = 0) by (destruct (Z.eq_dec d 0); auto; rewrite Z.pow_neg_r in Hhi by lia; lia).
    subst d. simpl in Hhi. lia. }
  destruct (Z.lt_trichotomy d' d) as [Hlt|[Heq|Hgt]]; auto.
  - assert (2 ^ d' <= 2 ^ (d - 1)) by (apply Z.pow_le_mono_r; lia). lia.
  - assert (2 ^ d <= 2 ^ (d' - 1)) by (apply Z.pow_le_mono_r; lia). lia.
Qed.

Lemma shr_1_spec m r s :
  0 <= m -> shr_1 (Build_shr_record m r s) = Build_shr_record (m / 2) (Z.odd m) (r || s).
Proof.
  intros Hm. destruct m as [|p|p]; try lia.
  - reflexivity.
  - destruct p as [p|p|]; unfold shr_1.
    + f_equal. rewrite Pos2Z.inj_xI.
      apply Z.div_unique with (r := 1); lia.
    + f_equal. rewrite Pos2Z.inj_xO.
      apply Z.div_unique with (r := 0); lia.
    + reflexivity.
Qed.

Lemma iter_pos_nat {A} (f : A -> A) p x :
  SpecFloat.iter_pos f p x = Nat.iter (Pos.to_nat p) f x.
Proof.
  revert x. induction p as [p IH|p IH|]; intros x; simpl SpecFloat.iter_pos.
  - rewrite !IH, Pos2Nat.inj_xI.
    replace (S (2 * Pos.to_nat p))%nat with (Pos.to_nat p + (Pos.to_nat p + 1))%nat by lia.
    rewrite !Nat.iter_add. reflexivity.
  - rewrite !IH, Pos2Nat.inj_xO.
    replace (2 * Pos.to_nat p)%nat with (Pos.to_nat p + Pos.to_nat p)%nat by lia.
    rewrite Nat.iter_add. reflexivity.
  - reflexivity.
Qed.

Lemma loc_of_shr_record_orb m r s :
  negb (match loc_of_shr_record (Build_shr_record m r s) with loc_Exact => true | _ => false end) = r || s.
Proof. destruct r, s; reflexivity. Qed.

Lemma locR_step m R P b :
  0 <= R < P -> b = 0 \/ b = 1 ->
  loc_of_shr_record (Build_shr_record m (b =? 1) (negb (R =? 0))) =
  locR (R + P * b) (2 * P).
Proof.
  intros HR Hb. unfold locR, loc_of_shr_record.
  destruct (Z.eqb_spec b 1), (Z.eqb_spec R 0), (Z.eqb_spec (R + P * b) 0);
    simpl; try nia;
    destruct (Z.compare_spec (2 * (R + P * b)) (2 * P)); try reflexivity; nia.
Qed.

Lemma shr_iter_spec N (k : nat) :
  0 <= N ->
  let rec := Nat.iter k shr_1 (Build_shr_record N false false) in
  shr_m rec = N / 2 ^ Z.of_nat k /\
  loc_of_shr_record rec = locR (N mod 2 ^ Z.of_nat k) (2 ^ Z.of_nat k).
Proof.
  intros HN. induction k as [|k IH].
  - simpl. rewrite Z.div_1_r, Z.mod_1_r. split; reflexivity.
  - cbn zeta in *. rewrite Nat.iter_succ.
    destruct (Nat.iter k shr_1 _) as [m r s] eqn:Hrec.
    destruct IH as [Hm Hloc]. simpl in Hm.
    assert (Hpow : 0 < 2 ^ Z.of_nat k) by (apply Z.pow_pos_nonneg; lia).
    assert (Hm0 : 0 <= m) by (subst m; apply Z.div_pos; lia).
    rewrite shr_1_spec by assumption.
    rewrite Nat2Z.inj_succ, Z.pow_succ_r by lia.
    split.
    + simpl. subst m. rewrite Z.div_div by lia. f_equal. lia.
    + assert (Hrs : r || s = negb (N mod 2 ^ Z.of_nat k =? 0)).
      { rewrite <- (loc_of_shr_record_orb m), Hloc. unfold locR.
        destruct (_ =? 0); reflexivity. }
      assert (HR : N mod (2 * 2 ^ Z.of_nat k) =
                   N mod 2 ^ Z.of_nat k + 2 ^ Z.of_nat k * (m mod 2)).
      { subst m. rewrite (Z.mul_comm 2). apply Z.rem_mul_r; lia. }
      pose proof (Z.mod_pos_bound N (2 ^ Z.of_nat k) Hpow) as HRb.
      pose proof (Z.mod_pos_bound m 2 ltac:(lia)) as Hb.
      rewrite HR, Hrs, Zodd_mod.
      apply locR_step; lia.
Qed.

Lemma shr_spec N e n :
  0 <= N ->
  let k := Z.max n 0 in
  let '(rec, e') := shr (Build_shr_record N false false) e n in
  e' = e + k /\ shr_m rec = N / 2 ^ k /\
  loc_of_shr_record rec = locR (N mod 2 ^ k) (2 ^ k).
Proof.
  intros HN k. unfold shr. destruct n as [|p|p].
  - subst k. simpl. rewrite Z.div_1_r, Z.mod_1_r. repeat split; lia.
  - rewrite iter_pos_nat.
    replace k with (Z.of_nat (Pos.to_nat p)) by (subst k; lia).
    pose proof (shr_iter_spec N (Pos.to_nat p) HN) as [H1 H2].
    repeat split; auto. lia.
  - subst k. simpl. rewrite Z.div_1_r, Z.mod_1_r. repeat split; lia.
Qed.

Lemma rne_cases N k :
  0 <= N -> 0 <= k ->
  let q := N / 2 ^ k in
  let R := N mod 2 ^ k in
  N = q * 2 ^ k + R /\ 0 <= R < 2 ^ k /\
  ((2 * R < 2 ^ k /\ rne N k = q) \/
   (2 * R = 2 ^ k /\ rne N k = (if Z.even q then q else q + 1)) \/
   (2 * R > 2 ^ k /\ rne N k = q + 1)).
Proof.
  intros HN Hk q R.
  assert (Hpow : 0 < 2 ^ k) by (apply Z.pow_pos_nonneg; lia).
  pose proof (Z.mod_pos_bound N (2 ^ k) Hpow) as HR. fold R in HR.
  pose proof (Z.div_mod N (2 ^ k) ltac:(lia)) as Hdm. fold q R in Hdm.
  split; [lia|]. split; [lia|].
  unfold rne, locR, round_nearest_even. fold q R.
  destruct (Z.eqb_spec R 0) as [E|E].
  - left. split; [lia|reflexivity].
  - destruct (Z.compare_spec (2 * R) (2 ^ k)).
    + right; left. split; [lia|reflexivity].
    + left. split; [lia|reflexivity].
    + right; right. split; [lia|reflexivity].
Qed.

Lemma rne_mono N1 N2 k :
  0 <= N1 <= N2 -> 0 <= k -> rne N1 k <= rne N2 k.
Proof.
  intros HN Hk.
  destruct (rne_cases N1 k ltac:(lia) Hk) as (E1 & B1 & C1).
  destruct (rne_cases N2 k ltac:(lia) Hk) as (E2 & B2 & C2).
  set (P := 2 ^ k) in *.
  set (q1 := N1 / P) in *. set (q2 := N2 / P) in *.
  set (R1 := N1 mod P) in *. set (R2 := N2 mod P) in *.
  assert (Hq : q1 <= q2) by (apply Z.div_le_mono; lia).
  destruct (Z.even q1) eqn:Ev1, (Z.even q2) eqn:Ev2;
  destruct C1 as [[? ->]|[[? ->]|[? ->]]], C2 as [[? ->]|[[? ->]|[? ->]]];
    try lia; try nia;
    (destruct (Z.eq_dec q1 q2) as [Eq|Ne]; [try congruence; try nia| try nia]).
Qed.

Lemma rne_bounds N k :
  0 <= N -> 0 <= k -> N / 2 ^ k <= rne N k <= N / 2 ^ k + 1.
Proof.
  intros HN Hk. destruct (rne_cases N k HN Hk) as (_ & _ & C).
  destruct (Z.even (N / 2 ^ k)), C as [[? ->]|[[? ->]|[? ->]]]; lia.
Qed.

Lemma rne_exact N k :
  0 <= N -> 0 <= k -> N mod 2 ^ k = 0 -> rne N k = N / 2 ^ k.
Proof.
  intros HN Hk H0. unfold rne, locR. rewrite H0. reflexivity.
Qed.

Lemma Zdigits2_bounds n :
  0 < n -> 2 ^ (Zdigits2 n - 1) <= n < 2 ^ Zdigits2 n.
Proof.
  intros Hn. destruct n as [|p|p]; try lia. apply digits2_pos_bounds.
Qed.

Lemma Zdigits2_pos n : 0 < n -> 0 < Zdigits2 n.
Proof. intros Hn. destruct n; simpl; lia. Qed.

Lemma pow2_split a b : 0 <= a -> 0 <= b -> 2 ^ (a + b) = 2 ^ a * 2 ^ b.
Proof. intros. apply Z.pow_add_r; lia. Qed.

Lemma rne_range M k :
  0 < M -> 0 <= k -> Zdigits2 M = 53 + k -> 2 ^ 52 <= rne M k <= 2 ^ 53.
Proof.
  intros HM Hk HD.
  pose proof (Zdigits2_bounds M HM) as [Blo Bhi]. rewrite HD in Blo, Bhi.
  replace (53 + k - 1) with (52 + k) in Blo by lia.
  rewrite pow2_split in Blo, Bhi by lia.
  assert (Hpow : 0 < 2 ^ k) by (apply Z.pow_pos_nonneg; lia).
  pose proof (rne_bounds M k ltac:(lia) Hk) as [Rlo Rhi].
  assert (2 ^ 52 <= M / 2 ^ k) by (apply Z.div_le_lower_bound; lia).
  assert (M / 2 ^ k < 2 ^ 53) by (apply Z.div_lt_upper_bound; lia).
  lia.
Qed.

Lemma fexp_normal x : -1021 <= x -> fexp prec emax x = x - 53.
Proof. intros Hx. unfold fexp, emin, prec, emax. lia. Qed.

Lemma binary_round_aux_spec M E :
  0 < M -> 53 <= Zdigits2 M -> -1074 <= E -> Zdigits2 M + E <= 1023 ->
  binary_round_aux prec emax false M E loc_Exact =
  S754_finite false (Z.to_pos (fst (round53 M E))) (snd (round53 M E)).
Proof.
  intros HM HD HE Hmax.
  set (k := Zdigits2 M - 53).
  assert (Hk : 0 <= k) by (unfold k; lia).
  pose proof (rne_range M k HM Hk ltac:(unfold k; lia)) as Hr.
  unfold binary_round_aux, shr_fexp. simpl shr_record_of_loc.
  rewrite fexp_normal by lia.
  replace (Zdigits2 M + E - 53 - E) with k by (unfold k; lia).
  pose proof (shr_spec M E k ltac:(lia)) as Hs.
  destruct (shr _ E k) as [rec e'].
  rewrite Z.max_l in Hs by lia. destruct Hs as (-> & Hm & Hl).
  rewrite Hm, Hl. fold (rne M k).
  assert (Hround : round53 M E =
            if rne M k =? 2 ^ 53 then (2 ^ 52, E + k + 1) else (rne M k, E + k)).
  { unfold round53. destruct (Z.leb_spec (Zdigits2 M) 53) as [L|L].
    - assert (k = 0) as Hk0 by (unfold k; lia).
      assert (Zdigits2 M = 53) as -> by lia.
      rewrite Hk0, Z.add_0_r.
      assert (rne M 0 = M) as ->.
      { rewrite rne_exact; change (2 ^ 0) with 1;
          rewrite ?Z.div_1_r, ?Z.mod_1_r; lia. }
      change (2 ^ (53 - 53)) with 1.
      pose proof (Zdigits2_bounds M HM) as B.
      replace (Zdigits2 M) with 53 in B by lia.
      destruct (Z.eqb_spec M (2 ^ 53)); [lia|]. f_equal; lia.
    - fold k. reflexivity. }
  rewrite Hround.
  destruct (Z.eqb_spec (rne M k) (2 ^ 53)) as [Eq|Ne].
  - rewrite Eq. change (Zdigits2 (2 ^ 53)) with 54.
    rewrite fexp_normal by lia.
    replace (54 + (E + k) - 53 - (E + k)) with 1 by lia.
    simpl. destruct (Z.leb_spec (E + k + 1) (emax - prec)) as [L|L].
    + reflexivity.
    + unfold emax, prec, k in L. lia.
  - assert (HD1 : Zdigits2 (rne M k) = 53) by (apply Zdigits2_unique; simpl; lia).
    rewrite HD1, fexp_normal by lia.
    replace (53 + (E + k) - 53 - (E + k)) with 0 by lia.
    simpl. destruct (rne M k) as [|p|p] eqn:Hp; try lia.
    destruct (Z.leb_spec (E + k) (emax - prec)) as [L|L].
    + reflexivity.
    + unfold emax, prec, k in L. lia.
Qed.

Lemma Zdigits2_mono a b : 0 < a <= b -> Zdigits2 a <= Zdigits2 b.
Proof.
  intros H.
  pose proof (Zdigits2_bounds a ltac:(lia)) as [Alo _].
  pose proof (Zdigits2_bounds b ltac:(lia)) as [_ Bhi].
  pose proof (Zdigits2_pos a ltac:(lia)).
  pose proof (Zdigits2_pos b ltac:(lia)).
  destruct (Z.le_gt_cases (Zdigits2 a) (Zdigits2 b)) as [L|G]; auto.
  assert (2 ^ Zdigits2 b <= 2 ^ (Zdigits2 a - 1)) by (apply Z.pow_le_mono_r; lia).
  lia.
Qed.

Lemma Zdigits2_shift M j :
  0 < M -> 0 <= j -> Zdigits2 (M * 2 ^ j) = Zdigits2 M + j.
Proof.
  intros HM Hj.
  pose proof (Zdigits2_bounds M HM) as [Blo Bhi].
  pose proof (Zdigits2_pos M HM).
  assert (Hpow : 0 < 2 ^ j) by (apply Z.pow_pos_nonneg; lia).
  apply Zdigits2_unique; [|nia].
  replace (Zdigits2 M + j - 1) with ((Zdigits2 M - 1) + j) by lia.
  rewrite !pow2_split by lia. nia.
Qed.

Lemma round53_shape M E :
  0 < M ->
  let D := Zdigits2 M in
  let a := round53 M E in
  2 ^ 52 <= fst a < 2 ^ 53 /\
  (snd a = E + D - 53 \/ (snd a = E + D - 52 /\ fst a = 2 ^ 52)).
Proof.
  intros HM D a. subst a. unfold round53. fold D.
  pose proof (Zdigits2_bounds M HM) as [Blo Bhi]. fold D in Blo, Bhi.
  pose proof (Zdigits2_pos M HM) as HD. fold D in HD.
  destruct (Z.leb_spec D 53) as [L|L]; cbn [fst snd].
  - split; [|left; lia].
    assert (Hpow : 0 < 2 ^ (53 - D)) by (apply Z.pow_pos_nonneg; lia).
    replace (2 ^ 52) with (2 ^ (D - 1) * 2 ^ (53 - D))
      by (rewrite <- pow2_split by lia; f_equal; lia).
    replace (2 ^ 53) with (2 ^ D * 2 ^ (53 - D))
      by (rewrite <- pow2_split by lia; f_equal; lia).
    nia.
  - pose proof (rne_range M (D - 53) HM ltac:(lia) ltac:(fold D; lia)) as Hr.
    destruct (Z.eqb_spec (rne M (D - 53)) (2 ^ 53)) as [Eq|Ne]; cbn [fst snd].
    + split; [simpl; lia|right; split; [lia|reflexivity]].
    + split; [lia|left; lia].
Qed.

Lemma round53_mono M1 M2 E :
  0 < M1 <= M2 -> lexle (round53 M1 E) (round53 M2 E).
Proof.
  intros HM.
  pose proof (Zdigits2_mono M1 M2 HM) as HD.
  pose proof (round53_shape M1 E ltac:(lia)) as (R1 & S1).
  pose proof (round53_shape M2 E ltac:(lia)) as (R2 & S2).
  cbn zeta in *.
  destruct (Z.eq_dec (Zdigits2 M1) (Zdigits2 M2)) as [Eq|Ne].
  - clear R1 S1 R2 S2. unfold round53. rewrite <- Eq.
    set (D := Zdigits2 M1) in *.
    pose proof (Zdigits2_pos M1 ltac:(lia)) as HDp. fold D in HDp.
    destruct (Z.leb_spec D 53) as [L|L].
    + right. cbn [fst snd]. split; [reflexivity|].
      assert (Hpow : 0 < 2 ^ (53 - D)) by (apply Z.pow_pos_nonneg; lia). nia.
    + pose proof (rne_mono M1 M2 (D - 53) ltac:(lia) ltac:(lia)) as Hmono.
      pose proof (rne_range M1 (D - 53) ltac:(lia) ltac:(lia) ltac:(fold D; lia)) as Hr1.
      pose proof (rne_range M2 (D - 53) ltac:(lia) ltac:(lia) ltac:(lia)) as Hr2.
      destruct (Z.eqb_spec (rne M1 (D - 53)) (2 ^ 53)),
               (Z.eqb_spec (rne M2 (D - 53)) (2 ^ 53));
        unfold lexle; cbn [fst snd]; lia.
  - unfold lexle. lia.
Qed.

Lemma rne_shift M k j :
  0 <= M -> 0 <= k -> 0 <= j -> rne (M * 2 ^ j) (k + j) = rne M k.
Proof.
  intros HM Hk Hj. unfold rne.
  assert (Hpj : 0 < 2 ^ j) by (apply Z.pow_pos_nonneg; lia).
  assert (Hpk : 0 < 2 ^ k) by (apply Z.pow_pos_nonneg; lia).
  rewrite pow2_split by lia.
  rewrite Z.div_mul_cancel_r by lia.
  rewrite Z.mul_mod_distr_r by lia.
  f_equal. unfold locR.
  pose proof (Z.mod_pos_bound M (2 ^ k) Hpk) as HR.
  destruct (Z.eqb_spec (M mod 2 ^ k) 0) as [E0|E0].
  - rewrite E0. reflexivity.
  - destruct (Z.eqb_spec (M mod 2 ^ k * 2 ^ j) 0) as [E1|E1]; [nia|].
    f_equal.
    destruct (Z.compare_spec (2 * (M mod 2 ^ k * 2 ^ j)) (2 ^ k * 2 ^ j)),
             (Z.compare_spec (2 * (M mod 2 ^ k)) (2 ^ k)); try reflexivity; nia.
Qed.

Lemma round53_shift M E j :
  0 < M -> 53 <= Zdigits2 M -> 0 <= j ->
  round53 (M * 2 ^ j) (E - j) = round53 M E.
Proof.
  intros HM HD Hj. unfold round53.
  rewrite Zdigits2_shift by lia.
  set (D := Zdigits2 M) in *.
  destruct (Z.leb_spec (D + j) 53) as [L|L].
  - assert (j = 0) as -> by lia. rewrite Z.add_0_r, Z.sub_0_r.
    destruct (Z.leb_spec D 53); [|lia].
    change (2 ^ 0) with 1. rewrite Z.mul_1_r. reflexivity.
  - replace (D + j - 53) with ((D - 53) + j) by lia.
    rewrite rne_shift by lia.
    destruct (Z.leb_spec D 53) as [L'|L'].
    + assert (D = 53) as HD53 by lia. rewrite HD53.
      change (53 - 53) with 0.
      assert (rne M 0 = M) as ->.
      { rewrite rne_exact; change (2 ^ 0) with 1;
          rewrite ?Z.div_1_r, ?Z.mod_1_r; lia. }
      pose proof (Zdigits2_bounds M HM) as B. fold D in B. rewrite HD53 in B.
      destruct (Z.eqb_spec M (2 ^ 53)); [simpl in *; lia|].
      change (2 ^ 0) with 1. f_equal; lia.
    + destruct (rne M (D - 53) =? 2 ^ 53); f_equal; lia.
Qed.

Lemma lexle_SFleb a b :
  0 < fst a -> 0 < fst b -> lexle a b -> SFleb (fin a) (fin b) = true.
Proof.
  destruct a as [m1 e1], b as [m2 e2]. unfold lexle, fin, SFleb, SFcompare.
  cbn [fst snd]. intros H1 H2 H.
  destruct m1 as [|p1|p1], m2 as [|p2|p2]; try lia. simpl Z.to_pos.
  destruct H as [H|[H H']].
  - apply Z.compare_lt_iff in H. rewrite H. reflexivity.
  - subst e2. rewrite Z.compare_refl.
    change (Pos.compare_cont Eq p1 p2) with (Pos.compare p1 p2).
    destruct (Pos.compare_spec p1 p2); try reflexivity. lia.
Qed.

Lemma Pos_iter_xO p d : Z.pos (Pos.iter xO p d) = Z.pos p * 2 ^ Z.pos d.
Proof.
  induction d as [|d IH] using Pos.peano_ind.
  - simpl. lia.
  - rewrite Pos.iter_succ, Pos2Z.inj_xO, IH, Pos2Z.inj_succ, Z.pow_succ_r by lia. lia.
Qed.

Lemma of_int_pos s :
  0 < s < 2 ^ 63 -> of_int s = fin (round53 s 0).
Proof.
  intros Hs. destruct s as [|p|p]; try lia.
  unfold of_int, binary_normalize, binary_round.
  pose proof (Zdigits2_bounds (Z.pos p) ltac:(lia)) as [Blo Bhi].
  pose proof (Zdigits2_pos (Z.pos p) ltac:(lia)) as HD.
  change (Z.pos (digits2_pos p)) with (Zdigits2 (Z.pos p)).
  set (D := Zdigits2 (Z.pos p)) in *.
  assert (HD63 : D <= 63).
  { destruct (Z.le_gt_cases D 63); auto.
    assert (2 ^ 63 <= 2 ^ (D - 1)) by (apply Z.pow_le_mono_r; lia). lia. }
  rewrite Z.add_0_r, fexp_normal by lia.
  unfold shl_align. rewrite Z.sub_0_r.
  destruct (D - 53) as [|d|d] eqn:Hd.
  - rewrite binary_round_aux_spec by (fold D; lia). reflexivity.
  - rewrite binary_round_aux_spec by (fold D; lia). reflexivity.
  - assert (Hsh : Zdigits2 (Z.pos (Pos.iter xO p d)) = 53).
    { rewrite Pos_iter_xO, Zdigits2_shift by lia. fold D. lia. }
    rewrite binary_round_aux_spec by (rewrite ?Hsh; lia).
    assert (Ha : round53 (Z.pos (Pos.iter xO p d)) (Z.neg d)
                 = (Z.pos p * 2 ^ Z.pos d, Z.neg d)).
    { unfold round53. rewrite Hsh. change (53 <=? 53) with true.
      change (2 ^ (53 - 53)) with 1. rewrite Pos_iter_xO. f_equal; lia. }
    assert (Hb : round53 (Z.pos p) 0 = (Z.pos p * 2 ^ Z.pos d, Z.neg d)).
    { unfold round53. fold D. destruct (Z.leb_spec D 53); [|lia].
      replace (53 - D) with (Z.pos d) by lia. f_equal; lia. }
    rewrite Ha, Hb. reflexivity.
Qed.

Lemma div_eucl_pair a b : Z.div_eucl a b = (a / b, a mod b).
Proof. unfold Z.div, Z.modulo. destruct (Z.div_eucl a b); reflexivity. Qed.

Lemma div_GiB m e :
  Zdigits2 m = 53 -> 0 < m -> -1000 <= e <= 900 ->
  SFdiv prec emax (fin (m, e)) (of_int (1024 * 1024 * 1024)) = fin (m, e - 30).
Proof.
  intros HD Hm He.
  change (of_int (1024 * 1024 * 1024)) with (S754_finite false 4503599627370496 (-22)).
  destruct m as [|p|p]; try lia.
  unfold fin, SFdiv, SFdiv_core_binary. cbn [fst snd Z.to_pos xorb].
  rewrite HD. change (Zdigits2 (Z.pos 4503599627370496)) with 53.
  rewrite fexp_normal by lia.
  replace (Z.min (53 + e - (53 + -22) - 53) (e - -22)) with (e - 31) by lia.
  replace (e - -22 - (e - 31)) with 53 by lia.
  rewrite div_eucl_pair.
  rewrite Z.shiftl_mul_pow2 by lia.
  assert (Hq : Z.pos p * 2 ^ 53 / 4503599627370496 = 2 * Z.pos p).
  { change (2 ^ 53) with (2 * 4503599627370496).
    rewrite Z.mul_assoc, Z.div_mul by lia. lia. }
  assert (Hr : (Z.pos p * 2 ^ 53) mod 4503599627370496 = 0).
  { change (2 ^ 53) with (2 * 4503599627370496).
    rewrite Z.mul_assoc. apply Z.mod_mul. lia. }
  rewrite Hq, Hr.
  change (new_location 4503599627370496 0) with loc_Exact.
  assert (HD2 : Zdigits2 (2 * Z.pos p) = 54).
  { rewrite Z.mul_comm. change 2 with (2 ^ 1) at 1.
    rewrite Zdigits2_shift by lia. lia. }
  rewrite binary_round_aux_spec by (rewrite ?HD2; lia).
  unfold round53. rewrite HD2. change (54 <=? 53) with false.
  change (54 - 53) with 1.
  assert (Hrne : rne (2 * Z.pos p) 1 = Z.pos p).
  { rewrite rne_exact; change (2 ^ 1) with 2; try lia.
    - rewrite Z.mul_comm. apply Z.div_mul. lia.
    - rewrite Z.mul_comm. apply Z.mod_mul. lia. }
  rewrite Hrne.
  pose proof (Zdigits2_bounds (Z.pos p) ltac:(lia)) as B. rewrite HD in B.
  destruct (Z.eqb_spec (Z.pos p) (2 ^ 53)); [lia|].
  cbn [fst snd Z.to_pos]. f_equal. lia.
Qed.

Lemma mul_finite m e c ec :
  0 < m -> 0 < c -> 53 <= Zdigits2 (m * c) ->
  -1074 <= e + ec -> Zdigits2 (m * c) + (e + ec) <= 1023 ->
  SFmul prec emax (fin (m, e)) (fin (c, ec)) = fin (round53 (m * c) (e + ec)).
Proof.
  intros Hm Hc HD Hlo Hhi.
  destruct m as [|p|p], c as [|q|q]; try lia.
  unfold fin at 1 2, SFmul. cbn [fst snd Z.to_pos xorb].
  change (Z.pos (p * q)) with (Z.pos p * Z.pos q).
  apply binary_round_aux_spec; lia.
Qed.

Lemma mul_stage_mono m1 e1 m2 e2 c E0 :
  2 ^ 52 <= m1 < 2 ^ 53 -> 2 ^ 52 <= m2 < 2 ^ 53 -> 0 < c ->
  lexle (m1, e1) (m2, e2) ->
  lexle (round53 (m1 * c) (e1 + E0)) (round53 (m2 * c) (e2 + E0)).
Proof.
  intros H1 H2 Hc [Hlt|[Heq Hle]]; cbn [fst snd] in *.
  - set (j := e2 - e1).
    assert (Hj : 0 < j) by (unfold j; lia).
    assert (HD : 53 <= Zdigits2 (m2 * c)).
    { change 53 with (Zdigits2 (2 ^ 52)). apply Zdigits2_mono.
      change (2 ^ 52) with 4503599627370496 in *. nia. }
    rewrite <- (round53_shift (m2 * c) (e2 + E0) j) by nia.
    replace (e2 + E0 - j) with (e1 + E0) by (unfold j; lia).
    apply round53_mono.
    assert (Hp : 2 <= 2 ^ j).
    { change 2 with (2 ^ 1) at 1. apply Z.pow_le_mono_r; lia. }
    change (2 ^ 52) with 4503599627370496 in *.
    change (2 ^ 53) with 9007199254740992 in *.
    assert (m1 <= m2 * 2 ^ j) by nia.
    split; [nia|].
    rewrite <- Z.mul_assoc, (Z.mul_comm c), Z.mul_assoc.
    apply Z.mul_le_mono_nonneg_r; lia.
  - subst e2. apply round53_mono.
    change (2 ^ 52) with 4503599627370496 in *. nia.
Qed.

Section Cost.
Variables (c ec : Z).
Hypothesis Hc : 2 ^ 52 <= c < 2 ^ 53.
Hypothesis Hec : -900 <= ec <= 900.

Local Abbreviation cost s :=
  (mul (div (of_int s) (of_int (1024 * 1024 * 1024))) (fin (c, ec))).

Lemma cost_zero : cost 0 = zero.
Proof using Hc.
  unfold cost, fin. cbn [fst snd]. destruct c; simpl in *; try lia. reflexivity.
Qed.

Lemma cost_pos s :
  0 < s < 2 ^ 63 ->
  cost s = fin (round53 (fst (round53 s 0) * c) (snd (round53 s 0) - 30 + ec)).
Proof using Hc Hec.
  intros Hs. unfold cost. rewrite of_int_pos by assumption.
  pose proof (round53_shape s 0 ltac:(lia)) as (Hm & He). cbn zeta in *.
  pose proof (Zdigits2_pos s ltac:(lia)) as HDp.
  assert (HD63 : Zdigits2 s <= 63).
  { pose proof (Zdigits2_bounds s ltac:(lia)) as [Blo _].
    destruct (Z.le_gt_cases (Zdigits2 s) 63); auto.
    assert (2 ^ 63 <= 2 ^ (Zdigits2 s - 1)) by (apply Z.pow_le_mono_r; lia). lia. }
  destruct (round53 s 0) as [m e]. cbn [fst snd] in *.
  rewrite div_GiB; [| apply Zdigits2_unique; simpl in *; lia | simpl in *; lia | lia].
  assert (HDlo : 105 <= Zdigits2 (m * c)).
  { change 105 with (Zdigits2 (2 ^ 104)). apply Zdigits2_mono. simpl in *. nia. }
  assert (HDhi : Zdigits2 (m * c) <= 106).
  { pose proof (Zdigits2_bounds (m * c) ltac:(simpl in *; nia)) as [Blo _].
    destruct (Z.le_gt_cases (Zdigits2 (m * c)) 106); auto.
    assert (2 ^ 106 <= 2 ^ (Zdigits2 (m * c) - 1)) by (apply Z.pow_le_mono_r; lia).
    simpl in *. nia. }
  apply mul_finite; simpl in *; lia.
Qed.

Lemma cost_mono s1 s2 :
  0 <= s1 <= s2 -> s2 < 2 ^ 63 -> le (cost s1) (cost s2) = true.
Proof using Hc Hec.
  intros H12 H2.
  assert (Hfin : forall s, 0 < s < 2 ^ 63 ->
            0 < fst (round53 (fst (round53 s 0) * c) (snd (round53 s 0) - 30 + ec))).
  { intros s Hs. pose proof (round53_shape s 0 ltac:(lia)) as (Hm & _).
    cbn zeta in Hm.
    pose proof (round53_shape (fst (round53 s 0) * c) (snd (round53 s 0) - 30 + ec)
                  ltac:(simpl in *; nia)) as (Hm' & _). simpl in *. lia. }
  destruct (Z.eq_dec s1 0) as [->|N1].
  - rewrite cost_zero. destruct (Z.eq_dec s2 0) as [->|N2].
    + rewrite cost_zero. reflexivity.
    + rewrite cost_pos by lia. reflexivity.
  - rewrite !cost_pos by lia.
    apply lexle_SFleb; try (apply Hfin; lia).
    pose proof (round53_shape s1 0 ltac:(lia)) as (Hm1 & _).
    pose proof (round53_shape s2 0 ltac:(lia)) as (Hm2 & _).
    pose proof (round53_mono s1 s2 0 ltac:(lia)) as Hle.
    cbn zeta in *.
    destruct (round53 s1 0) as [m1 e1], (round53 s2 0) as [m2 e2].
    cbn [fst snd] in *.
    replace (e1 - 30 + ec) with (e1 + (ec - 30)) by lia.
    replace (e2 - 30 + ec) with (e2 + (ec - 30)) by lia.
    apply mul_stage_mono; auto; lia.
Qed.

Lemma cost_nonneg s :
  0 <= s < 2 ^ 63 -> le zero (cost s) = true.
Proof using Hc Hec.
  intros Hs. rewrite <- cost_zero. apply cost_mono; lia.
Qed.
End Cost.

End RoundingFacts.

(** ** Pricing *)

Section PricingFacts.
Import pricing.

(** Every rate of the table is the literal [0.10]. *)
Lemma StorageCosts_rate provider providerCosts region rate :
  StorageCosts !! provider = Some providerCosts ->
  providerCosts !! region = Some rate ->
  rate = lit_0_10.
Proof.
  intros Hp Hr. unfold StorageCosts in Hp.
  apply elem_of_list_to_map_2 in Hp.
  repeat (apply elem_of_cons in Hp as [Hp|Hp];
          [ injection Hp as -> ->;
            repeat (apply lookup_insert_Some in Hr as [[_ <-]|[_ Hr]]; [reflexivity|]);
            rewrite lookup_empty in Hr; discriminate
          | ]).
  apply elem_of_nil in Hp. contradiction.
Qed.

(** Every provider of the table has a default rate. *)
Lemma StorageCosts_default provider providerCosts :
  StorageCosts !! provider = Some providerCosts ->
  providerCosts !! "default" = Some lit_0_10.
Proof.
  intros Hp. unfold StorageCosts in Hp.
  apply elem_of_list_to_map_2 in Hp.
  repeat (apply elem_of_cons in Hp as [Hp|Hp];
          [ injection Hp as -> ->; vm_compute; reflexivity | ]).
  apply elem_of_nil in Hp. contradiction.
Qed.

Lemma lookupCostPerGB_const provider region :
  lookupCostPerGB provider region = lit_0_10.
Proof.
  unfold lookupCostPerGB.
  destruct (StorageCosts !! provider) as [providerCosts|] eqn:Hp.
  - destruct (providerCosts !! region) as [cost|] eqn:Hr.
    + eapply StorageCosts_rate; eauto.
    + unfold index. rewrite (StorageCosts_default _ _ Hp). reflexivity.
  - vm_compute. reflexivity.
Qed.

Lemma ratePerGB_lookup provider region :
  design.ratePerGB provider region = lookupCostPerGB provider region.
Proof.
  unfold design.ratePerGB, lookupCostPerGB.
  destruct (StorageCosts !! provider) as [providerCosts|] eqn:Hp; cbn [mbind option_bind].
  - destruct (providerCosts !! region) as [cost|] eqn:Hr; [reflexivity|].
    unfold index. rewrite (StorageCosts_default _ _ Hp). reflexivity.
  - vm_compute. reflexivity.
Qed.

Lemma MonthlyStorageCost_zero provider region :
  MonthlyStorageCost provider region 0 = zero.
Proof.
  unfold MonthlyStorageCost. rewrite lookupCostPerGB_const. vm_compute. reflexivity.
Qed.

(** C6. [MonthlyStorageCost] is [sizeBytes / 2^30] times the rate found
    under the exact (provider, region) key, else under (provider,
    "default"), else the global default; it is defined for every provider,
    region and size, and it is exactly zero for zero bytes. *)
Theorem C6_monthly_cost_lookup (provider region : string) (sizeBytes : Z) :
  pricing.MonthlyStorageCost provider region sizeBytes
    = mul (div (of_int sizeBytes) (of_int (2 ^ 30))) (design.ratePerGB provider region)
  /\ pricing.MonthlyStorageCost provider region 0 = zero.
Proof.
  split.
  - unfold MonthlyStorageCost. rewrite ratePerGB_lookup. reflexivity.
  - apply MonthlyStorageCost_zero.
Qed.

(** C7. For a fixed provider and region the cost does not decrease when the
    size grows, and it is never negative, over the sizes an [int64] can
    hold from zero up. *)
Theorem C7_monthly_cost_monotone (provider region : string) (s1 s2 : Z) :
  0 <= s1 <= s2 -> s2 <= design.maxInt64 ->
  le (pricing.MonthlyStorageCost provider region s1)
     (pricing.MonthlyStorageCost provider region s2) = true
  /\ le zero (pricing.MonthlyStorageCost provider region s1) = true
  /\ le zero (pricing.MonthlyStorageCost provider region s2) = true.
Proof.
  intros H12 H2. unfold design.maxInt64 in H2.
  unfold MonthlyStorageCost. rewrite !lookupCostPerGB_const.
  change lit_0_10 with (Rounding.fin (7205759403792794, -56)).
  assert (Hc : 2 ^ 52 <= 7205759403792794 < 2 ^ 53) by (simpl; lia).
  assert (Hec : -900 <= -56 <= 900) by lia.
  repeat split.
  - apply cost_mono; lia.
  - apply cost_nonneg; lia.
  - apply cost_nonneg; lia.
Qed.

Lemma C7_monthly_cost_monotone_witness :
  le (pricing.MonthlyStorageCost "ecr" "us-east-1" 104857600)
     (pricing.MonthlyStorageCost "ecr" "us-east-1" 1073741824) = true
  /\ le zero (pricing.MonthlyStorageCost "ecr" "us-east-1" 104857600) = true
  /\ le zero (pricing.MonthlyStorageCost "ecr" "us-east-1" 1073741824) = true.
Proof.
  apply (C7_monthly_cost_monotone "ecr" "us-east-1" 104857600 1073741824).
  - lia.
  - unfold design.maxInt64. lia.
Defined.

End PricingFacts.

(** ** Analyzer *)

Section AnalyzerFacts.
Import analyzer.

(** A comparison that answers "equal" answers so in both directions. *)
Lemma SFcompare_Eq_sym (x y : float64) :
  SFcompare x y = Some Eq -> SFcompare y x = Some Eq.
Proof.
  destruct x as [sx|sx| |sx mx ex], y as [sy|sy| |sy my ey];
    try destruct sx; try destruct sy; simpl; try congruence.
  all: destruct (Z.compare_spec ex ey) as [He|He|He]; try congruence;
    subst; rewrite Z.compare_refl;
    change (Pos.compare_cont Eq mx my) with (Pos.compare mx my);
    change (Pos.compare_cont Eq my mx) with (Pos.compare my mx);
    destruct (Pos.compare_spec mx my) as [Hm|Hm|Hm]; simpl; try congruence;
    subst; rewrite Pos.compare_refl; reflexivity.
Qed.

Lemma eq_ge (x y : float64) : eq x y = true -> ge x y = true.
Proof.
  unfold eq, ge, SFeqb, SFleb. intros H.
  destruct (SFcompare x y) as [[| |]|] eqn:Hc; try discriminate.
  rewrite (SFcompare_Eq_sym _ _ Hc). reflexivity.
Qed.

(** The filtering loop is [List.filter]. *)
Lemma filter_loop {A} (keep : A -> bool) (l acc : list A) :
  fold_left (fun filtered f => if keep f then filtered ++ [f] else filtered) l acc
  = acc ++ List.filter keep l.
Proof.
  revert acc. induction l as [|x l IH]; intros acc; simpl.
  - rewrite app_nil_r. reflexivity.
  - rewrite IH. destruct (keep x); [|reflexivity].
    rewrite <- app_assoc. reflexivity.
Qed.

(** A histogram built by [m[k]++] counts the keys. *)
Lemma increment_index k k' (m : gmap string Z) :
  index (increment k m) k' = index m k' + (if String.eqb k k' then 1 else 0).
Proof.
  unfold increment, index.
  destruct (String.eqb_spec k k') as [->|Hne].
  - rewrite lookup_insert_eq. reflexivity.
  - rewrite lookup_insert_ne by assumption. simpl. lia.
Qed.

Lemma histogram_index {A} (key : A -> string) (l : list A) (m : gmap string Z) k :
  index (fold_left (fun m x => increment (key x) m) l m) k
  = index m k + design.count (fun x => String.eqb (key x) k) l.
Proof.
  unfold design.count, len. revert m. induction l as [|x l IH]; intros m; simpl.
  - lia.
  - rewrite IH, increment_index. destruct (String.eqb (key x) k); simpl length; lia.
Qed.

Lemma summary_loop (l : list registry.Finding) (summary : Summary) :
  let out := fold_left summaryStep l summary in
  TotalResourcesScanned out = TotalResourcesScanned summary /\
  TotalFindings out = TotalFindings summary /\
  RepositoriesScanned out = RepositoriesScanned summary /\
  TotalMonthlyWaste out
    = fold_left add (map registry.EstimatedMonthlyWaste l) (TotalMonthlyWaste summary) /\
  BySeverity out
    = fold_left (fun m f => increment (registry.Severity f) m) l (BySeverity summary) /\
  ByResourceType out
    = fold_left (fun m f => increment (registry.ResourceType f) m) l (ByResourceType summary).
Proof.
  revert summary. induction l as [|f l IH]; intros summary; simpl.
  - repeat split; reflexivity.
  - destruct (IH (summaryStep summary f)) as (H1 & H2 & H3 & H4 & H5 & H6).
    repeat split; assumption.
Qed.

(** C5. [Analyze] keeps exactly the findings whose waste is at least the
    minimum (one at the threshold is kept), sums the waste and builds both
    histograms over the kept findings only, and hands the error strings on
    unchanged. [Analyze] is a total function: it yields a result for every
    input. *)
Theorem C5_analyze_filters_and_summarises
    (result : registry.ScanResult) (cfg : AnalyzerConfig) :
  let out := Analyze result cfg in
  let kept :=
    List.filter
      (fun f => ge (registry.EstimatedMonthlyWaste f) (MinMonthlyCost cfg))
      (registry.Findings result) in
  Findings out = kept
  /\ (forall f, In f (registry.Findings result) ->
        eq (registry.EstimatedMonthlyWaste f) (MinMonthlyCost cfg) = true ->
        In f (Findings out))
  /\ TotalFindings (Summary_ out) = len kept
  /\ TotalMonthlyWaste (Summary_ out)
       = design.sum (map registry.EstimatedMonthlyWaste kept)
  /\ (forall severity,
        index (BySeverity (Summary_ out)) severity
        = design.count (fun f => String.eqb (registry.Severity f) severity) kept)
  /\ (forall resourceType,
        index (ByResourceType (Summary_ out)) resourceType
        = design.count (fun f => String.eqb (registry.ResourceType f) resourceType) kept)
  /\ TotalResourcesScanned (Summary_ out) = registry.ResourcesScanned result
  /\ RepositoriesScanned (Summary_ out) = registry.RepositoriesScanned result
  /\ Errors out = registry.Errors result.
Proof.
  intros out kept.
  assert (Hkept : Findings out = kept).
  { unfold out, Analyze. cbn [Findings]. rewrite filter_loop. reflexivity. }
  assert (Hsum : Summary_ out =
            fold_left summaryStep kept
              {| TotalResourcesScanned := registry.ResourcesScanned result;
                 TotalFindings := len kept;
                 TotalMonthlyWaste := zero;
                 BySeverity := ∅;
                 ByResourceType := ∅;
                 RepositoriesScanned := registry.RepositoriesScanned result |}).
  { unfold out, Analyze. cbn [Summary_]. rewrite !filter_loop. reflexivity. }
  pose proof (summary_loop kept
                {| TotalResourcesScanned := registry.ResourcesScanned result;
                   TotalFindings := len kept;
                   TotalMonthlyWaste := zero;
                   BySeverity := ∅;
                   ByResourceType := ∅;
                   RepositoriesScanned := registry.RepositoriesScanned result |})
    as (H1 & H2 & H3 & H4 & H5 & H6).
  cbn zeta in *. rewrite <- Hsum in *. cbn [TotalResourcesScanned TotalFindings
    TotalMonthlyWaste BySeverity ByResourceType RepositoriesScanned] in *.
  split; [exact Hkept|].
  split.
  { intros f Hin Heq. rewrite Hkept. apply List.filter_In. split; [assumption|].
    apply eq_ge. assumption. }
  split; [exact H2|].
  split; [exact H4|].
  split.
  { intros severity. rewrite H5, histogram_index. reflexivity. }
  split.
  { intros resourceType. rewrite H6, histogram_index. reflexivity. }
  split; [exact H1|].
  split; [exact H3|].
  reflexivity.
Qed.

End AnalyzerFacts.

(** ** The classifiers *)

Section ClassifierFacts.
Import registry Rules.

Lemma ecr_analyzeImage_kinds s cfg repoName img :
  map kind (ecr.analyzeImage s cfg repoName img) = ecrKinds s cfg img.
Proof.
  unfold ecr.analyzeImage, ecrKinds, ecrUntagged, ecrStale, ecrLarge, ecrManifestList.
  cbv zeta.
  destruct (len (ecr.ImageTags img) =? 0);
  destruct (0 <? StaleDays cfg);
  destruct (ecr.lastActivityTime img) as [lastActivity|];
  try destruct (time.Before lastActivity _);
  destruct ((0 <? MaxSizeBytes cfg) && _);
  destruct (ecr.ImageManifestMediaType img) as [mediaType|];
  try destruct (Contains mediaType "manifest.list");
  reflexivity.
Qed.

Lemma ar_analyzeImage_kinds s cfg repo img :
  map kind (artifactregistry.analyzeImage s cfg repo img) = arKinds s cfg img.
Proof.
  unfold artifactregistry.analyzeImage, arKinds, arUntagged, arStale, arLarge,
    arMultiPlatform.
  cbv zeta.
  destruct (len (artifactregistry.Tags img) =? 0);
  destruct (0 <? StaleDays cfg);
  destruct (time.IsZero (artifactregistry.UploadTime img));
  destruct (time.Before (artifactregistry.UploadTime img) _);
  destruct ((0 <? MaxSizeBytes cfg) && _);
  destruct (Contains (artifactregistry.MediaType img) "manifest.list");
  destruct (Contains (artifactregistry.MediaType img) "image.index");
  reflexivity.
Qed.

End ClassifierFacts.

Section StaleRule.
Import registry Rules.

Lemma findByID_kinds (l : list Finding) (id : string) :
  map kind (findByID l id)
  = List.filter (fun k => String.eqb (fst (fst k)) id) (map kind l).
Proof.
  unfold findByID. induction l as [|f l IH]; simpl; [reflexivity|].
  destruct (String.eqb (ID f) id); simpl; rewrite IH; reflexivity.
Qed.

Lemma kinds_singleton (l : list Finding) k :
  map kind l = [k] -> exists f, l = [f] /\ kind f = k.
Proof.
  destruct l as [|f [|g l]]; simpl; try discriminate.
  intros H. injection H as H. exists f. split; [reflexivity|assumption].
Qed.

Lemma kinds_nil (l : list Finding) : map kind l = [] -> l = [].
Proof. destruct l; simpl; [reflexivity|discriminate]. Qed.

Lemma ecr_stale_kinds s cfg repoName img :
  map kind (findByID (ecr.analyzeImage s cfg repoName img) FindingStaleImage)
  = if ecrStale s cfg img
    then [(FindingStaleImage, SeverityHigh, ResourceImage)] else [].
Proof.
  rewrite findByID_kinds, ecr_analyzeImage_kinds. unfold ecrKinds.
  destruct (ecrUntagged img), (ecrStale s cfg img), (ecrLarge cfg img),
    (ecrManifestList img); reflexivity.
Qed.

Lemma ar_stale_kinds s cfg repo img :
  map kind (findByID (artifactregistry.analyzeImage s cfg repo img) FindingStaleImage)
  = if arStale s cfg img
    then [(FindingStaleImage, SeverityHigh, ResourceImage)] else [].
Proof.
  rewrite findByID_kinds, ar_analyzeImage_kinds. unfold arKinds.
  destruct (arUntagged img), (arStale s cfg img), (arLarge cfg img),
    (arMultiPlatform img); reflexivity.
Qed.






End StaleRule.

(** ** Accumulation *)

Section AccumulationFacts.
Import registry Rules.

Lemma ScanResult_eq (a b : ScanResult) :
  Findings a = Findings b -> Errors a = Errors b ->
  ResourcesScanned a = ResourcesScanned b ->
  RepositoriesScanned a = RepositoriesScanned b -> a = b.
Proof. destruct a, b; simpl; intros; subst; reflexivity. Qed.

Lemma Run_eq (a b : Run) :
  result a = result b -> progressed a = progressed b -> a = b.
Proof. destruct a, b; simpl; intros; subst; reflexivity. Qed.

Lemma merge_empty_r a : merge a emptyResult = a.
Proof.
  apply ScanResult_eq; simpl; rewrite ?app_nil_r; lia || reflexivity.
Qed.

Lemma merge_empty_l a : merge emptyResult a = a.
Proof. apply ScanResult_eq; simpl; lia || reflexivity. Qed.

Lemma merge_assoc a b c : merge (merge a b) c = merge a (merge b c).
Proof.
  apply ScanResult_eq; simpl; rewrite <- ?app_assoc; lia || reflexivity.
Qed.

Lemma countStale_findByID findings staleCount :
  ecr.countStale findings staleCount = staleCount + len (findByID findings FindingStaleImage).
Proof.
  unfold ecr.countStale, findByID, len. revert staleCount.
  induction findings as [|f l IH]; intros c; simpl.
  - lia.
  - rewrite IH. destruct (String.eqb (ID f) FindingStaleImage); simpl length; lia.
Qed.

Lemma findByID_app l1 l2 id : findByID (l1 ++ l2) id = findByID l1 id ++ findByID l2 id.
Proof. unfold findByID. apply List.filter_app. Qed.

Lemma len_app {A} (l1 l2 : list A) : len (l1 ++ l2) = len l1 + len l2.
Proof. unfold len. rewrite length_app. lia. Qed.

Lemma len_nonneg {A} (l : list A) : 0 <= len l.
Proof. unfold len. lia. Qed.

Lemma len_zero {A} (l : list A) : (len l =? 0) = true <-> l = [].
Proof.
  unfold len. rewrite Z.eqb_eq. destruct l; simpl; split; intros; try reflexivity;
    try discriminate; lia.
Qed.

End AccumulationFacts.

(** ** The ECR scanner *)

Section EcrFacts.
Import registry Rules.

Lemma ecr_reportProgress_result s progress msg run :
  result (ecr.reportProgress s progress msg run) = result run.
Proof. unfold ecr.reportProgress. destruct progress; reflexivity. Qed.

Lemma ecr_scanImages_spec s cfg repoName images run :
  result (fst (ecr.scanImages s cfg repoName images run))
  = merge (result run) (ecrImagesAdd s cfg repoName images)
  /\ progressed (fst (ecr.scanImages s cfg repoName images run)) = progressed run
  /\ snd (ecr.scanImages s cfg repoName images run) = ecrStaleTotal s cfg repoName images.
Proof.
  unfold ecr.scanImages, ecrStaleTotal, ecrImagesAdd.
  assert (H : forall images run c,
    let out := fold_left
      (fun '(run, staleCount) img =>
         let run := onResult incResourcesScanned run in
         let findings := ecr.analyzeImage s cfg repoName img in
         let run := onResult (appendFindings findings) run in
         (run, ecr.countStale findings staleCount))
      images (run, c) in
    result (fst out)
    = merge (result run)
        {| Findings := flat_map (ecr.analyzeImage s cfg repoName) images;
           Errors := [];
           ResourcesScanned := len images;
           RepositoriesScanned := 0 |}
    /\ progressed (fst out) = progressed run
    /\ snd out = c + len (findByID (flat_map (ecr.analyzeImage s cfg repoName) images)
                            FindingStaleImage)).
  { clear images run. induction images as [|img images IH]; intros run c.
    - cbn zeta. simpl. rewrite merge_empty_r. repeat split. unfold len. simpl. lia.
    - cbn zeta in *. simpl fold_left.
      destruct (IH (onResult (appendFindings (ecr.analyzeImage s cfg repoName img))
                      (onResult incResourcesScanned run))
                   (ecr.countStale (ecr.analyzeImage s cfg repoName img) c))
        as (H1 & H2 & H3).
      rewrite H1, H2, H3. repeat split.
      + apply ScanResult_eq; simpl; rewrite <- ?app_assoc; try reflexivity.
        unfold len. simpl length. lia.
      + simpl flat_map. rewrite findByID_app, len_app, countStale_findByID. lia. }
  specialize (H images run 0). cbn zeta in H.
  destruct H as (H1 & H2 & H3). repeat split; [exact H1|exact H2|].
  rewrite H3. lia.
Qed.

Lemma onResult_result f run : result (onResult f run) = f (result run).
Proof. reflexivity. Qed.

Lemma appendFindings_merge fs r : appendFindings fs r = merge r (findingsOnly fs).
Proof.
  apply ScanResult_eq; simpl; rewrite ?app_nil_r; lia || reflexivity.
Qed.

Lemma appendError_merge e r : appendError e r = merge r (errorOnly e).
Proof.
  apply ScanResult_eq; simpl; rewrite ?app_nil_r; lia || reflexivity.
Qed.

(** Scanning a repository merges what the repository adds into the result
    so far, whatever that result and whether or not progress is reported. *)
Lemma ecr_scanRepository_result s cfg repo progress run :
  result (ecr.scanRepository s cfg repo progress run)
  = merge (result run) (ecrRepoAdds s cfg repo).
Proof.
  unfold ecr.scanRepository, ecrRepoAdds. cbv zeta.
  set (repoName := ecr.deref (ecr.RepositoryName repo)).
  set (run0 := ecr.reportProgress s progress _ run).
  assert (H0 : result run0 = result run) by apply ecr_reportProgress_result.
  destruct (ecr.ListImages (ecr.client s) repoName) as [images|err].
  - destruct (len images =? 0).
    + rewrite onResult_result, appendFindings_merge, H0. reflexivity.
    + set (run1 := match ecr.HasLifecyclePolicy (ecr.client s) repoName with
                   | Ok hasPolicy => _ | Err err => _ end).
      assert (H1 : result run1 = merge (result run) (ecrPolicyAdds s repoName)).
      { unfold run1, ecrPolicyAdds.
        destruct (ecr.HasLifecyclePolicy (ecr.client s) repoName) as [hasPolicy|err].
        - destruct (negb hasPolicy).
          + rewrite onResult_result, appendFindings_merge, H0. reflexivity.
          + rewrite merge_empty_r. exact H0.
        - rewrite onResult_result, appendError_merge, H0. reflexivity. }
      pose proof (ecr_scanImages_spec s cfg repoName images run1) as (H2 & _ & H3).
      destruct (ecr.scanImages s cfg repoName images run1) as [run2 staleCount].
      cbn [fst snd] in H2, H3. subst staleCount.
      unfold ecrUnusedAdds.
      destruct ((ecrStaleTotal s cfg repoName images =? len images) && (0 <? len images)).
      * rewrite onResult_result, appendFindings_merge, H2, H1.
        rewrite !merge_assoc. reflexivity.
      * rewrite H2, H1, merge_empty_r, !merge_assoc. reflexivity.
  - rewrite onResult_result, appendError_merge, H0. reflexivity.
Qed.

Lemma ecr_scanRepositories_result s cfg progress repos run :
  result (ecr.scanRepositories s cfg progress repos run)
  = merge (result run) (ecrReposAdd s cfg repos).
Proof.
  unfold ecr.scanRepositories, ecrReposAdd. revert run.
  induction repos as [|repo repos IH]; intros run; simpl.
  - rewrite merge_empty_r. reflexivity.
  - rewrite IH. fold (ecrExcluded cfg repo).
    destruct (ecrExcluded cfg repo).
    + rewrite merge_empty_l. reflexivity.
    + rewrite ecr_scanRepository_result, merge_assoc. reflexivity.
Qed.

Lemma ecr_Scan_result s cfg progress :
  result (ecr.Scan s cfg progress)
  = match ecr.ListRepositories (ecr.client s) with
    | Err err => errorOnly (ecr.region s +:+ ": " +:+ err)
    | Ok repos => merge (repositoriesOnly (len repos)) (ecrReposAdd s cfg repos)
    end.
Proof.
  unfold ecr.Scan. cbv zeta.
  destruct (ecr.ListRepositories (ecr.client s)) as [repos|err].
  - rewrite ecr_scanRepositories_result, ecr_reportProgress_result. reflexivity.
  - reflexivity.
Qed.

End EcrFacts.

(** ** The Artifact Registry scanner *)

Section ArFacts.
Import registry Rules.

Lemma ar_reportProgress_result s progress location msg run :
  result (artifactregistry.reportProgress s progress location msg run) = result run.
Proof. unfold artifactregistry.reportProgress. destruct progress; reflexivity. Qed.

Lemma ar_countStale_findByID findings staleCount :
  artifactregistry.countStale findings staleCount
  = staleCount + len (findByID findings FindingStaleImage).
Proof. apply countStale_findByID. Qed.

Lemma ar_scanImages_spec s cfg repo images run :
  result (fst (artifactregistry.scanImages s cfg repo images run))
  = merge (result run) (arImagesAdd s cfg repo images)
  /\ progressed (fst (artifactregistry.scanImages s cfg repo images run)) = progressed run
  /\ snd (artifactregistry.scanImages s cfg repo images run) = arStaleTotal s cfg repo images.
Proof.
  unfold artifactregistry.scanImages, arStaleTotal, arImagesAdd.
  assert (H : forall images run c,
    let out := fold_left
      (fun '(run, staleCount) img =>
         let run := onResult incResourcesScanned run in
         let findings := artifactregistry.analyzeImage s cfg repo img in
         let run := onResult (appendFindings findings) run in
         (run, artifactregistry.countStale findings staleCount))
      images (run, c) in
    result (fst out)
    = merge (result run)
        {| Findings := flat_map (artifactregistry.analyzeImage s cfg repo) images;
           Errors := [];
           ResourcesScanned := len images;
           RepositoriesScanned := 0 |}
    /\ progressed (fst out) = progressed run
    /\ snd out = c + len (findByID (flat_map (artifactregistry.analyzeImage s cfg repo) images)
                            FindingStaleImage)).
  { clear images run. induction images as [|img images IH]; intros run c.
    - cbn zeta. simpl. rewrite merge_empty_r. repeat split. unfold len. simpl. lia.
    - cbn zeta in *. simpl fold_left.
      destruct (IH (onResult (appendFindings (artifactregistry.analyzeImage s cfg repo img))
                      (onResult incResourcesScanned run))
                   (artifactregistry.countStale
                      (artifactregistry.analyzeImage s cfg repo img) c))
        as (H1 & H2 & H3).
      rewrite H1, H2, H3. repeat split.
      + apply ScanResult_eq; simpl; rewrite <- ?app_assoc; try reflexivity.
        unfold len. simpl length. lia.
      + simpl flat_map. rewrite findByID_app, len_app, ar_countStale_findByID. lia. }
  specialize (H images run 0). cbn zeta in H.
  destruct H as (H1 & H2 & H3). repeat split; [exact H1|exact H2|].
  rewrite H3. lia.
Qed.

Lemma ar_scanRepository_result s cfg repo progress run :
  result (artifactregistry.scanRepository s cfg repo progress run)
  = merge (result run) (arRepoAdds s cfg repo).
Proof.
  unfold artifactregistry.scanRepository, arRepoAdds. cbv zeta.
  set (run0 := artifactregistry.reportProgress s progress _ _ run).
  assert (H0 : result run0 = result run) by apply ar_reportProgress_result.
  destruct (artifactregistry.ListDockerImages _ _) as [images|err].
  - destruct (len images =? 0).
    + rewrite onResult_result, appendFindings_merge, H0. reflexivity.
    + pose proof (ar_scanImages_spec s cfg repo images run0) as (H2 & _ & H3).
      destruct (artifactregistry.scanImages s cfg repo images run0) as [run2 staleCount].
      cbn [fst snd] in H2, H3. subst staleCount.
      unfold arUnusedAdds.
      destruct ((arStaleTotal s cfg repo images =? len images) && (0 <? len images)).
      * rewrite onResult_result, appendFindings_merge, H2, H0.
        rewrite !merge_assoc. reflexivity.
      * rewrite H2, H0, merge_empty_r. reflexivity.
  - rewrite onResult_result, appendError_merge, H0. reflexivity.
Qed.

Lemma ar_scanRepositories_result s cfg progress repos run :
  result (artifactregistry.scanRepositories s cfg progress repos run)
  = merge (result run) (arReposAdd s cfg repos).
Proof.
  unfold artifactregistry.scanRepositories, arReposAdd. revert run.
  induction repos as [|repo repos IH]; intros run; simpl.
  - rewrite merge_empty_r. reflexivity.
  - rewrite IH. fold (arExcluded cfg repo).
    destruct (arExcluded cfg repo).
    + rewrite merge_empty_l. reflexivity.
    + rewrite ar_scanRepository_result, merge_assoc. reflexivity.
Qed.

Lemma ar_scanLocation_result s cfg progress run location :
  result (artifactregistry.scanLocation s cfg progress run location)
  = merge (result run) (arLocationAdds s cfg location).
Proof.
  unfold artifactregistry.scanLocation, arLocationAdds. cbv zeta.
  set (run0 := artifactregistry.reportProgress s progress _ _ run).
  assert (H0 : result run0 = result run) by apply ar_reportProgress_result.
  destruct (artifactregistry.ListRepositories _ _ _) as [repos|err].
  - rewrite ar_scanRepositories_result, ar_reportProgress_result, onResult_result, H0.
    rewrite <- merge_assoc. f_equal.
    apply ScanResult_eq; simpl; rewrite ?app_nil_r; lia || reflexivity.
  - rewrite onResult_result, appendError_merge, H0. reflexivity.
Qed.

Lemma ar_Scan_result s cfg progress :
  result (artifactregistry.Scan s cfg progress)
  = mergeAll (map (arLocationAdds s cfg) (artifactregistry.locations s)).
Proof.
  unfold artifactregistry.Scan.
  assert (H : forall locations run,
            result (fold_left (artifactregistry.scanLocation s cfg progress) locations run)
            = merge (result run) (mergeAll (map (arLocationAdds s cfg) locations))).
  { induction locations as [|location locations IH]; intros run; simpl.
    - rewrite merge_empty_r. reflexivity.
    - rewrite IH, ar_scanLocation_result, merge_assoc. reflexivity. }
  rewrite H. apply merge_empty_l.
Qed.

End ArFacts.

(** ** Repository-level rules *)

Section RepositoryRules.
Import registry Rules.

Lemma findByID_none (l : list Finding) id :
  Forall (fun f => ID f <> id) l -> findByID l id = [].
Proof.
  unfold findByID. induction 1 as [|f l Hf _ IH]; simpl; [reflexivity|].
  destruct (String.eqb_spec (ID f) id); [contradiction|assumption].
Qed.

Lemma Forall_kind (P : string -> Prop) (l : list Finding) :
  Forall (fun k => P (fst (fst k))) (map kind l) -> Forall (fun f => P (ID f)) l.
Proof.
  induction l as [|f l IH]; simpl; intros H; [constructor|].
  inversion H; subst. constructor; [assumption|apply IH; assumption].
Qed.

Lemma ecr_image_ids s cfg repoName img :
  Forall (fun f => In (ID f) imageIDs) (ecr.analyzeImage s cfg repoName img).
Proof.
  apply (Forall_kind (fun id => In id imageIDs)).
  rewrite ecr_analyzeImage_kinds. unfold ecrKinds.
  destruct (ecrUntagged img), (ecrStale s cfg img), (ecrLarge cfg img),
    (ecrManifestList img); simpl app;
    repeat (apply List.Forall_cons; [cbn [fst]; unfold imageIDs; simpl In; tauto|]);
    apply List.Forall_nil.
Qed.

Lemma ar_image_ids s cfg repo img :
  Forall (fun f => In (ID f) imageIDs) (artifactregistry.analyzeImage s cfg repo img).
Proof.
  apply (Forall_kind (fun id => In id imageIDs)).
  rewrite ar_analyzeImage_kinds. unfold arKinds.
  destruct (arUntagged img), (arStale s cfg img), (arLarge cfg img),
    (arMultiPlatform img); simpl app;
    repeat (apply List.Forall_cons; [cbn [fst]; unfold imageIDs; simpl In; tauto|]);
    apply List.Forall_nil.
Qed.

Lemma Forall_flat_map {A B} (P : B -> Prop) (f : A -> list B) (l : list A) :
  (forall x, Forall P (f x)) -> Forall P (flat_map f l).
Proof.
  intros H. induction l as [|x l IH]; simpl; [constructor|].
  apply Forall_app. split; [apply H|exact IH].
Qed.

(** The stale count reaches the number of images exactly when every image
    was flagged. *)
Lemma staleTotal_all {A} (analyze : A -> list Finding) (images : list A) :
  (forall img, len (findByID (analyze img) FindingStaleImage) <= 1) ->
  0 <= len (findByID (flat_map analyze images) FindingStaleImage) <= len images /\
  (len (findByID (flat_map analyze images) FindingStaleImage) = len images <->
   Forall (fun img => findByID (analyze img) FindingStaleImage <> []) images).
Proof.
  intros Hone. induction images as [|img images [IHb IH]]; simpl flat_map.
  - unfold len; simpl. split; [lia|]. split; [constructor|reflexivity].
  - rewrite findByID_app, len_app.
    assert (Hl : len (img :: images) = 1 + len images) by (unfold len; simpl length; lia).
    rewrite Hl. specialize (Hone img).
    pose proof (len_nonneg (findByID (analyze img) FindingStaleImage)) as H0.
    assert (Hne : findByID (analyze img) FindingStaleImage <> [] <->
                  len (findByID (analyze img) FindingStaleImage) = 1).
    { destruct (findByID (analyze img) FindingStaleImage) as [|f l] eqn:E.
      - unfold len; simpl. split; [congruence|lia].
      - split; [|discriminate]. intros _. unfold len in *. simpl length in *. lia. }
    split; [lia|]. split.
    + intros Heq. constructor; [apply Hne; lia|apply IH; lia].
    + intros Hall. inversion Hall as [|? ? H1 H2]; subst.
      apply Hne in H1. apply IH in H2. lia.
Qed.

Lemma kinds_len_le_1 (l : list Finding) (b : bool) k :
  map kind l = (if b then [k] else []) -> len l <= 1.
Proof.
  intros H. assert (Hlen : (length (map kind l) <= 1)%nat)
    by (rewrite H; destruct b; simpl; lia).
  rewrite length_map in Hlen. unfold len. lia.
Qed.

Lemma sum_costs {A} (cost : A -> float64) (l : list A) (acc : float64) :
  fold_left (fun totalWaste x => add totalWaste (cost x)) l acc
  = fold_left add (map cost l) acc.
Proof. revert acc. induction l as [|x l IH]; intros acc; simpl; [reflexivity|apply IH]. Qed.

Lemma images_nonempty {A} (images : list A) :
  images <> [] -> (len images =? 0) = false /\ (0 <? len images) = true.
Proof.
  intros H. destruct images; [contradiction|]. unfold len. simpl length.
  split; [apply Z.eqb_neq|apply Z.ltb_lt]; lia.
Qed.

(** The rule, from the stale count that the scanner compares with the
    number of images. *)
Lemma unusedRepoRule_of_total {A} (analyze : A -> list Finding) (images : list A)
    (cost : A -> float64) (before : list Finding) (allStale : Finding) :
  images <> [] ->
  (forall img, len (findByID (analyze img) FindingStaleImage) <= 1) ->
  Forall (fun f => ID f <> FindingUnusedRepo) before ->
  ID allStale = FindingUnusedRepo ->
  ResourceType allStale = ResourceRepository ->
  EstimatedMonthlyWaste allStale
    = fold_left (fun totalWaste x => add totalWaste (cost x)) images zero ->
  Metadata allStale !! "image_count" = Some (MetaInt (len images)) ->
  design.unusedRepoRule (len images)
    (Forall (fun img => findByID (analyze img) FindingStaleImage <> []) images)
    (map cost images)
    (findByID
       (before ++
        Findings
          (if (len (findByID (flat_map analyze images) FindingStaleImage) =? len images)
              && (0 <? len images)
           then findingsOnly [allStale] else emptyResult))
       FindingUnusedRepo).
Proof.
  intros Hne Hone Hbefore Hid Hrt Hwaste Hmeta.
  destruct (staleTotal_all analyze images Hone) as [_ Hall].
  destruct (images_nonempty images Hne) as [_ Hpos]. rewrite Hpos, andb_true_r.
  rewrite findByID_app, (findByID_none before) by assumption. simpl app.
  unfold design.unusedRepoRule. split.
  - intros H. apply Hall in H. rewrite H, Z.eqb_refl. simpl Findings.
    unfold findByID. simpl List.filter. rewrite Hid. simpl.
    exists allStale. repeat split; try assumption.
    rewrite Hwaste. unfold design.sum. apply sum_costs.
  - intros H. destruct (Z.eqb_spec
      (len (findByID (flat_map analyze images) FindingStaleImage)) (len images)) as [E|E].
    + apply Hall in E. contradiction.
    + reflexivity.
Qed.

Lemma imageIDs_not_unused id : In id imageIDs -> id <> FindingUnusedRepo.
Proof.
  unfold imageIDs. simpl In. intros [<-|[<-|[<-|[<-|[]]]]]; discriminate.
Qed.

Lemma ecr_images_not_unused s cfg repoName images :
  Forall (fun f => ID f <> FindingUnusedRepo)
    (flat_map (ecr.analyzeImage s cfg repoName) images).
Proof.
  apply Forall_flat_map. intros img.
  eapply List.Forall_impl; [|apply ecr_image_ids].
  intros f. apply imageIDs_not_unused.
Qed.

Lemma ar_images_not_unused s cfg repo images :
  Forall (fun f => ID f <> FindingUnusedRepo)
    (flat_map (artifactregistry.analyzeImage s cfg repo) images).
Proof.
  apply Forall_flat_map. intros img.
  eapply List.Forall_impl; [|apply ar_image_ids].
  intros f. apply imageIDs_not_unused.
Qed.

Lemma ecr_policy_not_unused s repoName :
  Forall (fun f => ID f <> FindingUnusedRepo) (Findings (ecrPolicyAdds s repoName)).
Proof.
  unfold ecrPolicyAdds.
  destruct (ecr.HasLifecyclePolicy (ecr.client s) repoName) as [[|]|err]; simpl.
  - apply List.Forall_nil.
  - apply List.Forall_cons; [discriminate|apply List.Forall_nil].
  - apply List.Forall_nil.
Qed.

(** C2. When the image listing of a repository succeeds with at least one
    image, the scan of the repository adds exactly one repository-scoped
    [UNUSED_REPO] finding if every image received a [STALE_IMAGE] finding,
    its waste being the sum of the images' monthly costs and its metadata
    recording the image count, and adds no [UNUSED_REPO] finding if some
    image was not flagged; so in ECR and in Artifact Registry. *)
Theorem C2_unused_repo_rule :
  (forall s cfg repo progress run images,
     ecr.ListImages (ecr.client s) (ecr.deref (ecr.RepositoryName repo)) = Ok images ->
     images <> [] ->
     exists added,
       Findings (result (ecr.scanRepository s cfg repo progress run))
         = Findings (result run) ++ added /\
       design.unusedRepoRule (len images)
         (Forall (fun img =>
                    findByID
                      (ecr.analyzeImage s cfg (ecr.deref (ecr.RepositoryName repo)) img)
                      FindingStaleImage <> []) images)
         (map (fun img =>
                 pricing.MonthlyStorageCost "ecr" (ecr.region s)
                   (ecr.derefInt64 (ecr.ImageSizeInBytes img))) images)
         (findByID added FindingUnusedRepo))
  /\
  (forall s cfg repo progress run images,
     artifactregistry.ListDockerImages (artifactregistry.client s)
       (artifactregistry.Name repo) = Ok images ->
     images <> [] ->
     exists added,
       Findings (result (artifactregistry.scanRepository s cfg repo progress run))
         = Findings (result run) ++ added /\
       design.unusedRepoRule (len images)
         (Forall (fun img =>
                    findByID (artifactregistry.analyzeImage s cfg repo img)
                      FindingStaleImage <> []) images)
         (map (fun img =>
                 pricing.MonthlyStorageCost "artifactregistry"
                   (artifactregistry.Location repo) (artifactregistry.SizeBytes img)) images)
         (findByID added FindingUnusedRepo)).
Proof.
  split.
  - intros s cfg repo progress run images Hlist Hne.
    exists (Findings (ecrRepoAdds s cfg repo)).
    rewrite ecr_scanRepository_result. split; [reflexivity|].
    unfold ecrRepoAdds. cbv zeta. rewrite Hlist.
    destruct (images_nonempty images Hne) as [-> _].
    set (repoName := ecr.deref (ecr.RepositoryName repo)).
    cbn [merge Findings]. rewrite app_assoc.
    unfold ecrUnusedAdds, ecrStaleTotal.
    apply (unusedRepoRule_of_total (ecr.analyzeImage s cfg repoName) images
             (fun img => pricing.MonthlyStorageCost "ecr" (ecr.region s)
                           (ecr.derefInt64 (ecr.ImageSizeInBytes img)))).
    + assumption.
    + intros img. eapply kinds_len_le_1. apply ecr_stale_kinds.
    + apply Forall_app. split;
        [apply ecr_policy_not_unused|apply ecr_images_not_unused].
    + reflexivity.
    + reflexivity.
    + reflexivity.
    + simpl. apply lookup_insert_eq.
  - intros s cfg repo progress run images Hlist Hne.
    exists (Findings (arRepoAdds s cfg repo)).
    rewrite ar_scanRepository_result. split; [reflexivity|].
    unfold arRepoAdds. rewrite Hlist.
    destruct (images_nonempty images Hne) as [-> _].
    cbn [merge Findings].
    unfold arUnusedAdds, arStaleTotal.
    apply (unusedRepoRule_of_total (artifactregistry.analyzeImage s cfg repo) images
             (fun img => pricing.MonthlyStorageCost "artifactregistry"
                           (artifactregistry.Location repo)
                           (artifactregistry.SizeBytes img))).
    + assumption.
    + intros img. eapply kinds_len_le_1. apply ar_stale_kinds.
    + apply ar_images_not_unused.
    + reflexivity.
    + reflexivity.
    + reflexivity.
    + simpl. apply lookup_insert_eq.
Qed.

Lemma C2_unused_repo_rule_witness :
  exists added,
    Findings (result (ecr.scanRepository Fixtures.allStaleScanner Fixtures.defaultCfg
                        (Fixtures.makeRepo "old-repo") false newRun))
      = Findings (result newRun) ++ added /\
    design.unusedRepoRule (len Fixtures.allStaleImages)
      (Forall (fun img =>
                 findByID
                   (ecr.analyzeImage Fixtures.allStaleScanner Fixtures.defaultCfg
                      (ecr.deref (ecr.RepositoryName (Fixtures.makeRepo "old-repo"))) img)
                   FindingStaleImage <> []) Fixtures.allStaleImages)
      (map (fun img =>
              pricing.MonthlyStorageCost "ecr" (ecr.region Fixtures.allStaleScanner)
                (ecr.derefInt64 (ecr.ImageSizeInBytes img))) Fixtures.allStaleImages)
      (findByID added FindingUnusedRepo).
Proof.
  apply (proj1 C2_unused_repo_rule Fixtures.allStaleScanner Fixtures.defaultCfg
           (Fixtures.makeRepo "old-repo") false newRun Fixtures.allStaleImages).
  - vm_compute. reflexivity.
  - discriminate.
Defined.

End RepositoryRules.

(** ** Multi-architecture images *)

Section MultiArch.
Import registry Rules.

(** In Artifact Registry the [MULTI_ARCH_BLOAT] finding is given exactly to
    the stale images whose media type names a manifest list or an image
    index. *)
Lemma ar_multi_arch_kinds s cfg repo img :
  map kind (findByID (artifactregistry.analyzeImage s cfg repo img) FindingMultiArchBloat)
  = if arMultiPlatform img && arStale s cfg img
    then [(FindingMultiArchBloat, SeverityLow, ResourceImage)] else [].
Proof.
  rewrite findByID_kinds, ar_analyzeImage_kinds. unfold arKinds.
  destruct (arUntagged img), (arStale s cfg img), (arLarge cfg img),
    (arMultiPlatform img); reflexivity.
Qed.

(** In ECR it is given exactly to the stale images whose media type names a
    manifest list. *)
Lemma ecr_multi_arch_kinds s cfg repoName img :
  map kind (findByID (ecr.analyzeImage s cfg repoName img) FindingMultiArchBloat)
  = if ecrManifestList img && ecrStale s cfg img
    then [(FindingMultiArchBloat, SeverityLow, ResourceImage)] else [].
Proof.
  rewrite findByID_kinds, ecr_analyzeImage_kinds. unfold ecrKinds.
  destruct (ecrUntagged img), (ecrStale s cfg img), (ecrLarge cfg img),
    (ecrManifestList img); reflexivity.
Qed.

(** C3. A stale image whose media type is the OCI image index: the ECR
    classifier flags it stale and gives it no [MULTI_ARCH_BLOAT] finding,
    while the Artifact Registry classifier gives the same image both. *)
Theorem C3_ecr_misses_oci_image_index :
  let ecrFindings :=
    ecr.analyzeImage (Fixtures.newTestScanner (Fixtures.mockECR Fixtures.newMockClient))
      Fixtures.defaultCfg "multiarch" Fixtures.ecrOciIndexImage in
  let arFindings :=
    artifactregistry.analyzeImage
      (Fixtures.newARTestScanner (Fixtures.mockAR Fixtures.newMockARClient) ["us-central1"])
      Fixtures.defaultCfg Fixtures.arMultiarchRepo Fixtures.arOciIndexImage in
  map kind (findByID ecrFindings FindingStaleImage)
    = [(FindingStaleImage, SeverityHigh, ResourceImage)]
  /\ findByID ecrFindings FindingMultiArchBloat = []
  /\ map kind (findByID arFindings FindingStaleImage)
       = [(FindingStaleImage, SeverityHigh, ResourceImage)]
  /\ map kind (findByID arFindings FindingMultiArchBloat)
       = [(FindingMultiArchBloat, SeverityLow, ResourceImage)].
Proof. vm_compute. repeat split; reflexivity. Qed.

End MultiArch.

(** ** Findings of an Artifact Registry scan *)

Section GcpFindings.
Import registry Rules.

Lemma Forall_mergeAll (P : Finding -> Prop) (l : list ScanResult) :
  Forall (fun r => Forall P (Findings r)) l -> Forall P (Findings (mergeAll l)).
Proof.
  induction 1 as [|r l Hr _ IH]; simpl; [apply List.Forall_nil|].
  apply Forall_app. split; assumption.
Qed.

Lemma imageIDs_gcpKind f : In (ID f) imageIDs -> gcpKind f.
Proof.
  unfold imageIDs, gcpKind. simpl In.
  intros [<-|[<-|[<-|[<-|[]]]]]; split; discriminate.
Qed.

Lemma arRepoAdds_gcpKind s cfg repo : Forall gcpKind (Findings (arRepoAdds s cfg repo)).
Proof.
  unfold arRepoAdds.
  destruct (artifactregistry.ListDockerImages _ _) as [images|err];
    [|apply List.Forall_nil].
  destruct (len images =? 0).
  - apply List.Forall_cons; [split; discriminate|apply List.Forall_nil].
  - cbn [merge Findings]. apply Forall_app. split.
    + apply Forall_flat_map. intros img.
      eapply List.Forall_impl; [|apply ar_image_ids]. apply imageIDs_gcpKind.
    + unfold arUnusedAdds. destruct (_ && _); simpl.
      * apply List.Forall_cons; [split; discriminate|apply List.Forall_nil].
      * apply List.Forall_nil.
Qed.

Lemma arReposAdd_gcpKind s cfg repos : Forall gcpKind (Findings (arReposAdd s cfg repos)).
Proof.
  unfold arReposAdd. apply Forall_mergeAll. apply Forall_map.
  apply Forall_forall. intros repo _. simpl.
  destruct (arExcluded cfg repo); [apply List.Forall_nil|apply arRepoAdds_gcpKind].
Qed.

Lemma arLocationAdds_gcpKind s cfg location :
  Forall gcpKind (Findings (arLocationAdds s cfg location)).
Proof.
  unfold arLocationAdds.
  destruct (artifactregistry.ListRepositories _ _ _) as [repos|err];
    [|apply List.Forall_nil].
  cbn [merge Findings repositoriesOnly app]. apply arReposAdd_gcpKind.
Qed.

(** C9. Whatever the inventory and the configuration, the result of an
    Artifact Registry scan holds no [NO_LIFECYCLE_POLICY] finding and no
    [VULNERABLE_IMAGE] finding. *)
Theorem C9_gcp_scan_kinds s cfg progress :
  Forall
    (fun f => ID f <> FindingNoLifecyclePolicy /\ ID f <> FindingVulnerableImage)
    (Findings (result (artifactregistry.Scan s cfg progress))).
Proof.
  rewrite ar_Scan_result. apply (Forall_mergeAll gcpKind). apply Forall_map.
  apply Forall_forall. intros location _. apply arLocationAdds_gcpKind.
Qed.

End GcpFindings.

(** ** Failures and exclusions *)

Section FailuresAndExclusions.
Import registry Rules.

Lemma ecrRepoAdds_repositories s cfg repo :
  RepositoriesScanned (ecrRepoAdds s cfg repo) = 0.
Proof.
  unfold ecrRepoAdds. cbv zeta.
  destruct (ecr.ListImages _ _) as [images|err]; [|reflexivity].
  destruct (len images =? 0); [reflexivity|].
  unfold ecrPolicyAdds, ecrUnusedAdds.
  destruct (ecr.HasLifecyclePolicy _ _) as [[|]|err]; destruct (_ && _); reflexivity.
Qed.

Lemma arRepoAdds_repositories s cfg repo :
  RepositoriesScanned (arRepoAdds s cfg repo) = 0.
Proof.
  unfold arRepoAdds.
  destruct (artifactregistry.ListDockerImages _ _) as [images|err]; [|reflexivity].
  destruct (len images =? 0); [reflexivity|].
  unfold arUnusedAdds. destruct (_ && _); reflexivity.
Qed.

Lemma ecrReposAdd_repositories s cfg repos :
  RepositoriesScanned (ecrReposAdd s cfg repos) = 0.
Proof.
  unfold ecrReposAdd. induction repos as [|repo repos IH]; simpl; [reflexivity|].
  rewrite IH. destruct (ecrExcluded cfg repo); simpl;
    rewrite ?ecrRepoAdds_repositories; reflexivity.
Qed.

Lemma arReposAdd_repositories s cfg repos :
  RepositoriesScanned (arReposAdd s cfg repos) = 0.
Proof.
  unfold arReposAdd. induction repos as [|repo repos IH]; simpl; [reflexivity|].
  rewrite IH. destruct (arExcluded cfg repo); simpl;
    rewrite ?arRepoAdds_repositories; reflexivity.
Qed.

(** The excluded repositories of a listing add nothing. *)
Lemma ecrReposAdd_kept s cfg repos :
  ecrReposAdd s cfg repos
  = ecrReposAdd s cfg (List.filter (fun repo => negb (ecrExcluded cfg repo)) repos).
Proof.
  unfold ecrReposAdd. induction repos as [|repo repos IH]; simpl; [reflexivity|].
  destruct (ecrExcluded cfg repo) eqn:E; simpl.
  - rewrite merge_empty_l. exact IH.
  - rewrite E, IH. reflexivity.
Qed.

Lemma arReposAdd_kept s cfg repos :
  arReposAdd s cfg repos
  = arReposAdd s cfg (List.filter (fun repo => negb (arExcluded cfg repo)) repos).
Proof.
  unfold arReposAdd. induction repos as [|repo repos IH]; simpl; [reflexivity|].
  destruct (arExcluded cfg repo) eqn:E; simpl.
  - rewrite merge_empty_l. exact IH.
  - rewrite E, IH. reflexivity.
Qed.

Lemma ecr_scanRepositories_fresh s cfg progress repos :
  result (ecr.scanRepositories s cfg progress repos newRun) = ecrReposAdd s cfg repos.
Proof. rewrite ecr_scanRepositories_result. apply merge_empty_l. Qed.

Lemma ar_scanRepositories_fresh s cfg progress repos :
  result (artifactregistry.scanRepositories s cfg progress repos newRun)
  = arReposAdd s cfg repos.
Proof. rewrite ar_scanRepositories_result. apply merge_empty_l. Qed.

(** A failing page makes the whole listing fail. *)
Lemma collectPages_fail {A} (pages : Paged A) (acc : list A) err :
  ecr.collectPages acc pages = Err err ->
  forall acc', ecr.collectPages acc' pages = Err err.
Proof.
  revert acc. induction pages as [e|items|items rest IH]; intros acc H acc'; simpl in *.
  - exact H.
  - discriminate.
  - eapply IH. exact H.
Qed.

(** C4, as the code has it. A failing image listing appends exactly one
    error string and changes nothing else; a failing lifecycle lookup
    appends exactly one error string and the images of the repository are
    classified all the same; in both registries the repositories that
    follow are scanned and add what they would add to a fresh result. A
    failing vulnerability lookup yields no finding and no error. *)
Theorem C4_recoverable_failures :
  (forall s cfg repo progress run err,
     ecr.ListImages (ecr.client s) (ecr.deref (ecr.RepositoryName repo)) = Err err ->
     result (ecr.scanRepository s cfg repo progress run)
     = appendError
         (ecr.region s +:+ "/" +:+ ecr.deref (ecr.RepositoryName repo) +:+ ": " +:+ err)
         (result run))
  /\
  (forall s cfg repo progress run images err,
     ecr.ListImages (ecr.client s) (ecr.deref (ecr.RepositoryName repo)) = Ok images ->
     images <> [] ->
     ecr.HasLifecyclePolicy (ecr.client s) (ecr.deref (ecr.RepositoryName repo)) = Err err ->
     let after := result (ecr.scanRepository s cfg repo progress run) in
     Errors after
       = Errors (result run) ++
         [ecr.region s +:+ "/" +:+ ecr.deref (ecr.RepositoryName repo)
          +:+ " lifecycle: " +:+ err] /\
     ResourcesScanned after = ResourcesScanned (result run) + len images /\
     exists unused,
       Findings after
       = Findings (result run) ++
         flat_map (ecr.analyzeImage s cfg (ecr.deref (ecr.RepositoryName repo))) images ++
         unused)
  /\
  (forall s cfg repo progress run err,
     artifactregistry.ListDockerImages (artifactregistry.client s)
       (artifactregistry.Name repo) = Err err ->
     result (artifactregistry.scanRepository s cfg repo progress run)
     = appendError
         (artifactregistry.Location repo +:+ "/" +:+ artifactregistry.RepoID repo
          +:+ ": " +:+ err)
         (result run))
  /\
  (forall s cfg progress repo repos run,
     ecrExcluded cfg repo = false ->
     result (ecr.scanRepositories s cfg progress (repo :: repos) run)
     = merge (result (ecr.scanRepository s cfg repo progress run))
         (result (ecr.scanRepositories s cfg progress repos newRun)))
  /\
  (forall s cfg progress repo repos run,
     arExcluded cfg repo = false ->
     result (artifactregistry.scanRepositories s cfg progress (repo :: repos) run)
     = merge (result (artifactregistry.scanRepository s cfg repo progress run))
         (result (artifactregistry.scanRepositories s cfg progress repos newRun)))
  /\
  (forall s repoName digest err,
     ecr.DescribeImageScanFindings (ecr.client s) repoName digest = Err err ->
     ecr.ScanVulnerabilities s repoName digest = ([], None)).
Proof.
  repeat apply conj.
  - intros s cfg repo progress run err H.
    rewrite ecr_scanRepository_result. unfold ecrRepoAdds. cbv zeta. rewrite H.
    rewrite appendError_merge. reflexivity.
  - intros s cfg repo progress run images err Hlist Hne Hpol after. subst after.
    rewrite ecr_scanRepository_result. unfold ecrRepoAdds. cbv zeta. rewrite Hlist.
    destruct (images_nonempty images Hne) as [-> _].
    unfold ecrPolicyAdds. rewrite Hpol. unfold ecrUnusedAdds.
    destruct (_ && _); cbn [merge Findings Errors ResourcesScanned ecrImagesAdd
                            findingsOnly emptyResult app].
    + repeat split; [lia|]. eexists. reflexivity.
    + repeat split; [lia|]. exists []. reflexivity.
  - intros s cfg repo progress run err H.
    rewrite ar_scanRepository_result. unfold arRepoAdds. rewrite H.
    rewrite appendError_merge. reflexivity.
  - intros s cfg progress repo repos run Hex.
    rewrite ecr_scanRepositories_result, ecr_scanRepositories_fresh,
      ecr_scanRepository_result.
    unfold ecrReposAdd. simpl. rewrite Hex, merge_assoc. reflexivity.
  - intros s cfg progress repo repos run Hex.
    rewrite ar_scanRepositories_result, ar_scanRepositories_fresh,
      ar_scanRepository_result.
    unfold arReposAdd. simpl. rewrite Hex, merge_assoc. reflexivity.
  - intros s repoName digest err H. unfold ecr.ScanVulnerabilities. rewrite H.
    reflexivity.
Qed.

Lemma C4_recoverable_failures_witness :
  result (ecr.scanRepository Fixtures.brokenRepoScanner Fixtures.defaultCfg
            (Fixtures.makeRepo "broken-repo") false newRun)
  = appendError "us-east-1/broken-repo: describe images for broken-repo: throttled"
      (result newRun).
Proof.
  apply (proj1 C4_recoverable_failures Fixtures.brokenRepoScanner Fixtures.defaultCfg
           (Fixtures.makeRepo "broken-repo") false newRun
           "describe images for broken-repo: throttled").
  vm_compute. reflexivity.
Defined.

(** C4 as stated fails on the vulnerability lookup: the lookup fails, and
    [ScanVulnerabilities] returns neither a finding nor an error; nor does a
    scan that was asked to include scan data record an error string. *)
Lemma C4_vulnerability_failure_is_dropped :
  ecr.DescribeImageScanFindings (ecr.client Fixtures.scanFailingScanner)
    "myapp" "sha256:vuln" = Err "scan not found"
  /\ ecr.ScanVulnerabilities Fixtures.scanFailingScanner "myapp" "sha256:vuln" = ([], None)
  /\ Errors (result (ecr.Scan Fixtures.scanFailingScanner Fixtures.defaultCfg false)) = [].
Proof. vm_compute. repeat split; reflexivity. Qed.

(** C8, as the code has it. When the repository listing fails, an ECR scan
    returns no finding, exactly one error string and both counters at zero.
    An Artifact Registry scan lists the repositories of each location: a
    failing listing appends exactly one error string and nothing else, and
    the scan goes on with the next location; with a single location the
    result has no finding, exactly one error string and both counters at
    zero. *)
Theorem C8_repository_listing_failure :
  (forall s cfg progress err,
     ecr.ListRepositories (ecr.client s) = Err err ->
     result (ecr.Scan s cfg progress)
     = {| Findings := []; Errors := [ecr.region s +:+ ": " +:+ err];
          ResourcesScanned := 0; RepositoriesScanned := 0 |})
  /\
  (forall s cfg progress run location err,
     artifactregistry.ListRepositories (artifactregistry.client s)
       (artifactregistry.project s) location = Err err ->
     result (artifactregistry.scanLocation s cfg progress run location)
     = appendError (location +:+ ": " +:+ err) (result run))
  /\
  (forall s cfg progress location err,
     artifactregistry.locations s = [location] ->
     artifactregistry.ListRepositories (artifactregistry.client s)
       (artifactregistry.project s) location = Err err ->
     result (artifactregistry.Scan s cfg progress)
     = {| Findings := []; Errors := [location +:+ ": " +:+ err];
          ResourcesScanned := 0; RepositoriesScanned := 0 |}).
Proof.
  repeat apply conj.
  - intros s cfg progress err H. rewrite ecr_Scan_result, H. reflexivity.
  - intros s cfg progress run location err H.
    rewrite ar_scanLocation_result. unfold arLocationAdds. rewrite H.
    rewrite appendError_merge. reflexivity.
  - intros s cfg progress location err Hloc H.
    rewrite ar_Scan_result, Hloc. simpl. unfold arLocationAdds. rewrite H.
    reflexivity.
Qed.

Lemma C8_repository_listing_failure_witness :
  result (ecr.Scan Fixtures.listingFailingScanner Fixtures.defaultCfg false)
  = {| Findings := [];
       Errors := ["us-east-1: describe repositories: access denied"];
       ResourcesScanned := 0; RepositoriesScanned := 0 |}.
Proof.
  apply (proj1 C8_repository_listing_failure Fixtures.listingFailingScanner
           Fixtures.defaultCfg false "describe repositories: access denied").
  vm_compute. reflexivity.
Defined.

(** C8 as stated fails for an Artifact Registry scan over two locations: the
    listing of the first location fails, and the result still holds the
    finding of the second location and counts its repository. *)
Lemma C8_listing_failure_with_two_locations :
  artifactregistry.ListRepositories
    (artifactregistry.client Fixtures.twoLocationScanner)
    (artifactregistry.project Fixtures.twoLocationScanner) "europe-west1"
  = Err "permission denied"
  /\ map kind (Findings (result (artifactregistry.Scan Fixtures.twoLocationScanner
                                  Fixtures.defaultCfg false)))
     = [(FindingUnusedRepo, SeverityLow, ResourceRepository)]
  /\ Errors (result (artifactregistry.Scan Fixtures.twoLocationScanner
                       Fixtures.defaultCfg false))
     = ["europe-west1: permission denied"]
  /\ RepositoriesScanned (result (artifactregistry.Scan Fixtures.twoLocationScanner
                                    Fixtures.defaultCfg false)) = 1.
Proof. vm_compute. repeat split; reflexivity. Qed.

Lemma ar_Scan_repositories s cfg progress :
  RepositoriesScanned (result (artifactregistry.Scan s cfg progress))
  = total (map (arListed s) (artifactregistry.locations s)).
Proof.
  rewrite ar_Scan_result.
  induction (artifactregistry.locations s) as [|location locations IH]; simpl;
    [reflexivity|].
  rewrite IH. f_equal. unfold arLocationAdds, arListed.
  destruct (artifactregistry.ListRepositories _ _ _) as [repos|err]; simpl;
    rewrite ?arReposAdd_repositories; lia.
Qed.

(** C10. After a successful listing [RepositoriesScanned] counts every
    repository that the listing returned, the excluded ones too (in an
    Artifact Registry scan, over all locations); the rest of the result is
    what a scan of the repositories outside the exclusion set alone gives:
    an excluded repository adds no finding, no error string and nothing to
    [ResourcesScanned]. *)
Theorem C10_repositories_scanned_and_exclusions :
  (forall s cfg progress repos,
     ecr.ListRepositories (ecr.client s) = Ok repos ->
     RepositoriesScanned (result (ecr.Scan s cfg progress)) = len repos /\
     result (ecr.Scan s cfg progress)
     = merge (repositoriesOnly (len repos))
         (result (ecr.scanRepositories s cfg progress
                    (List.filter (fun repo => negb (ecrExcluded cfg repo)) repos)
                    newRun)))
  /\
  (forall s cfg progress run location repos,
     artifactregistry.ListRepositories (artifactregistry.client s)
       (artifactregistry.project s) location = Ok repos ->
     RepositoriesScanned (result (artifactregistry.scanLocation s cfg progress run location))
     = RepositoriesScanned (result run) + len repos /\
     result (artifactregistry.scanLocation s cfg progress run location)
     = merge (merge (result run) (repositoriesOnly (len repos)))
         (result (artifactregistry.scanRepositories s cfg progress
                    (List.filter (fun repo => negb (arExcluded cfg repo)) repos)
                    newRun)))
  /\
  (forall s cfg progress,
     RepositoriesScanned (result (artifactregistry.Scan s cfg progress))
     = total (map (arListed s) (artifactregistry.locations s))).
Proof.
  repeat apply conj.
  - intros s cfg progress repos H. rewrite ecr_Scan_result, H.
    rewrite ecr_scanRepositories_fresh, <- ecrReposAdd_kept. split; [|reflexivity].
    simpl. rewrite ecrReposAdd_repositories. lia.
  - intros s cfg progress run location repos H.
    rewrite ar_scanLocation_result. unfold arLocationAdds. rewrite H.
    rewrite ar_scanRepositories_fresh, <- arReposAdd_kept, merge_assoc.
    split; [|reflexivity].
    simpl. rewrite arReposAdd_repositories. lia.
  - apply ar_Scan_repositories.
Qed.

Lemma C10_repositories_scanned_and_exclusions_witness :
  RepositoriesScanned (result (ecr.Scan Fixtures.excludeScanner Fixtures.excludeCfg false))
  = len [Fixtures.makeRepo "excluded"; Fixtures.makeRepo "included"] /\
  result (ecr.Scan Fixtures.excludeScanner Fixtures.excludeCfg false)
  = merge (repositoriesOnly (len [Fixtures.makeRepo "excluded"; Fixtures.makeRepo "included"]))
      (result (ecr.scanRepositories Fixtures.excludeScanner Fixtures.excludeCfg false
                 (List.filter (fun repo => negb (ecrExcluded Fixtures.excludeCfg repo))
                    [Fixtures.makeRepo "excluded"; Fixtures.makeRepo "included"])
                 newRun)).
Proof.
  apply (proj1 C10_repositories_scanned_and_exclusions Fixtures.excludeScanner
           Fixtures.excludeCfg false
           [Fixtures.makeRepo "excluded"; Fixtures.makeRepo "included"]).
  vm_compute. reflexivity.
Defined.

End FailuresAndExclusions.

(** ** The rules for one image *)

Section ImageRules.
Import registry Rules.

Ltac metadata_lookup :=
  cbn [Metadata list_to_map foldr uncurry fst snd];
  repeat (rewrite lookup_insert_ne by discriminate);
  apply lookup_insert_eq.

Ltac image_facts :=
  cbn [app];
  repeat (apply List.Forall_cons;
          [ repeat (split; [reflexivity|]); metadata_lookup |]);
  apply List.Forall_nil.

Lemma ecr_image_facts s cfg repoName img :
  Forall
    (fun f =>
       ResourceType f = ResourceImage /\
       ResourceID f = repoName +:+ "@" +:+ ecr.deref (ecr.ImageDigest img) /\
       Region f = ecr.region s /\
       EstimatedMonthlyWaste f
         = pricing.MonthlyStorageCost "ecr" (ecr.region s)
             (ecr.derefInt64 (ecr.ImageSizeInBytes img)) /\
       Metadata f !! "size_bytes"
         = Some (MetaInt (ecr.derefInt64 (ecr.ImageSizeInBytes img))))
    (ecr.analyzeImage s cfg repoName img).
Proof.
  unfold ecr.analyzeImage. cbv zeta.
  destruct (len (ecr.ImageTags img) =? 0);
  destruct (0 <? StaleDays cfg);
  destruct (ecr.lastActivityTime img) as [lastActivity|];
  try destruct (time.Before lastActivity _);
  destruct ((0 <? MaxSizeBytes cfg) && _);
  destruct (ecr.ImageManifestMediaType img) as [mediaType|];
  try destruct (Contains mediaType "manifest.list");
  image_facts.
Qed.

Lemma ar_image_facts s cfg repo img :
  Forall
    (fun f =>
       ResourceType f = ResourceImage /\
       ResourceID f
         = (if String.eqb (artifactregistry.URI img) ""
            then artifactregistry.ImageName img else artifactregistry.URI img) /\
       Region f = artifactregistry.Location repo /\
       EstimatedMonthlyWaste f
         = pricing.MonthlyStorageCost "artifactregistry" (artifactregistry.Location repo)
             (artifactregistry.SizeBytes img) /\
       Metadata f !! "size_bytes" = Some (MetaInt (artifactregistry.SizeBytes img)))
    (artifactregistry.analyzeImage s cfg repo img).
Proof.
  unfold artifactregistry.analyzeImage. cbv zeta.
  destruct (len (artifactregistry.Tags img) =? 0);
  destruct ((0 <? StaleDays cfg) && _);
  try destruct (time.Before (artifactregistry.UploadTime img) _);
  destruct ((0 <? MaxSizeBytes cfg) && _);
  destruct (Contains (artifactregistry.MediaType img) "manifest.list" || _);
  try destruct (0 <? StaleDays cfg);
  try destruct (time.IsZero (artifactregistry.UploadTime img));
  image_facts.
Qed.

Lemma findByID_In (l : list Finding) id f : In f (findByID l id) -> In f l.
Proof. unfold findByID. intros H. apply List.filter_In in H. tauto. Qed.

Lemma rule_of_kinds (P : Finding -> Prop) (l : list Finding) id k (b : bool) :
  Forall P l ->
  map kind (findByID l id) = (if b then [k] else []) ->
  if b then exists f, findByID l id = [f] /\ kind f = k /\ P f
  else findByID l id = [].
Proof.
  intros HP Hk. destruct b.
  - apply kinds_singleton in Hk as (f & Hf & Hkf). exists f. repeat split; auto.
    rewrite List.Forall_forall in HP. apply HP, (findByID_In l id).
    rewrite Hf. left. reflexivity.
  - apply kinds_nil. assumption.
Qed.

Lemma ecr_untagged_kinds s cfg repoName img :
  map kind (findByID (ecr.analyzeImage s cfg repoName img) FindingUntaggedImage)
  = if ecrUntagged img
    then [(FindingUntaggedImage, SeverityHigh, ResourceImage)] else [].
Proof.
  rewrite findByID_kinds, ecr_analyzeImage_kinds. unfold ecrKinds.
  destruct (ecrUntagged img), (ecrStale s cfg img), (ecrLarge cfg img),
    (ecrManifestList img); reflexivity.
Qed.

Lemma ar_untagged_kinds s cfg repo img :
  map kind (findByID (artifactregistry.analyzeImage s cfg repo img) FindingUntaggedImage)
  = if arUntagged img
    then [(FindingUntaggedImage, SeverityHigh, ResourceImage)] else [].
Proof.
  rewrite findByID_kinds, ar_analyzeImage_kinds. unfold arKinds.
  destruct (arUntagged img), (arStale s cfg img), (arLarge cfg img),
    (arMultiPlatform img); reflexivity.
Qed.

Lemma ecr_large_kinds s cfg repoName img :
  map kind (findByID (ecr.analyzeImage s cfg repoName img) FindingLargeImage)
  = if ecrLarge cfg img
    then [(FindingLargeImage, SeverityMedium, ResourceImage)] else [].
Proof.
  rewrite findByID_kinds, ecr_analyzeImage_kinds. unfold ecrKinds.
  destruct (ecrUntagged img), (ecrStale s cfg img), (ecrLarge cfg img),
    (ecrManifestList img); reflexivity.
Qed.

Lemma ar_large_kinds s cfg repo img :
  map kind (findByID (artifactregistry.analyzeImage s cfg repo img) FindingLargeImage)
  = if arLarge cfg img
    then [(FindingLargeImage, SeverityMedium, ResourceImage)] else [].
Proof.
  rewrite findByID_kinds, ar_analyzeImage_kinds. unfold arKinds.
  destruct (arUntagged img), (arStale s cfg img), (arLarge cfg img),
    (arMultiPlatform img); reflexivity.
Qed.

Lemma kind_fields f id severity resourceType :
  kind f = (id, severity, resourceType) ->
  ID f = id /\ Severity f = severity /\ ResourceType f = resourceType.
Proof. unfold kind. intros H. injection H as -> -> ->. auto. Qed.

(** X1. An image without tags receives exactly one [UNTAGGED_IMAGE]
    finding, of severity high and carrying the image's monthly storage cost;
    an image with a tag receives none. Nothing else about the image or the
    configuration matters. This holds in both scanners. *)
Theorem untagged_image_rule :
  (forall s cfg repoName img,
     let untagged := findByID (ecr.analyzeImage s cfg repoName img) FindingUntaggedImage in
     (ecr.ImageTags img = [] ->
      exists f, untagged = [f] /\ Severity f = SeverityHigh /\
        ResourceType f = ResourceImage /\
        EstimatedMonthlyWaste f
          = pricing.MonthlyStorageCost "ecr" (ecr.region s)
              (ecr.derefInt64 (ecr.ImageSizeInBytes img))) /\
     (ecr.ImageTags img <> [] -> untagged = []))
  /\
  (forall s cfg repo img,
     let untagged :=
       findByID (artifactregistry.analyzeImage s cfg repo img) FindingUntaggedImage in
     (artifactregistry.Tags img = [] ->
      exists f, untagged = [f] /\ Severity f = SeverityHigh /\
        ResourceType f = ResourceImage /\
        EstimatedMonthlyWaste f
          = pricing.MonthlyStorageCost "artifactregistry" (artifactregistry.Location repo)
              (artifactregistry.SizeBytes img)) /\
     (artifactregistry.Tags img <> [] -> untagged = [])).
Proof.
  split.
  - intros s cfg repoName img untagged.
    pose proof (rule_of_kinds _ _ _ _ _ (ecr_image_facts s cfg repoName img)
                  (ecr_untagged_kinds s cfg repoName img)) as H.
    unfold ecrUntagged in H. split; intros Htags.
    + rewrite Htags in H. cbn in H. destruct H as (f & Hf & Hk & HP).
      apply kind_fields in Hk. exists f. tauto.
    + apply images_nonempty in Htags as [Htags _]. rewrite Htags in H. exact H.
  - intros s cfg repo img untagged.
    pose proof (rule_of_kinds _ _ _ _ _ (ar_image_facts s cfg repo img)
                  (ar_untagged_kinds s cfg repo img)) as H.
    unfold arUntagged in H. split; intros Htags.
    + rewrite Htags in H. cbn in H. destruct H as (f & Hf & Hk & HP).
      apply kind_fields in Hk. exists f. tauto.
    + apply images_nonempty in Htags as [Htags _]. rewrite Htags in H. exact H.
Qed.

Lemma untagged_image_rule_witness :
  exists f,
    findByID
      (ecr.analyzeImage (Fixtures.newTestScanner (Fixtures.mockECR Fixtures.newMockClient))
         Fixtures.defaultCfg "myapp"
         (Fixtures.makeImage "sha256:un" [] Fixtures.hundredMB Fixtures.recent
            (Some Fixtures.recent)))
      FindingUntaggedImage = [f] /\
    Severity f = SeverityHigh /\
    ResourceType f = ResourceImage /\
    EstimatedMonthlyWaste f
      = pricing.MonthlyStorageCost "ecr" "us-east-1" Fixtures.hundredMB.
Proof.
  apply (proj1 (proj1 untagged_image_rule
                  (Fixtures.newTestScanner (Fixtures.mockECR Fixtures.newMockClient))
                  Fixtures.defaultCfg "myapp"
                  (Fixtures.makeImage "sha256:un" [] Fixtures.hundredMB Fixtures.recent
                     (Some Fixtures.recent)))).
  reflexivity.
Defined.

(** X2. An image receives exactly one [LARGE_IMAGE] finding, of severity
    medium, when the size limit is above zero and the image is larger than
    it; an image of exactly the limit, or any image under a limit of zero
    or less, receives none. *)
Theorem large_image_rule :
  (forall s cfg repoName img,
     let size := ecr.derefInt64 (ecr.ImageSizeInBytes img) in
     let large := findByID (ecr.analyzeImage s cfg repoName img) FindingLargeImage in
     (0 < MaxSizeBytes cfg < size ->
      exists f, large = [f] /\ Severity f = SeverityMedium /\
        ResourceType f = ResourceImage /\
        EstimatedMonthlyWaste f = pricing.MonthlyStorageCost "ecr" (ecr.region s) size) /\
     (MaxSizeBytes cfg <= 0 \/ size <= MaxSizeBytes cfg -> large = []))
  /\
  (forall s cfg repo img,
     let size := artifactregistry.SizeBytes img in
     let large :=
       findByID (artifactregistry.analyzeImage s cfg repo img) FindingLargeImage in
     (0 < MaxSizeBytes cfg < size ->
      exists f, large = [f] /\ Severity f = SeverityMedium /\
        ResourceType f = ResourceImage /\
        EstimatedMonthlyWaste f
          = pricing.MonthlyStorageCost "artifactregistry"
              (artifactregistry.Location repo) size) /\
     (MaxSizeBytes cfg <= 0 \/ size <= MaxSizeBytes cfg -> large = [])).
Proof.
  split.
  - intros s cfg repoName img size large.
    pose proof (rule_of_kinds _ _ _ _ _ (ecr_image_facts s cfg repoName img)
                  (ecr_large_kinds s cfg repoName img)) as H.
    unfold ecrLarge in H. fold size in H. split; intros Hsize.
    + replace ((0 <? MaxSizeBytes cfg) && (MaxSizeBytes cfg <? size)) with true in H
        by (symmetry; apply andb_true_intro; split; apply Z.ltb_lt; lia).
      destruct H as (f & Hf & Hk & HP). apply kind_fields in Hk. exists f. tauto.
    + replace ((0 <? MaxSizeBytes cfg) && (MaxSizeBytes cfg <? size)) with false in H
        by (symmetry; apply andb_false_iff; rewrite !Z.ltb_ge; lia).
      exact H.
  - intros s cfg repo img size large.
    pose proof (rule_of_kinds _ _ _ _ _ (ar_image_facts s cfg repo img)
                  (ar_large_kinds s cfg repo img)) as H.
    unfold arLarge in H. fold size in H. split; intros Hsize.
    + replace ((0 <? MaxSizeBytes cfg) && (MaxSizeBytes cfg <? size)) with true in H
        by (symmetry; apply andb_true_intro; split; apply Z.ltb_lt; lia).
      destruct H as (f & Hf & Hk & HP). apply kind_fields in Hk. exists f. tauto.
    + replace ((0 <? MaxSizeBytes cfg) && (MaxSizeBytes cfg <? size)) with false in H
        by (symmetry; apply andb_false_iff; rewrite !Z.ltb_ge; lia).
      exact H.
Qed.

Lemma large_image_rule_witness :
  findByID
    (ecr.analyzeImage (Fixtures.newTestScanner (Fixtures.mockECR Fixtures.newMockClient))
       Fixtures.defaultCfg "myapp"
       (Fixtures.makeImage "sha256:edge" ["latest"] Fixtures.oneGB Fixtures.recent
          (Some Fixtures.recent)))
    FindingLargeImage = [].
Proof.
  apply (proj2 (proj1 large_image_rule
                  (Fixtures.newTestScanner (Fixtures.mockECR Fixtures.newMockClient))
                  Fixtures.defaultCfg "myapp"
                  (Fixtures.makeImage "sha256:edge" ["latest"] Fixtures.oneGB Fixtures.recent
                     (Some Fixtures.recent)))).
  right. simpl. unfold Fixtures.oneGB. lia.
Defined.

Lemma kinds_nonempty (l : list Finding) (b : bool) k :
  map kind l = (if b then [k] else []) -> (l <> [] <-> b = true).
Proof.
  destruct b, l; simpl; intros H; try discriminate; split; congruence.
Qed.

Lemma ecrManifestList_true img :
  ecrManifestList img = true <->
  exists mediaType,
    ecr.ImageManifestMediaType img = Some mediaType /\
    Contains mediaType "manifest.list" = true.
Proof.
  unfold ecrManifestList. destruct (ecr.ImageManifestMediaType img) as [mediaType|].
  - split; [intros H; exists mediaType; auto|intros (m & Hm & H); congruence].
  - split; [discriminate|intros (m & Hm & H); discriminate].
Qed.

(** X3. The [MULTI_ARCH_BLOAT] rule as each scanner applies it. In ECR an
    image is flagged exactly when it has a media type that contains
    [manifest.list] and it is also flagged stale; in Artifact Registry
    exactly when its media type contains [manifest.list] or [image.index]
    and it is also flagged stale. An image is flagged at most once, with
    severity low and its monthly storage cost. *)
Theorem multi_arch_rule :
  (forall s cfg repoName img,
     let findings := ecr.analyzeImage s cfg repoName img in
     let multi := findByID findings FindingMultiArchBloat in
     (multi <> [] <->
      (exists mediaType,
         ecr.ImageManifestMediaType img = Some mediaType /\
         Contains mediaType "manifest.list" = true) /\
      findByID findings FindingStaleImage <> []) /\
     (forall f, In f multi ->
        multi = [f] /\ Severity f = SeverityLow /\
        EstimatedMonthlyWaste f
          = pricing.MonthlyStorageCost "ecr" (ecr.region s)
              (ecr.derefInt64 (ecr.ImageSizeInBytes img))))
  /\
  (forall s cfg repo img,
     let findings := artifactregistry.analyzeImage s cfg repo img in
     let multi := findByID findings FindingMultiArchBloat in
     (multi <> [] <->
      (Contains (artifactregistry.MediaType img) "manifest.list" = true \/
       Contains (artifactregistry.MediaType img) "image.index" = true) /\
      findByID findings FindingStaleImage <> []) /\
     (forall f, In f multi ->
        multi = [f] /\ Severity f = SeverityLow /\
        EstimatedMonthlyWaste f
          = pricing.MonthlyStorageCost "artifactregistry" (artifactregistry.Location repo)
              (artifactregistry.SizeBytes img))).
Proof.
  split.
  - intros s cfg repoName img findings multi. split.
    + unfold multi, findings.
      rewrite (kinds_nonempty _ _ _ (ecr_multi_arch_kinds s cfg repoName img)).
      rewrite (kinds_nonempty _ _ _ (ecr_stale_kinds s cfg repoName img)).
      rewrite andb_true_iff, ecrManifestList_true. reflexivity.
    + intros f Hin.
      pose proof (rule_of_kinds _ _ _ _ _ (ecr_image_facts s cfg repoName img)
                    (ecr_multi_arch_kinds s cfg repoName img)) as H.
      fold findings in H. fold multi in H.
      destruct (ecrManifestList img && ecrStale s cfg img).
      * destruct H as (g & Hg & Hk & HP). rewrite Hg in Hin.
        destruct Hin as [<-|[]]. apply kind_fields in Hk. tauto.
      * rewrite H in Hin. destruct Hin.
  - intros s cfg repo img findings multi. split.
    + unfold multi, findings.
      rewrite (kinds_nonempty _ _ _ (ar_multi_arch_kinds s cfg repo img)).
      rewrite (kinds_nonempty _ _ _ (ar_stale_kinds s cfg repo img)).
      unfold arMultiPlatform. rewrite andb_true_iff, orb_true_iff. reflexivity.
    + intros f Hin.
      pose proof (rule_of_kinds _ _ _ _ _ (ar_image_facts s cfg repo img)
                    (ar_multi_arch_kinds s cfg repo img)) as H.
      fold findings in H. fold multi in H.
      destruct (arMultiPlatform img && arStale s cfg img).
      * destruct H as (g & Hg & Hk & HP). rewrite Hg in Hin.
        destruct Hin as [<-|[]]. apply kind_fields in Hk. tauto.
      * rewrite H in Hin. destruct Hin.
Qed.

Lemma multi_arch_rule_witness :
  (exists mediaType,
     ecr.ImageManifestMediaType
       (Fixtures.withMediaType Fixtures.dockerManifestList
          (Fixtures.makeImage "sha256:multi" ["latest"] Fixtures.twoGB Fixtures.stale200
             (Some Fixtures.stale120))) = Some mediaType /\
     Contains mediaType "manifest.list" = true) /\
  findByID
    (ecr.analyzeImage (Fixtures.newTestScanner (Fixtures.mockECR Fixtures.newMockClient))
       Fixtures.defaultCfg "multiarch"
       (Fixtures.withMediaType Fixtures.dockerManifestList
          (Fixtures.makeImage "sha256:multi" ["latest"] Fixtures.twoGB Fixtures.stale200
             (Some Fixtures.stale120))))
    FindingStaleImage <> [].
Proof.
  apply (proj1 (proj1 (proj1 multi_arch_rule
                         (Fixtures.newTestScanner (Fixtures.mockECR Fixtures.newMockClient))
                         Fixtures.defaultCfg "multiarch"
                         (Fixtures.withMediaType Fixtures.dockerManifestList
                            (Fixtures.makeImage "sha256:multi" ["latest"] Fixtures.twoGB
                               Fixtures.stale200 (Some Fixtures.stale120)))))).
  vm_compute. discriminate.
Defined.

(** X4. Every finding that an image receives is image-scoped, names the
    image as its resource ([repository@digest] in ECR; the URI, or the
    resource name when the URI is empty, in Artifact Registry), carries the
    repository's region, the image's monthly storage cost as its waste, and
    the image's size under [size_bytes]: findings on one image all carry the
    same, full cost. *)
Theorem image_findings_describe_the_image :
  (forall s cfg repoName img,
     Forall
       (fun f =>
          ResourceType f = ResourceImage /\
          ResourceID f = repoName +:+ "@" +:+ ecr.deref (ecr.ImageDigest img) /\
          Region f = ecr.region s /\
          EstimatedMonthlyWaste f
            = pricing.MonthlyStorageCost "ecr" (ecr.region s)
                (ecr.derefInt64 (ecr.ImageSizeInBytes img)) /\
          Metadata f !! "size_bytes"
            = Some (MetaInt (ecr.derefInt64 (ecr.ImageSizeInBytes img))))
       (ecr.analyzeImage s cfg repoName img))
  /\
  (forall s cfg repo img,
     Forall
       (fun f =>
          ResourceType f = ResourceImage /\
          ResourceID f
            = (if String.eqb (artifactregistry.URI img) ""
               then artifactregistry.ImageName img else artifactregistry.URI img) /\
          Region f = artifactregistry.Location repo /\
          EstimatedMonthlyWaste f
            = pricing.MonthlyStorageCost "artifactregistry" (artifactregistry.Location repo)
                (artifactregistry.SizeBytes img) /\
          Metadata f !! "size_bytes" = Some (MetaInt (artifactregistry.SizeBytes img)))
       (artifactregistry.analyzeImage s cfg repo img)).
Proof. split; [exact ecr_image_facts|exact ar_image_facts]. Qed.

Lemma map_ID_kinds (l : list Finding) :
  map ID l = map (fun k => fst (fst k)) (map kind l).
Proof. rewrite map_map. reflexivity. Qed.

(** X5. The findings of one image come in a fixed order (untagged, stale,
    large, multi-arch) and hold each kind at most once, so that an image
    receives at most four findings. *)
Theorem image_findings_order :
  (forall s cfg repoName img,
     sublist (map ID (ecr.analyzeImage s cfg repoName img))
       [FindingUntaggedImage; FindingStaleImage; FindingLargeImage; FindingMultiArchBloat])
  /\
  (forall s cfg repo img,
     sublist (map ID (artifactregistry.analyzeImage s cfg repo img))
       [FindingUntaggedImage; FindingStaleImage; FindingLargeImage; FindingMultiArchBloat]).
Proof.
  split.
  - intros s cfg repoName img. rewrite map_ID_kinds, ecr_analyzeImage_kinds.
    unfold ecrKinds.
    destruct (ecrUntagged img), (ecrStale s cfg img), (ecrLarge cfg img),
      (ecrManifestList img); cbn [andb app map fst];
      repeat first [apply sublist_nil | apply sublist_skip | apply sublist_cons].
  - intros s cfg repo img. rewrite map_ID_kinds, ar_analyzeImage_kinds.
    unfold arKinds.
    destruct (arUntagged img), (arStale s cfg img), (arLarge cfg img),
      (arMultiPlatform img); cbn [andb app map fst];
      repeat first [apply sublist_nil | apply sublist_skip | apply sublist_cons].
Qed.

End ImageRules.

(** ** The rules for one repository *)

Section RepositoryLevel.
Import registry Rules.

(** X6. A repository whose listing succeeds with no image adds exactly one
    [UNUSED_REPO] finding, repository-scoped, of severity low and with zero
    waste, and nothing else: no error, no counted resource and, in ECR, no
    lifecycle-policy lookup, whatever that lookup would answer. *)
Theorem empty_repository_rule :
  (forall s cfg repo progress run,
     ecr.ListImages (ecr.client s) (ecr.deref (ecr.RepositoryName repo)) = Ok [] ->
     exists f,
       result (ecr.scanRepository s cfg repo progress run)
         = appendFindings [f] (result run) /\
       ID f = FindingUnusedRepo /\ Severity f = SeverityLow /\
       ResourceType f = ResourceRepository /\
       ResourceID f = ecr.deref (ecr.RepositoryName repo) /\
       Region f = ecr.region s /\
       EstimatedMonthlyWaste f = zero /\ Metadata f = ∅)
  /\
  (forall s cfg repo progress run,
     artifactregistry.ListDockerImages (artifactregistry.client s)
       (artifactregistry.Name repo) = Ok [] ->
     exists f,
       result (artifactregistry.scanRepository s cfg repo progress run)
         = appendFindings [f] (result run) /\
       ID f = FindingUnusedRepo /\ Severity f = SeverityLow /\
       ResourceType f = ResourceRepository /\
       ResourceID f = artifactregistry.RepoID repo /\
       Region f = artifactregistry.Location repo /\
       EstimatedMonthlyWaste f = zero /\ Metadata f = ∅).
Proof.
  split.
  - intros s cfg repo progress run Hlist.
    exists (ecrEmptyRepo s (ecr.deref (ecr.RepositoryName repo))).
    split; [|repeat split].
    rewrite ecr_scanRepository_result, appendFindings_merge.
    unfold ecrRepoAdds. rewrite Hlist. reflexivity.
  - intros s cfg repo progress run Hlist.
    exists (arEmptyRepo repo).
    split; [|repeat split].
    rewrite ar_scanRepository_result, appendFindings_merge.
    unfold arRepoAdds. rewrite Hlist. reflexivity.
Qed.

Lemma empty_repository_rule_witness :
  exists f,
    result (ecr.scanRepository
              (Fixtures.newTestScanner (Fixtures.mockECR Fixtures.newMockClient))
              Fixtures.defaultCfg (Fixtures.makeRepo "empty-repo") false newRun)
      = appendFindings [f] (result newRun) /\
    ID f = FindingUnusedRepo /\ Severity f = SeverityLow /\
    ResourceType f = ResourceRepository /\
    ResourceID f = "empty-repo" /\
    Region f = "us-east-1" /\
    EstimatedMonthlyWaste f = zero /\ Metadata f = ∅.
Proof.
  apply (proj1 empty_repository_rule
           (Fixtures.newTestScanner (Fixtures.mockECR Fixtures.newMockClient))
           Fixtures.defaultCfg (Fixtures.makeRepo "empty-repo") false newRun).
  reflexivity.
Defined.

Lemma ecr_added_findings s cfg repoName images :
  images <> [] ->
  forall id,
    id <> FindingUnusedRepo -> ~ In id imageIDs ->
    findByID
      (Findings (merge (ecrImagesAdd s cfg repoName images)
                   (ecrUnusedAdds s cfg repoName images))) id = [].
Proof.
  intros _ id Hunused Himage. apply findByID_none. cbn [merge Findings].
  apply Forall_app. split.
  - unfold ecrImagesAdd. cbn [Findings]. apply Forall_flat_map. intros img.
    eapply List.Forall_impl; [|apply ecr_image_ids].
    cbv beta. intros f Hin Heq. apply Himage. rewrite <- Heq. exact Hin.
  - unfold ecrUnusedAdds. destruct (_ && _); cbn [findingsOnly emptyResult Findings].
    + apply List.Forall_cons; [|apply List.Forall_nil]. cbn [ecrAllStale ID]. congruence.
    + apply List.Forall_nil.
Qed.

(** X7. For an ECR repository with images, the reply of the lifecycle
    lookup decides the [NO_LIFECYCLE_POLICY] finding: "not found" gives
    exactly one, of severity medium, repository-scoped and with zero waste,
    and no error; a policy gives none and no error; any other failure gives
    none and one error string, which names the region, the repository and
    the failure. *)
Theorem no_lifecycle_policy_rule s cfg repo progress run images :
  let repoName := ecr.deref (ecr.RepositoryName repo) in
  let after := result (ecr.scanRepository s cfg repo progress run) in
  ecr.ListImages (ecr.client s) repoName = Ok images ->
  images <> [] ->
  exists added,
    Findings after = Findings (result run) ++ added /\
    match ecr.GetLifecyclePolicy (ecr.client s) repoName with
    | ecr.PolicyNotFound _ =>
        (exists f,
           findByID added FindingNoLifecyclePolicy = [f] /\
           Severity f = SeverityMedium /\
           ResourceType f = ResourceRepository /\
           ResourceID f = repoName /\
           Region f = ecr.region s /\
           EstimatedMonthlyWaste f = zero) /\
        Errors after = Errors (result run)
    | ecr.PolicyOutput =>
        findByID added FindingNoLifecyclePolicy = [] /\
        Errors after = Errors (result run)
    | ecr.PolicyFailure err =>
        findByID added FindingNoLifecyclePolicy = [] /\
        Errors after
          = Errors (result run) ++
            [ecr.region s +:+ "/" +:+ repoName +:+ " lifecycle: " +:+
             "get lifecycle policy for " +:+ repoName +:+ ": " +:+ err]
    end.
Proof.
  intros repoName after Hlist Hne. subst after.
  rewrite ecr_scanRepository_result. unfold ecrRepoAdds. fold repoName.
  rewrite Hlist. destruct (images_nonempty images Hne) as [-> _].
  pose proof (ecr_added_findings s cfg repoName images Hne FindingNoLifecyclePolicy
                ltac:(discriminate)
                ltac:(unfold imageIDs; simpl; intros [H|[H|[H|[H|[]]]]]; discriminate H))
    as Hrest.
  exists (Findings (ecrPolicyAdds s repoName)
          ++ Findings (merge (ecrImagesAdd s cfg repoName images)
                         (ecrUnusedAdds s cfg repoName images))).
  split; [reflexivity|].
  rewrite findByID_app, Hrest, app_nil_r. cbn [merge Findings Errors].
  assert (Herr : Errors (ecrImagesAdd s cfg repoName images)
                 ++ Errors (ecrUnusedAdds s cfg repoName images) = []).
  { unfold ecrUnusedAdds. destruct (_ && _); reflexivity. }
  rewrite Herr, app_nil_r.
  unfold ecrPolicyAdds, ecr.HasLifecyclePolicy.
  destruct (ecr.GetLifecyclePolicy (ecr.client s) repoName) as [|e|e].
  - split; [reflexivity|apply app_nil_r].
  - split; [|apply app_nil_r].
    exists (ecrNoPolicy s repoName). repeat split.
  - split; reflexivity.
Qed.

Lemma no_lifecycle_policy_rule_witness :
  exists added,
    Findings (result (ecr.scanRepository Fixtures.allStaleScanner Fixtures.defaultCfg
                        (Fixtures.makeRepo "old-repo") false newRun))
      = Findings (result newRun) ++ added /\
    (exists f,
       findByID added FindingNoLifecyclePolicy = [f] /\
       Severity f = SeverityMedium /\
       ResourceType f = ResourceRepository /\
       ResourceID f = "old-repo" /\
       Region f = "us-east-1" /\
       EstimatedMonthlyWaste f = zero) /\
    Errors (result (ecr.scanRepository Fixtures.allStaleScanner Fixtures.defaultCfg
                      (Fixtures.makeRepo "old-repo") false newRun))
      = Errors (result newRun).
Proof.
  apply (no_lifecycle_policy_rule Fixtures.allStaleScanner Fixtures.defaultCfg
           (Fixtures.makeRepo "old-repo") false newRun Fixtures.allStaleImages).
  - reflexivity.
  - discriminate.
Defined.

Lemma countSeverities_index (severities : list string) (k : string) :
  index (ecr.countSeverities severities) k
  = design.count (fun sev => String.eqb sev k) severities.
Proof.
  unfold ecr.countSeverities.
  change (fold_left _ severities ∅)
    with (fold_left (fun m x => analyzer.increment ((fun sev : string => sev) x) m)
            severities (∅ : gmap string Z)).
  rewrite (histogram_index (fun sev : string => sev)). reflexivity.
Qed.

Lemma count_nonneg {A} (test : A -> bool) (l : list A) : 0 <= design.count test l.
Proof. apply len_nonneg. Qed.

(** X8. [ScanVulnerabilities] never returns an error and returns at most
    one finding: one [VULNERABLE_IMAGE] finding, always of severity
    critical, exactly when the scan reports at least one finding of severity
    [CRITICAL] or [HIGH] (in these exact spellings); its metadata give the
    number of all scan findings and of those two severities. A missing scan,
    an empty one and a failed lookup give no finding. *)
Theorem scan_vulnerabilities_rule s repoName digest :
  let out := ecr.ScanVulnerabilities s repoName digest in
  snd out = None /\
  match ecr.DescribeImageScanFindings (ecr.client s) repoName digest with
  | Ok {| ecr.ImageScanFindings := Some severities |} =>
      let critical := design.count (fun sev => String.eqb sev "CRITICAL") severities in
      let high := design.count (fun sev => String.eqb sev "HIGH") severities in
      if 0 <? critical + high then
        exists f,
          fst out = [f] /\
          ID f = FindingVulnerableImage /\
          Severity f = SeverityCritical /\
          ResourceType f = ResourceImage /\
          ResourceID f = repoName +:+ "@" +:+ digest /\
          Region f = ecr.region s /\
          Metadata f !! "total_findings" = Some (MetaInt (len severities)) /\
          Metadata f !! "critical_count" = Some (MetaInt critical) /\
          Metadata f !! "high_count" = Some (MetaInt high)
      else fst out = []
  | _ => fst out = []
  end.
Proof.
  intros out. subst out. unfold ecr.ScanVulnerabilities.
  destruct (ecr.DescribeImageScanFindings (ecr.client s) repoName digest)
    as [[[severities|]]|err]; try (split; reflexivity).
  cbn [ecr.ImageScanFindings]. cbv beta iota zeta. rewrite !countSeverities_index.
  set (critical := design.count (fun sev => String.eqb sev "CRITICAL") severities).
  set (high := design.count (fun sev => String.eqb sev "HIGH") severities).
  pose proof (count_nonneg (fun sev => String.eqb sev "CRITICAL") severities) as Hc.
  pose proof (count_nonneg (fun sev => String.eqb sev "HIGH") severities) as Hh.
  fold critical in Hc. fold high in Hh.
  destruct (len severities =? 0) eqn:Hlen.
  - apply len_zero in Hlen. subst severities. split; reflexivity.
  - destruct (Z.ltb_spec 0 (critical + high)) as [Hpos|Hzero].
    + replace ((critical =? 0) && (high =? 0)) with false
        by (symmetry; apply andb_false_iff; rewrite !Z.eqb_neq; lia).
      split; [reflexivity|]. eexists. split; [reflexivity|].
      repeat (split; [reflexivity|]).
      reflexivity.
    + replace ((critical =? 0) && (high =? 0)) with true
        by (symmetry; apply andb_true_intro; rewrite !Z.eqb_eq; lia).
      split; reflexivity.
Qed.

End RepositoryLevel.

(** ** What holds of every finding of a scan *)

Section ScanInvariants.
Import registry Rules.

Lemma Forall_flat_map_In {A B} (P : B -> Prop) (f : A -> list B) (l : list A) :
  (forall x, In x l -> Forall P (f x)) -> Forall P (flat_map f l).
Proof.
  induction l as [|x l IH]; intros H; simpl; [apply List.Forall_nil|].
  apply Forall_app. split; [apply H; simpl; auto|apply IH; intros; apply H; simpl; auto].
Qed.

(** A property of findings holds for every finding of a scan when it holds
    for what each listed image and each listed repository receives. *)
Lemma ecr_Scan_Forall_listed (P : Finding -> Prop) s cfg progress :
  (forall repoName images img,
     ecr.ListImages (ecr.client s) repoName = Ok images -> In img images ->
     Forall P (ecr.analyzeImage s cfg repoName img)) ->
  (forall repoName, P (ecrEmptyRepo s repoName)) ->
  (forall repoName, P (ecrNoPolicy s repoName)) ->
  (forall repoName images,
     ecr.ListImages (ecr.client s) repoName = Ok images ->
     P (ecrAllStale s repoName images)) ->
  Forall P (Findings (result (ecr.Scan s cfg progress))).
Proof.
  intros Himage Hempty Hpolicy Hstale. rewrite ecr_Scan_result.
  destruct (ecr.ListRepositories (ecr.client s)) as [repos|err]; [|apply List.Forall_nil].
  cbn [merge Findings repositoriesOnly app].
  unfold ecrReposAdd. apply Forall_mergeAll. apply Forall_map.
  apply Forall_forall. intros repo _. cbv beta.
  destruct (ecrExcluded cfg repo); [apply List.Forall_nil|].
  unfold ecrRepoAdds. cbv zeta.
  destruct (ecr.ListImages _ _) as [images|err] eqn:Hlist; [|apply List.Forall_nil].
  destruct (len images =? 0).
  - apply List.Forall_cons; [apply Hempty|apply List.Forall_nil].
  - cbn [merge Findings]. repeat (apply Forall_app; split).
    + unfold ecrPolicyAdds. destruct (ecr.HasLifecyclePolicy _ _) as [[|]|err];
        cbn [negb findingsOnly emptyResult Findings]; try apply List.Forall_nil.
      apply List.Forall_cons; [apply Hpolicy|apply List.Forall_nil].
    + apply Forall_flat_map_In. intros img Hin. eapply Himage; eassumption.
    + unfold ecrUnusedAdds. destruct (_ && _); cbn [findingsOnly emptyResult Findings].
      * apply List.Forall_cons; [eapply Hstale; eassumption|apply List.Forall_nil].
      * apply List.Forall_nil.
Qed.

Lemma ar_Scan_Forall_listed (P : Finding -> Prop) s cfg progress :
  (forall repo images img,
     artifactregistry.ListDockerImages (artifactregistry.client s)
       (artifactregistry.Name repo) = Ok images ->
     In img images ->
     Forall P (artifactregistry.analyzeImage s cfg repo img)) ->
  (forall repo, P (arEmptyRepo repo)) ->
  (forall repo images,
     artifactregistry.ListDockerImages (artifactregistry.client s)
       (artifactregistry.Name repo) = Ok images ->
     P (arAllStale repo images)) ->
  Forall P (Findings (result (artifactregistry.Scan s cfg progress))).
Proof.
  intros Himage Hempty Hstale. rewrite ar_Scan_result.
  apply Forall_mergeAll. apply Forall_map.
  apply Forall_forall. intros location _. cbv beta.
  unfold arLocationAdds.
  destruct (artifactregistry.ListRepositories _ _ _) as [repos|err];
    [|apply List.Forall_nil].
  cbn [merge Findings repositoriesOnly app].
  unfold arReposAdd. apply Forall_mergeAll. apply Forall_map.
  apply Forall_forall. intros repo _. cbv beta.
  destruct (arExcluded cfg repo); [apply List.Forall_nil|].
  unfold arRepoAdds.
  destruct (artifactregistry.ListDockerImages _ _) as [images|err] eqn:Hlist;
    [|apply List.Forall_nil].
  destruct (len images =? 0).
  - apply List.Forall_cons; [apply Hempty|apply List.Forall_nil].
  - cbn [merge Findings]. apply Forall_app; split.
    + apply Forall_flat_map_In. intros img Hin. eapply Himage; eassumption.
    + unfold arUnusedAdds. destruct (_ && _); cbn [findingsOnly emptyResult Findings].
      * apply List.Forall_cons; [eapply Hstale; eassumption|apply List.Forall_nil].
      * apply List.Forall_nil.
Qed.

Lemma ecr_Scan_Forall (P : Finding -> Prop) s cfg progress :
  (forall repoName img, Forall P (ecr.analyzeImage s cfg repoName img)) ->
  (forall repoName, P (ecrEmptyRepo s repoName)) ->
  (forall repoName, P (ecrNoPolicy s repoName)) ->
  (forall repoName images, P (ecrAllStale s repoName images)) ->
  Forall P (Findings (result (ecr.Scan s cfg progress))).
Proof. intros. apply ecr_Scan_Forall_listed; auto. Qed.

Lemma ar_Scan_Forall (P : Finding -> Prop) s cfg progress :
  (forall repo img, Forall P (artifactregistry.analyzeImage s cfg repo img)) ->
  (forall repo, P (arEmptyRepo repo)) ->
  (forall repo images, P (arAllStale repo images)) ->
  Forall P (Findings (result (artifactregistry.Scan s cfg progress))).
Proof. intros. apply ar_Scan_Forall_listed; auto. Qed.

Lemma Forall_kinds (P : string * string * string -> Prop) (l : list Finding) :
  Forall P (map kind l) -> Forall (fun f => P (kind f)) l.
Proof.
  induction l as [|f l IH]; simpl; intros H; [apply List.Forall_nil|].
  inversion H; subst. apply List.Forall_cons; auto.
Qed.

Lemma ecr_image_kinds s cfg repoName img :
  Forall
    (fun f =>
       In (kind f)
         [ (FindingUntaggedImage, SeverityHigh, ResourceImage);
           (FindingStaleImage, SeverityHigh, ResourceImage);
           (FindingLargeImage, SeverityMedium, ResourceImage);
           (FindingMultiArchBloat, SeverityLow, ResourceImage) ])
    (ecr.analyzeImage s cfg repoName img).
Proof.
  apply (Forall_kinds (fun k => In k _)).
  rewrite ecr_analyzeImage_kinds. unfold ecrKinds.
  destruct (ecrUntagged img), (ecrStale s cfg img), (ecrLarge cfg img),
    (ecrManifestList img); cbn [andb app];
    repeat (apply List.Forall_cons; [cbn [In]; tauto|]); apply List.Forall_nil.
Qed.

Lemma ar_image_kinds s cfg repo img :
  Forall
    (fun f =>
       In (kind f)
         [ (FindingUntaggedImage, SeverityHigh, ResourceImage);
           (FindingStaleImage, SeverityHigh, ResourceImage);
           (FindingLargeImage, SeverityMedium, ResourceImage);
           (FindingMultiArchBloat, SeverityLow, ResourceImage) ])
    (artifactregistry.analyzeImage s cfg repo img).
Proof.
  apply (Forall_kinds (fun k => In k _)).
  rewrite ar_analyzeImage_kinds. unfold arKinds.
  destruct (arUntagged img), (arStale s cfg img), (arLarge cfg img),
    (arMultiPlatform img); cbn [andb app];
    repeat (apply List.Forall_cons; [cbn [In]; tauto|]); apply List.Forall_nil.
Qed.

(** The kinds of findings of each scan. *)
Lemma ecr_scan_kinds s cfg progress :
  Forall
    (fun f =>
       In (kind f)
         [ (FindingUntaggedImage, SeverityHigh, ResourceImage);
           (FindingStaleImage, SeverityHigh, ResourceImage);
           (FindingLargeImage, SeverityMedium, ResourceImage);
           (FindingMultiArchBloat, SeverityLow, ResourceImage);
           (FindingUnusedRepo, SeverityLow, ResourceRepository);
           (FindingNoLifecyclePolicy, SeverityMedium, ResourceRepository) ])
    (Findings (result (ecr.Scan s cfg progress))).
Proof.
  apply ecr_Scan_Forall.
  - intros repoName img. eapply List.Forall_impl; [|apply ecr_image_kinds].
    cbv beta. intros f H. cbn [In] in *. tauto.
  - intros repoName. cbn. tauto.
  - intros repoName. cbn. tauto.
  - intros repoName images. cbn. tauto.
Qed.

Lemma ar_scan_kinds s cfg progress :
  Forall
    (fun f =>
       In (kind f)
         [ (FindingUntaggedImage, SeverityHigh, ResourceImage);
           (FindingStaleImage, SeverityHigh, ResourceImage);
           (FindingLargeImage, SeverityMedium, ResourceImage);
           (FindingMultiArchBloat, SeverityLow, ResourceImage);
           (FindingUnusedRepo, SeverityLow, ResourceRepository) ])
    (Findings (result (artifactregistry.Scan s cfg progress))).
Proof.
  apply ar_Scan_Forall.
  - intros repo img. eapply List.Forall_impl; [|apply ar_image_kinds].
    cbv beta. intros f H. cbn [In] in *. tauto.
  - intros repo. cbn. tauto.
  - intros repo images. cbn. tauto.
Qed.

(** X9. [Scan] of the ECR scanner does the same whatever the scanner's
    [includeScan] flag and whatever the service would answer to a
    vulnerability lookup, and its result holds no [VULNERABLE_IMAGE]
    finding. *)
Theorem ecr_scan_never_looks_up_vulnerabilities s cfg progress includeScan scanFindings :
  ecr.Scan
    {| ecr.client :=
         {| ecr.DescribeRepositories := ecr.DescribeRepositories (ecr.client s);
            ecr.DescribeImages := ecr.DescribeImages (ecr.client s);
            ecr.GetLifecyclePolicy := ecr.GetLifecyclePolicy (ecr.client s);
            ecr.DescribeImageScanFindings := scanFindings |};
       ecr.region := ecr.region s;
       ecr.includeScan := includeScan;
       ecr.now := ecr.now s |}
    cfg progress
  = ecr.Scan s cfg progress
  /\ Forall (fun f => ID f <> FindingVulnerableImage)
       (Findings (result (ecr.Scan s cfg progress))).
Proof.
  split.
  - destruct s as [[repos images policy findings] region flag now]. reflexivity.
  - eapply List.Forall_impl; [|apply ecr_scan_kinds]. cbv beta.
    unfold kind. intros f H. cbn [In] in H.
    intros E. rewrite E in H.
    repeat (destruct H as [H|H]; [discriminate H|]). exact H.
Qed.

(** X10. Neither scanner reads the tag exclusions or the minimum monthly
    cost of its configuration: a scan with other values there does the
    same, progress events included. *)
Theorem scan_ignores_tags_and_cost_threshold :
  (forall s cfg progress tags minMonthlyCost,
     ecr.Scan s
       {| StaleDays := StaleDays cfg;
          MaxSizeBytes := MaxSizeBytes cfg;
          MinMonthlyCost := minMonthlyCost;
          Exclude := {| ResourceIDs := ResourceIDs (Exclude cfg); Tags := tags |} |}
       progress
     = ecr.Scan s cfg progress)
  /\
  (forall s cfg progress tags minMonthlyCost,
     artifactregistry.Scan s
       {| StaleDays := StaleDays cfg;
          MaxSizeBytes := MaxSizeBytes cfg;
          MinMonthlyCost := minMonthlyCost;
          Exclude := {| ResourceIDs := ResourceIDs (Exclude cfg); Tags := tags |} |}
       progress
     = artifactregistry.Scan s cfg progress).
Proof.
  split; intros s [staleDays maxSizeBytes cost [ids tags']] progress tags minMonthlyCost;
    reflexivity.
Qed.


(** X11. In the result of a scan the kind of a finding fixes its severity
    and its resource type: an ECR scan holds findings of six kinds, an
    Artifact Registry scan of five (all but [NO_LIFECYCLE_POLICY]), each
    with the one severity and the one scope listed here. *)
Theorem scan_finding_kinds :
  (forall s cfg progress,
     Forall
       (fun f =>
          In (ID f, Severity f, ResourceType f)
            [ (FindingUntaggedImage, SeverityHigh, ResourceImage);
              (FindingStaleImage, SeverityHigh, ResourceImage);
              (FindingLargeImage, SeverityMedium, ResourceImage);
              (FindingMultiArchBloat, SeverityLow, ResourceImage);
              (FindingUnusedRepo, SeverityLow, ResourceRepository);
              (FindingNoLifecyclePolicy, SeverityMedium, ResourceRepository) ])
       (Findings (result (ecr.Scan s cfg progress))))
  /\
  (forall s cfg progress,
     Forall
       (fun f =>
          In (ID f, Severity f, ResourceType f)
            [ (FindingUntaggedImage, SeverityHigh, ResourceImage);
              (FindingStaleImage, SeverityHigh, ResourceImage);
              (FindingLargeImage, SeverityMedium, ResourceImage);
              (FindingMultiArchBloat, SeverityLow, ResourceImage);
              (FindingUnusedRepo, SeverityLow, ResourceRepository) ])
       (Findings (result (artifactregistry.Scan s cfg progress)))).
Proof. split; [exact ecr_scan_kinds|exact ar_scan_kinds]. Qed.

End ScanInvariants.

(** ** Waste is never negative *)

Section NonNegative.
Import registry Rules.

Lemma round_nearest_even_nonneg m l : 0 <= m -> 0 <= round_nearest_even m l.
Proof.
  intros Hm. unfold round_nearest_even. destruct l as [|[| |]]; try lia.
  destruct (Z.even m); lia.
Qed.

Lemma shr_fexp_nonneg M E :
  0 <= M -> 0 <= shr_m (fst (shr_fexp prec emax M E loc_Exact)).
Proof.
  intros HM. unfold shr_fexp. cbn [shr_record_of_loc].
  pose proof (shr_spec M E (fexp prec emax (Zdigits2 M + E) - E) HM) as Hs.
  destruct (shr _ _ _) as [rec e']. cbv zeta in Hs. destruct Hs as (_ & Hm & _).
  cbn [fst]. rewrite Hm. apply Z.div_pos; [lia|]. apply Z.pow_pos_nonneg; lia.
Qed.

Lemma binary_round_aux_nonneg M E :
  0 <= M -> SFleb zero (binary_round_aux prec emax false M E loc_Exact) = true.
Proof.
  intros HM. unfold binary_round_aux.
  pose proof (shr_fexp_nonneg M E HM) as H1.
  destruct (shr_fexp prec emax M E loc_Exact) as [mrs' e']. cbn [fst] in H1.
  pose proof (round_nearest_even_nonneg (shr_m mrs') (loc_of_shr_record mrs') H1) as H2.
  pose proof (shr_fexp_nonneg _ e' H2) as H3.
  destruct (shr_fexp prec emax _ e' loc_Exact) as [mrs'' e'']. cbn [fst] in H3.
  destruct (shr_m mrs'') as [|p|p]; [reflexivity| |lia].
  destruct (e'' <=? emax - prec); reflexivity.
Qed.

Lemma binary_round_nonneg m e : SFleb zero (binary_round prec emax false m e) = true.
Proof.
  unfold binary_round. destruct (shl_align m e _) as [mz ez].
  apply binary_round_aux_nonneg. lia.
Qed.

Lemma add_nonneg (x y : float64) :
  le zero x = true -> le zero y = true -> le zero (add x y) = true.
Proof.
  unfold le, add, zero.
  destruct x as [sx|sx| |sx mx ex], y as [sy|sy| |sy my ey];
    try destruct sx; try destruct sy; try discriminate; try (intros; reflexivity).
  intros _ _. unfold SFadd. cbn [cond_Zopp].
  rewrite <- Pos2Z.inj_add. unfold binary_normalize. apply binary_round_nonneg.
Qed.

Lemma sum_nonneg (l : list float64) (acc : float64) :
  le zero acc = true -> Forall (fun x => le zero x = true) l ->
  le zero (fold_left add l acc) = true.
Proof.
  intros Hacc Hl. revert acc Hacc. induction Hl as [|x l Hx _ IH]; intros acc Hacc.
  - exact Hacc.
  - simpl. apply IH. apply add_nonneg; assumption.
Qed.




End NonNegative.

(** ** Counters, pages and locations *)

Section Accounting.
Import registry Rules.

Lemma ecrRepoAdds_resources s cfg repo :
  ResourcesScanned (ecrRepoAdds s cfg repo)
  = match ecr.ListImages (ecr.client s) (ecr.deref (ecr.RepositoryName repo)) with
    | Err _ => 0
    | Ok images => len images
    end.
Proof.
  unfold ecrRepoAdds. cbv zeta.
  destruct (ecr.ListImages _ _) as [images|err]; [|reflexivity].
  destruct (len images =? 0) eqn:E.
  - apply Z.eqb_eq in E. rewrite E. reflexivity.
  - unfold ecrPolicyAdds, ecrUnusedAdds.
    destruct (ecr.HasLifecyclePolicy _ _) as [[|]|err]; destruct (_ && _); simpl; lia.
Qed.

Lemma arRepoAdds_resources s cfg repo :
  ResourcesScanned (arRepoAdds s cfg repo)
  = match artifactregistry.ListDockerImages (artifactregistry.client s)
            (artifactregistry.Name repo) with
    | Err _ => 0
    | Ok images => len images
    end.
Proof.
  unfold arRepoAdds.
  destruct (artifactregistry.ListDockerImages _ _) as [images|err]; [|reflexivity].
  destruct (len images =? 0) eqn:E.
  - apply Z.eqb_eq in E. rewrite E. reflexivity.
  - unfold arUnusedAdds. destruct (_ && _); simpl; lia.
Qed.

Lemma mergeAll_resources (l : list ScanResult) :
  ResourcesScanned (mergeAll l) = total (map ResourcesScanned l).
Proof. induction l as [|r l IH]; simpl; [reflexivity|]. rewrite IH. reflexivity. Qed.

(** X13. [ResourcesScanned] is the number of images in the repositories
    that are not excluded and whose image listing succeeds, summed over the
    listed repositories (and, in Artifact Registry, over the locations
    whose repository listing succeeds); a failed repository listing counts
    nothing. *)
Theorem resources_scanned_counts_listed_images :
  (forall s cfg progress,
     ResourcesScanned (result (ecr.Scan s cfg progress))
     = match ecr.ListRepositories (ecr.client s) with
       | Err _ => 0
       | Ok repos =>
           total
             (map (fun repo =>
                     let repoName := ecr.deref (ecr.RepositoryName repo) in
                     if index (ResourceIDs (Exclude cfg)) repoName then 0
                     else match ecr.ListImages (ecr.client s) repoName with
                          | Err _ => 0
                          | Ok images => len images
                          end)
                repos)
       end)
  /\
  (forall s cfg progress,
     ResourcesScanned (result (artifactregistry.Scan s cfg progress))
     = total
         (map (fun location =>
                 match artifactregistry.ListRepositories (artifactregistry.client s)
                         (artifactregistry.project s) location with
                 | Err _ => 0
                 | Ok repos =>
                     total
                       (map (fun repo =>
                               if index (ResourceIDs (Exclude cfg))
                                    (artifactregistry.RepoID repo) then 0
                               else match artifactregistry.ListDockerImages
                                            (artifactregistry.client s)
                                            (artifactregistry.Name repo) with
                                    | Err _ => 0
                                    | Ok images => len images
                                    end)
                          repos)
                 end)
            (artifactregistry.locations s))).
Proof.
  split; intros s cfg progress.
  - rewrite ecr_Scan_result.
    destruct (ecr.ListRepositories (ecr.client s)) as [repos|err]; [|reflexivity].
    cbn [merge ResourcesScanned repositoriesOnly]. rewrite Z.add_0_l.
    unfold ecrReposAdd. rewrite mergeAll_resources, map_map. f_equal.
    apply map_ext. intros repo. cbv zeta. unfold ecrExcluded.
    destruct (index _ _); [reflexivity|apply ecrRepoAdds_resources].
  - rewrite ar_Scan_result, mergeAll_resources, map_map. f_equal.
    apply map_ext. intros location. unfold arLocationAdds.
    destruct (artifactregistry.ListRepositories _ _ _) as [repos|err]; [|reflexivity].
    cbn [merge ResourcesScanned repositoriesOnly]. rewrite Z.add_0_l.
    unfold arReposAdd. rewrite mergeAll_resources, map_map. f_equal.
    apply map_ext. intros repo. unfold arExcluded.
    destruct (index _ _); [reflexivity|apply arRepoAdds_resources].
Qed.

Lemma collectPages_pagesThen {A} (pages : list (list A)) (last : Paged A) (acc : list A) :
  ecr.collectPages acc (pagesThen pages last)
  = ecr.collectPages (acc ++ concat pages) last.
Proof.
  revert acc. induction pages as [|page pages IH]; intros acc; simpl.
  - rewrite app_nil_r. reflexivity.
  - rewrite IH, <- app_assoc. reflexivity.
Qed.

(** Every reply is such a chain of pages. *)
Lemma pagesThen_complete {A} (reply : Paged A) :
  exists pages,
    (exists items, reply = pagesThen pages (PageLast items)) \/
    (exists err, reply = pagesThen pages (PageFail err)).
Proof.
  induction reply as [err|items|items rest (pages & IH)].
  - exists []. right. exists err. reflexivity.
  - exists []. left. exists items. reflexivity.
  - exists (items :: pages). destruct IH as [(last & ->)|(err & ->)].
    + left. exists last. reflexivity.
    + right. exists err. reflexivity.
Qed.

(** X14. [ListRepositories] and [ListImages] follow the pages to the end:
    when no request fails they return the items of all pages in order, and
    when a request fails they return that error, wrapped, and none of the
    items of the pages before it. *)
Theorem paginated_listing :
  (forall client pages items,
     ecr.DescribeRepositories client = pagesThen pages (PageLast items) ->
     ecr.ListRepositories client = Ok (concat pages ++ items))
  /\
  (forall client pages err,
     ecr.DescribeRepositories client = pagesThen pages (PageFail err) ->
     ecr.ListRepositories client = Err ("describe repositories: " +:+ err))
  /\
  (forall client repoName pages items,
     ecr.DescribeImages client repoName = pagesThen pages (PageLast items) ->
     ecr.ListImages client repoName = Ok (concat pages ++ items))
  /\
  (forall client repoName pages err,
     ecr.DescribeImages client repoName = pagesThen pages (PageFail err) ->
     ecr.ListImages client repoName
     = Err ("describe images for " +:+ repoName +:+ ": " +:+ err)).
Proof.
  repeat split.
  - intros client pages items H. unfold ecr.ListRepositories.
    rewrite H, collectPages_pagesThen. reflexivity.
  - intros client pages err H. unfold ecr.ListRepositories.
    rewrite H, collectPages_pagesThen. reflexivity.
  - intros client repoName pages items H. unfold ecr.ListImages.
    rewrite H, collectPages_pagesThen. reflexivity.
  - intros client repoName pages err H. unfold ecr.ListImages.
    rewrite H, collectPages_pagesThen. reflexivity.
Qed.

Lemma paginated_listing_witness :
  ecr.ListImages
    {| ecr.DescribeRepositories := PageLast [];
       ecr.DescribeImages := fun _ =>
         PageNext [Fixtures.ecrOciIndexImage]
           (PageNext Fixtures.allStaleImages (PageFail "throttled"));
       ecr.GetLifecyclePolicy := fun _ => ecr.PolicyOutput;
       ecr.DescribeImageScanFindings := fun _ _ => Err "none" |}
    "myapp"
  = Err "describe images for myapp: throttled".
Proof.
  apply (proj2 (proj2 (proj2 paginated_listing)) _ "myapp"
           [[Fixtures.ecrOciIndexImage]; Fixtures.allStaleImages] "throttled").
  reflexivity.
Defined.

(** X15. The Artifact Registry scanner treats its locations one after the
    other and independently: the result for a list of locations followed by
    another is the results for the two lists merged, findings and errors in
    that order and counters added. *)
Theorem ar_locations_are_scanned_independently s cfg progress locations1 locations2 :
  let scan locations :=
    result
      (artifactregistry.Scan
         {| artifactregistry.client := artifactregistry.client s;
            artifactregistry.project := artifactregistry.project s;
            artifactregistry.locations := locations;
            artifactregistry.now := artifactregistry.now s |}
         cfg progress) in
  scan (locations1 ++ locations2) = merge (scan locations1) (scan locations2).
Proof.
  intros scan. unfold scan. rewrite !ar_Scan_result.
  cbn [artifactregistry.locations].
  assert (H : forall l1 l2 : list ScanResult,
            mergeAll (l1 ++ l2) = merge (mergeAll l1) (mergeAll l2)).
  { induction l1 as [|r l1 IH]; intros l2; simpl.
    - rewrite merge_empty_l. reflexivity.
    - rewrite IH, merge_assoc. reflexivity. }
  rewrite map_app, H. reflexivity.
Qed.

End Accounting.

(** ** Progress reporting *)

Section Progress.
Import registry Rules.

Lemma ecr_scanRepository_progressed s cfg repo progress run :
  progressed (ecr.scanRepository s cfg repo progress run)
  = progressed run ++
    (if progress
     then [ecrProgress s
             (Sprintf "Scanning %s" [ArgString (ecr.deref (ecr.RepositoryName repo))])]
     else []).
Proof.
  unfold ecr.scanRepository. cbv zeta.
  set (repoName := ecr.deref (ecr.RepositoryName repo)).
  set (run0 := ecr.reportProgress s progress _ run).
  assert (H0 : progressed run0
               = progressed run ++
                 (if progress
                  then [ecrProgress s (Sprintf "Scanning %s" [ArgString repoName])]
                  else [])).
  { unfold run0, ecr.reportProgress. destruct progress; [reflexivity|].
    rewrite app_nil_r. reflexivity. }
  destruct (ecr.ListImages (ecr.client s) repoName) as [images|err]; [|exact H0].
  destruct (len images =? 0); [exact H0|].
  set (run1 := match ecr.HasLifecyclePolicy (ecr.client s) repoName with
               | Ok hasPolicy => _ | Err err => _ end).
  assert (H1 : progressed run1 = progressed run0).
  { unfold run1. destruct (ecr.HasLifecyclePolicy (ecr.client s) repoName) as [[|]|err];
      reflexivity. }
  pose proof (ecr_scanImages_spec s cfg repoName images run1) as (_ & H2 & _).
  destruct (ecr.scanImages s cfg repoName images run1) as [run2 staleCount].
  cbn [fst] in H2.
  destruct ((staleCount =? len images) && (0 <? len images));
    cbn [onResult progressed]; rewrite H2, H1; exact H0.
Qed.

Lemma ecr_scanRepositories_progressed s cfg progress repos run :
  progressed (ecr.scanRepositories s cfg progress repos run)
  = progressed run ++
    (if progress
     then map (fun repo =>
                 ecrProgress s
                   (Sprintf "Scanning %s" [ArgString (ecr.deref (ecr.RepositoryName repo))]))
            (List.filter (fun repo => negb (ecrExcluded cfg repo)) repos)
     else []).
Proof.
  unfold ecr.scanRepositories. revert run.
  induction repos as [|repo repos IH]; intros run; simpl.
  - destruct progress; rewrite app_nil_r; reflexivity.
  - rewrite IH. fold (ecrExcluded cfg repo). destruct (ecrExcluded cfg repo); simpl.
    + reflexivity.
    + rewrite ecr_scanRepository_progressed. destruct progress.
      * rewrite <- app_assoc. reflexivity.
      * rewrite !app_nil_r. reflexivity.
Qed.

Lemma ecr_progress_events s cfg progress :
  progressed (ecr.Scan s cfg progress)
  = if progress then
      match ecr.ListRepositories (ecr.client s) with
      | Err _ => []
      | Ok repos =>
          ecrProgress s (Sprintf "Found %d repositories" [ArgInt (len repos)]) ::
          map (fun repo =>
                 ecrProgress s
                   (Sprintf "Scanning %s" [ArgString (ecr.deref (ecr.RepositoryName repo))]))
            (List.filter
               (fun repo =>
                  negb (index (ResourceIDs (Exclude cfg))
                          (ecr.deref (ecr.RepositoryName repo))))
               repos)
      end
    else [].
Proof.
  unfold ecr.Scan. cbv zeta.
  destruct (ecr.ListRepositories (ecr.client s)) as [repos|err].
  - rewrite ecr_scanRepositories_progressed. destruct progress; reflexivity.
  - destruct progress; reflexivity.
Qed.

Lemma ar_scanRepository_progressed s cfg repo progress run :
  progressed (artifactregistry.scanRepository s cfg repo progress run)
  = progressed run ++
    (if progress
     then [arProgress (artifactregistry.Location repo)
             (Sprintf "Scanning %s" [ArgString (artifactregistry.RepoID repo)])]
     else []).
Proof.
  unfold artifactregistry.scanRepository. cbv zeta.
  set (run0 := artifactregistry.reportProgress s progress _ _ run).
  assert (H0 : progressed run0
               = progressed run ++
                 (if progress
                  then [arProgress (artifactregistry.Location repo)
                          (Sprintf "Scanning %s" [ArgString (artifactregistry.RepoID repo)])]
                  else [])).
  { unfold run0, artifactregistry.reportProgress. destruct progress; [reflexivity|].
    rewrite app_nil_r. reflexivity. }
  destruct (artifactregistry.ListDockerImages _ _) as [images|err]; [|exact H0].
  destruct (len images =? 0); [exact H0|].
  pose proof (ar_scanImages_spec s cfg repo images run0) as (_ & H2 & _).
  destruct (artifactregistry.scanImages s cfg repo images run0) as [run2 staleCount].
  cbn [fst] in H2.
  destruct ((staleCount =? len images) && (0 <? len images));
    cbn [onResult progressed]; rewrite H2; exact H0.
Qed.

Lemma ar_scanRepositories_progressed s cfg progress repos run :
  progressed (artifactregistry.scanRepositories s cfg progress repos run)
  = progressed run ++
    (if progress
     then map (fun repo =>
                 arProgress (artifactregistry.Location repo)
                   (Sprintf "Scanning %s" [ArgString (artifactregistry.RepoID repo)]))
            (List.filter (fun repo => negb (arExcluded cfg repo)) repos)
     else []).
Proof.
  unfold artifactregistry.scanRepositories. revert run.
  induction repos as [|repo repos IH]; intros run; simpl.
  - destruct progress; rewrite app_nil_r; reflexivity.
  - rewrite IH. fold (arExcluded cfg repo). destruct (arExcluded cfg repo); simpl.
    + reflexivity.
    + rewrite ar_scanRepository_progressed. destruct progress.
      * rewrite <- app_assoc. reflexivity.
      * rewrite !app_nil_r. reflexivity.
Qed.

Lemma ar_scanLocation_progressed s cfg progress run location :
  progressed (artifactregistry.scanLocation s cfg progress run location)
  = progressed run ++
    (if progress then
       arProgress location (Sprintf "Scanning location %s" [ArgString location]) ::
       match artifactregistry.ListRepositories (artifactregistry.client s)
               (artifactregistry.project s) location with
       | Err _ => []
       | Ok repos =>
           arProgress location
             (Sprintf "Found %d Docker repositories" [ArgInt (len repos)]) ::
           map (fun repo =>
                  arProgress (artifactregistry.Location repo)
                    (Sprintf "Scanning %s" [ArgString (artifactregistry.RepoID repo)]))
             (List.filter
                (fun repo =>
                   negb (index (ResourceIDs (Exclude cfg)) (artifactregistry.RepoID repo)))
                repos)
       end
     else []).
Proof.
  unfold artifactregistry.scanLocation. cbv zeta.
  destruct (artifactregistry.ListRepositories _ _ _) as [repos|err].
  - rewrite ar_scanRepositories_progressed.
    destruct progress; cbn; rewrite <- ?app_assoc, ?app_nil_r; reflexivity.
  - destruct progress; cbn; rewrite ?app_nil_r; reflexivity.
Qed.

Lemma ar_progress_events s cfg progress :
  progressed (artifactregistry.Scan s cfg progress)
  = if progress then
      flat_map
        (fun location =>
           arProgress location (Sprintf "Scanning location %s" [ArgString location]) ::
           match artifactregistry.ListRepositories (artifactregistry.client s)
                   (artifactregistry.project s) location with
           | Err _ => []
           | Ok repos =>
               arProgress location
                 (Sprintf "Found %d Docker repositories" [ArgInt (len repos)]) ::
               map (fun repo =>
                      arProgress (artifactregistry.Location repo)
                        (Sprintf "Scanning %s" [ArgString (artifactregistry.RepoID repo)]))
                 (List.filter
                    (fun repo =>
                       negb (index (ResourceIDs (Exclude cfg))
                               (artifactregistry.RepoID repo)))
                    repos)
           end)
        (artifactregistry.locations s)
    else [].
Proof.
  unfold artifactregistry.Scan.
  assert (H : forall locations run,
            progressed (fold_left (artifactregistry.scanLocation s cfg progress)
                          locations run)
            = progressed run ++
              (if progress then
                 flat_map
                   (fun location =>
                      arProgress location
                        (Sprintf "Scanning location %s" [ArgString location]) ::
                      match artifactregistry.ListRepositories (artifactregistry.client s)
                              (artifactregistry.project s) location with
                      | Err _ => []
                      | Ok repos =>
                          arProgress location
                            (Sprintf "Found %d Docker repositories" [ArgInt (len repos)]) ::
                          map (fun repo =>
                                 arProgress (artifactregistry.Location repo)
                                   (Sprintf "Scanning %s"
                                      [ArgString (artifactregistry.RepoID repo)]))
                            (List.filter
                               (fun repo =>
                                  negb (index (ResourceIDs (Exclude cfg))
                                          (artifactregistry.RepoID repo)))
                               repos)
                      end)
                   locations
               else [])).
  { induction locations as [|location locations IH]; intros run.
    - destruct progress; simpl; rewrite app_nil_r; reflexivity.
    - cbn [fold_left]. rewrite IH, ar_scanLocation_progressed.
      destruct progress; [|rewrite !app_nil_r; reflexivity].
      cbn [flat_map]. rewrite <- !app_assoc. reflexivity. }
  rewrite H. destruct progress; reflexivity.
Qed.

(** X16. Passing no progress callback changes nothing but the reporting:
    the scan result is the same with and without one, and without one no
    progress event is produced. *)
Theorem progress_callback_is_optional :
  (forall s cfg,
     result (ecr.Scan s cfg true) = result (ecr.Scan s cfg false) /\
     progressed (ecr.Scan s cfg false) = [])
  /\
  (forall s cfg,
     result (artifactregistry.Scan s cfg true) = result (artifactregistry.Scan s cfg false) /\
     progressed (artifactregistry.Scan s cfg false) = []).
Proof.
  split; intros s cfg; split.
  - rewrite !ecr_Scan_result. reflexivity.
  - unfold ecr.Scan. cbv zeta.
    destruct (ecr.ListRepositories (ecr.client s)) as [repos|err]; [|reflexivity].
    rewrite ecr_scanRepositories_progressed. reflexivity.
  - rewrite !ar_Scan_result. reflexivity.
  - unfold artifactregistry.Scan.
    assert (H : forall locations run,
              progressed (fold_left (artifactregistry.scanLocation s cfg false)
                            locations run) = progressed run).
    { induction locations as [|location locations IH]; intros run; [reflexivity|].
      cbn [fold_left]. rewrite IH, ar_scanLocation_progressed. apply app_nil_r. }
    apply H.
Qed.

(** X17. The progress events of a scan that was given a callback. ECR:
    one event with the number of repositories, then one per repository that
    is not excluded, in listing order; none at all when the repository
    listing fails. Artifact Registry: for each location in order, one event
    for the location, then, if its listing succeeds, one with the number of
    repositories and one per repository that is not excluded. *)
Theorem scan_progress_events :
  (forall s cfg progress,
     progressed (ecr.Scan s cfg progress)
     = if progress then
         match ecr.ListRepositories (ecr.client s) with
         | Err _ => []
         | Ok repos =>
             ecrProgress s (Sprintf "Found %d repositories" [ArgInt (len repos)]) ::
             map (fun repo =>
                    ecrProgress s
                      (Sprintf "Scanning %s" [ArgString (ecr.deref (ecr.RepositoryName repo))]))
               (List.filter
                  (fun repo =>
                     negb (index (ResourceIDs (Exclude cfg))
                             (ecr.deref (ecr.RepositoryName repo))))
                  repos)
         end
       else [])
  /\
  (forall s cfg progress,
     progressed (artifactregistry.Scan s cfg progress)
     = if progress then
         flat_map
           (fun location =>
              arProgress location (Sprintf "Scanning location %s" [ArgString location]) ::
              match artifactregistry.ListRepositories (artifactregistry.client s)
                      (artifactregistry.project s) location with
              | Err _ => []
              | Ok repos =>
                  arProgress location
                    (Sprintf "Found %d Docker repositories" [ArgInt (len repos)]) ::
                  map (fun repo =>
                         arProgress (artifactregistry.Location repo)
                           (Sprintf "Scanning %s" [ArgString (artifactregistry.RepoID repo)]))
                    (List.filter
                       (fun repo =>
                          negb (index (ResourceIDs (Exclude cfg))
                                  (artifactregistry.RepoID repo)))
                       repos)
              end)
           (artifactregistry.locations s)
       else []).
Proof. split; [exact ecr_progress_events|exact ar_progress_events]. Qed.

End Progress.

(** ** Costs and thresholds *)

Section CostFacts.
Import pricing Rounding.

Lemma SFleb_trans (x y z : float64) :
  SFleb x y = true -> SFleb y z = true -> SFleb x z = true.
Proof.
  unfold SFleb.
  destruct x as [sx|sx| |sx mx ex], y as [sy|sy| |sy my ey], z as [sz|sz| |sz mz ez];
    try destruct sx; try destruct sy; try destruct sz; simpl; try congruence;
    change (Pos.compare_cont Eq mx my) with (Pos.compare mx my);
    change (Pos.compare_cont Eq my mz) with (Pos.compare my mz);
    change (Pos.compare_cont Eq mx mz) with (Pos.compare mx mz);
    destruct (Z.compare_spec ex ey), (Z.compare_spec ey ez), (Z.compare_spec ex ez);
    try congruence; try lia;
    destruct (Pos.compare_spec mx my), (Pos.compare_spec my mz), (Pos.compare_spec mx mz);
    simpl; try congruence; try lia.
Qed.


Lemma SFltb_not_leb (x y : float64) : SFltb x y = true -> SFleb y x = false.
Proof.
  unfold SFltb, SFleb.
  destruct x as [sx|sx| |sx mx ex], y as [sy|sy| |sy my ey];
    try destruct sx; try destruct sy; simpl; try congruence;
    change (Pos.compare_cont Eq mx my) with (Pos.compare mx my);
    change (Pos.compare_cont Eq my mx) with (Pos.compare my mx);
    destruct (Z.compare_spec ex ey), (Z.compare_spec ey ex); try congruence; try lia;
    destruct (Pos.compare_spec mx my), (Pos.compare_spec my mx);
    simpl; try congruence; try lia.
Qed.


(** X18. The monthly cost of a size between one byte and the largest
    [int64] is a positive, normal binary64 number: it is never zero,
    subnormal, infinite or a NaN. *)
Theorem monthly_cost_positive_finite (provider region : string) (sizeBytes : Z) :
  0 < sizeBytes <= design.maxInt64 ->
  exists m e,
    MonthlyStorageCost provider region sizeBytes = S754_finite false m e
    /\ 2 ^ 52 <= Z.pos m < 2 ^ 53 /\ -1074 <= e <= 971.
Proof.
  intros Hs. unfold design.maxInt64 in Hs.
  unfold MonthlyStorageCost. rewrite lookupCostPerGB_const.
  change lit_0_10 with (fin (7205759403792794, -56)).
  rewrite cost_pos by (simpl; lia).
  pose proof (round53_shape sizeBytes 0 ltac:(lia)) as (Hm & He). cbv zeta in Hm, He.
  pose proof (Zdigits2_pos sizeBytes ltac:(lia)) as HDp.
  assert (HD63 : Zdigits2 sizeBytes <= 63).
  { pose proof (Zdigits2_bounds sizeBytes ltac:(lia)) as [Blo _].
    destruct (Z.le_gt_cases (Zdigits2 sizeBytes) 63); auto.
    assert (2 ^ 63 <= 2 ^ (Zdigits2 sizeBytes - 1)) by (apply Z.pow_le_mono_r; lia). lia. }
  destruct (round53 sizeBytes 0) as [m1 e1]. cbn [fst snd] in *.
  set (M := m1 * 7205759403792794).
  assert (HM : 2 ^ 104 <= M < 2 ^ 106) by (unfold M; simpl in *; nia).
  pose proof (round53_shape M (e1 - 30 + -56) ltac:(simpl in *; lia)) as (Hm' & He').
  cbv zeta in Hm', He'.
  assert (HDlo : 105 <= Zdigits2 M).
  { change 105 with (Zdigits2 (2 ^ 104)). apply Zdigits2_mono. simpl in *. lia. }
  assert (HDhi : Zdigits2 M <= 106).
  { pose proof (Zdigits2_bounds M ltac:(simpl in *; lia)) as [Blo _].
    destruct (Z.le_gt_cases (Zdigits2 M) 106); auto.
    assert (2 ^ 106 <= 2 ^ (Zdigits2 M - 1)) by (apply Z.pow_le_mono_r; lia).
    simpl in *. lia. }
  destruct (round53 M (e1 - 30 + -56)) as [m2 e2]. cbn [fst snd] in *.
  exists (Z.to_pos m2), e2. unfold fin. cbn [fst snd].
  split; [reflexivity|]. rewrite Z2Pos.id by (simpl in *; lia).
  split; [exact Hm'|]. lia.
Qed.

Lemma monthly_cost_positive_finite_witness :
  exists m e,
    MonthlyStorageCost "ecr" "us-east-1" 1 = S754_finite false m e
    /\ 2 ^ 52 <= Z.pos m < 2 ^ 53 /\ -1074 <= e <= 971.
Proof.
  apply (monthly_cost_positive_finite "ecr" "us-east-1" 1).
  unfold design.maxInt64. lia.
Defined.

(** X19. Under the default [--min-monthly-cost] of both commands, which is
    0.10, the waste of an image meets the threshold exactly when the image
    is at least 2^30 bytes large: findings on smaller images are filtered
    out by [Analyze], whatever the provider and region. *)
Theorem default_threshold_is_one_gib (provider region : string) (sizeBytes : Z) :
  0 <= sizeBytes <= design.maxInt64 ->
  ge (pricing.MonthlyStorageCost provider region sizeBytes)
     (commands.awsFlags.minMonthlyCost commands.awsFlagDefaults)
  = (2 ^ 30 <=? sizeBytes)
  /\ commands.gcpFlags.minMonthlyCost commands.gcpFlagDefaults
     = commands.awsFlags.minMonthlyCost commands.awsFlagDefaults
  /\ (forall result f,
        In f (registry.Findings result) ->
        registry.EstimatedMonthlyWaste f
          = pricing.MonthlyStorageCost provider region sizeBytes ->
        (In f (analyzer.Findings
                 (analyzer.Analyze result
                    {| analyzer.MinMonthlyCost :=
                         commands.awsFlags.minMonthlyCost commands.awsFlagDefaults |}))
         <-> 2 ^ 30 <= sizeBytes)).
Proof.
  intros Hs.
  assert (Hge : ge (pricing.MonthlyStorageCost provider region sizeBytes)
                  (commands.awsFlags.minMonthlyCost commands.awsFlagDefaults)
                = (2 ^ 30 <=? sizeBytes));
    [|split; [exact Hge|split; [reflexivity|]];
      intros result f Hin Hwaste; unfold analyzer.Analyze; cbn [analyzer.Findings];
      rewrite filter_loop; cbn [app]; rewrite List.filter_In;
      cbn [analyzer.MinMonthlyCost]; rewrite Hwaste, Hge, Z.leb_le; tauto].
  unfold design.maxInt64 in Hs.
  cbn [commands.awsFlags.minMonthlyCost commands.awsFlagDefaults].
  unfold pricing.MonthlyStorageCost. rewrite lookupCostPerGB_const.
  change lit_0_10 with (Rounding.fin (7205759403792794, -56)) at 1.
  assert (Hc : 2 ^ 52 <= 7205759403792794 < 2 ^ 53) by (simpl; lia).
  assert (Hec : -900 <= -56 <= 900) by lia.
  destruct (Z.leb_spec (2 ^ 30) sizeBytes) as [Hbig|Hsmall].
  - pose proof (cost_mono _ _ Hc Hec (2 ^ 30) sizeBytes ltac:(lia) ltac:(lia)) as Hmono.
    unfold ge. unfold le in Hmono.
    refine (SFleb_trans _ _ _ _ Hmono). vm_compute. reflexivity.
  - pose proof (cost_mono _ _ Hc Hec sizeBytes (2 ^ 30 - 1) ltac:(lia) ltac:(lia)) as Hmono.
    unfold ge. unfold le in Hmono.
    destruct (SFleb lit_0_10 _) eqn:E; [|reflexivity].
    pose proof (SFleb_trans _ _ _ E Hmono) as Hbad.
    rewrite SFltb_not_leb in Hbad; [discriminate|].
    vm_compute. reflexivity.
Qed.

Lemma default_threshold_is_one_gib_witness :
  ge (pricing.MonthlyStorageCost "ecr" "us-east-1" Fixtures.halfGB)
     (commands.awsFlags.minMonthlyCost commands.awsFlagDefaults)
  = (2 ^ 30 <=? Fixtures.halfGB).
Proof.
  apply (proj1 (default_threshold_is_one_gib "ecr" "us-east-1" Fixtures.halfGB
                  ltac:(unfold Fixtures.halfGB, design.maxInt64; lia))).
Defined.

End CostFacts.

(** ** More on the analyzer *)

Section AnalyzerMore.
Import analyzer Rules.

Lemma Analyze_filter (result : registry.ScanResult) (cfg : AnalyzerConfig) :
  let kept :=
    List.filter
      (fun f => ge (registry.EstimatedMonthlyWaste f) (MinMonthlyCost cfg))
      (registry.Findings result) in
  Analyze result cfg
  = {| Findings := kept;
       Summary_ :=
         fold_left summaryStep kept
           {| TotalResourcesScanned := registry.ResourcesScanned result;
              TotalFindings := len kept;
              TotalMonthlyWaste := zero;
              BySeverity := ∅;
              ByResourceType := ∅;
              RepositoriesScanned := registry.RepositoriesScanned result |};
       Errors := registry.Errors result |}.
Proof. intros kept. unfold Analyze. rewrite !filter_loop. reflexivity. Qed.

Lemma analysed_Analyze result cfg :
  analysed (Analyze result cfg)
  = {| registry.Findings :=
         List.filter
           (fun f => ge (registry.EstimatedMonthlyWaste f) (MinMonthlyCost cfg))
           (registry.Findings result);
       registry.Errors := registry.Errors result;
       registry.ResourcesScanned := registry.ResourcesScanned result;
       registry.RepositoriesScanned := registry.RepositoriesScanned result |}.
Proof.
  rewrite Analyze_filter. cbv zeta. unfold analysed. cbn [Findings Errors Summary_].
  match goal with
  | |- context [fold_left summaryStep ?l ?s] =>
      pose proof (summary_loop l s) as (H1 & _ & H3 & _)
  end.
  cbv zeta in H1, H3. rewrite H1, H3. reflexivity.
Qed.

Lemma filter_filter_implied {A} (p q : A -> bool) (l : list A) :
  (forall x, In x l -> q x = true -> p x = true) ->
  List.filter q (List.filter p l) = List.filter q l.
Proof.
  induction l as [|x l IH]; intros H; simpl; [reflexivity|].
  destruct (p x) eqn:Hp; simpl.
  - destruct (q x); rewrite IH; auto; intros; apply H; simpl; auto.
  - destruct (q x) eqn:Hq.
    + rewrite (H x) in Hp; simpl; auto. discriminate.
    + apply IH. intros; apply H; simpl; auto.
Qed.

Lemma Forall_List_filter {A} (P : A -> Prop) (keep : A -> bool) (l : list A) :
  Forall P l -> Forall P (List.filter keep l).
Proof.
  induction 1 as [|x l Hx _ IH]; simpl; [apply List.Forall_nil|].
  destruct (keep x); [apply List.Forall_cons|]; assumption.
Qed.

(** X21. Analysing the outcome of an analysis again with the same
    threshold changes nothing. *)
Theorem analyze_is_idempotent result cfg :
  Analyze (analysed (Analyze result cfg)) cfg = Analyze result cfg.
Proof.
  rewrite analysed_Analyze, !Analyze_filter. cbv zeta. cbn [registry.Findings
    registry.Errors registry.ResourcesScanned registry.RepositoriesScanned].
  rewrite filter_filter_implied by auto. reflexivity.
Qed.


(** X22. Analysing with a threshold and then again with a higher one
    gives what analysing with the higher one gives at once, findings and
    summary alike. *)
Theorem analyze_thresholds_compose result low high :
  le low high = true ->
  Analyze (analysed (Analyze result {| MinMonthlyCost := low |}))
    {| MinMonthlyCost := high |}
  = Analyze result {| MinMonthlyCost := high |}.
Proof.
  intros Hle.
  rewrite analysed_Analyze, !Analyze_filter. cbv zeta. cbn [registry.Findings
    registry.Errors registry.ResourcesScanned registry.RepositoriesScanned MinMonthlyCost].
  rewrite filter_filter_implied; [reflexivity|].
  intros f _ Hhigh. unfold ge, le in *. exact (SFleb_trans _ _ _ Hle Hhigh).
Qed.

Lemma analyze_thresholds_compose_witness :
  Analyze
    (analysed
       (Analyze (result (ecr.Scan Fixtures.allStaleScanner Fixtures.defaultCfg false))
          {| MinMonthlyCost := zero |}))
    {| MinMonthlyCost := lit_0_10 |}
  = Analyze (result (ecr.Scan Fixtures.allStaleScanner Fixtures.defaultCfg false))
      {| MinMonthlyCost := lit_0_10 |}.
Proof.
  apply (analyze_thresholds_compose
           (result (ecr.Scan Fixtures.allStaleScanner Fixtures.defaultCfg false))
           zero lit_0_10).
  reflexivity.
Defined.

(** X23. [Analyze] never keeps a finding whose waste is a NaN, and with a
    NaN threshold it keeps no finding at all. *)
Theorem analyze_never_keeps_nan result cfg :
  Forall (fun f => registry.EstimatedMonthlyWaste f <> S754_nan)
    (Findings (Analyze result cfg))
  /\ (MinMonthlyCost cfg = S754_nan ->
      Findings (Analyze result cfg) = [] /\
      TotalFindings (Summary_ (Analyze result cfg)) = 0 /\
      TotalMonthlyWaste (Summary_ (Analyze result cfg)) = zero).
Proof.
  rewrite Analyze_filter. cbv zeta. cbn [Findings Summary_]. split.
  - apply List.Forall_forall. intros f Hin. apply List.filter_In in Hin as [_ Hge].
    intros E. rewrite E in Hge. unfold ge, SFleb in Hge.
    destruct (MinMonthlyCost cfg); discriminate.
  - intros E. rewrite E.
    assert (H : List.filter
                  (fun f => ge (registry.EstimatedMonthlyWaste f) S754_nan)
                  (registry.Findings result) = []).
    { induction (registry.Findings result) as [|f l IH]; simpl; [reflexivity|].
      exact IH. }
    rewrite H. repeat split.
Qed.

Lemma analyze_never_keeps_nan_witness :
  Findings
    (Analyze (result (ecr.Scan Fixtures.allStaleScanner Fixtures.defaultCfg false))
       {| MinMonthlyCost := S754_nan |}) = []
  /\ TotalFindings
       (Summary_
          (Analyze (result (ecr.Scan Fixtures.allStaleScanner Fixtures.defaultCfg false))
             {| MinMonthlyCost := S754_nan |})) = 0
  /\ TotalMonthlyWaste
       (Summary_
          (Analyze (result (ecr.Scan Fixtures.allStaleScanner Fixtures.defaultCfg false))
             {| MinMonthlyCost := S754_nan |})) = zero.
Proof.
  apply (proj2 (analyze_never_keeps_nan
                  (result (ecr.Scan Fixtures.allStaleScanner Fixtures.defaultCfg false))
                  {| MinMonthlyCost := S754_nan |})).
  reflexivity.
Defined.

Lemma countsTotal_insert k v (m : gmap string Z) :
  m !! k = None -> countsTotal (<[ k := v ]> m) = countsTotal m + v.
Proof.
  intros H. unfold countsTotal.
  rewrite (map_fold_insert_L (fun _ count sum => sum + count)); [reflexivity| |exact H].
  intros. lia.
Qed.

Lemma countsTotal_increment k (m : gmap string Z) :
  countsTotal (increment k m) = countsTotal m + 1.
Proof.
  unfold increment, index. destruct (m !! k) as [v|] eqn:E; cbn [default].
  - rewrite <- (insert_delete_eq m k (v + 1)).
    rewrite countsTotal_insert by apply lookup_delete_eq.
    rewrite <- (insert_delete_id m k v E) at 2.
    rewrite countsTotal_insert by apply lookup_delete_eq. lia.
  - rewrite countsTotal_insert by exact E. reflexivity.
Qed.

Lemma countsTotal_histogram {A} (key : A -> string) (l : list A) (m : gmap string Z) :
  countsTotal (fold_left (fun m x => increment (key x) m) l m) = countsTotal m + len l.
Proof.
  revert m. induction l as [|x l IH]; intros m; simpl.
  - unfold len. simpl. lia.
  - rewrite IH, countsTotal_increment. unfold len. simpl length. lia.
Qed.

(** X24. In the summary of an analysis, [TotalFindings] is the number of
    findings kept, the counts by severity add up to it, and so do the counts
    by resource type; when no finding of the scan has a negative or NaN
    waste, the total monthly waste is not negative and not a NaN either. *)
Theorem summary_totals_are_consistent result cfg :
  let summary := Summary_ (Analyze result cfg) in
  TotalFindings summary = len (Findings (Analyze result cfg))
  /\ countsTotal (BySeverity summary) = TotalFindings summary
  /\ countsTotal (ByResourceType summary) = TotalFindings summary
  /\ (Forall (fun f => le zero (registry.EstimatedMonthlyWaste f) = true)
        (registry.Findings result) ->
      le zero (TotalMonthlyWaste summary) = true).
Proof.
  intros summary. subst summary. rewrite Analyze_filter. cbv zeta.
  cbn [Summary_ Findings].
  match goal with
  | |- context [fold_left summaryStep ?l ?s] =>
      pose proof (summary_loop l s) as (_ & H2 & _ & H4 & H5 & H6)
  end.
  cbv zeta in H2, H4, H5, H6. rewrite H2, H4, H5, H6.
  cbn [TotalFindings TotalMonthlyWaste BySeverity ByResourceType].
  rewrite !countsTotal_histogram.
  repeat split; try reflexivity.
  intros Hwaste. apply sum_nonneg; [reflexivity|].
  apply Forall_map. apply Forall_List_filter. exact Hwaste.
Qed.

Lemma summary_totals_are_consistent_witness :
  le zero
    (TotalMonthlyWaste
       (Summary_
          (Analyze
             (Rules.findingsOnly
                [Rules.ecrEmptyRepo Fixtures.allStaleScanner "empty-repo";
                 Rules.ecrAllStale Fixtures.allStaleScanner "old-repo"
                   Fixtures.allStaleImages])
             {| MinMonthlyCost := zero |}))) = true.
Proof.
  apply (proj2 (proj2 (proj2 (summary_totals_are_consistent
                                (Rules.findingsOnly
                                   [Rules.ecrEmptyRepo Fixtures.allStaleScanner "empty-repo";
                                    Rules.ecrAllStale Fixtures.allStaleScanner "old-repo"
                                      Fixtures.allStaleImages])
                                {| MinMonthlyCost := zero |})))).
  apply List.Forall_cons; [reflexivity|].
  apply List.Forall_cons; [vm_compute; reflexivity|].
  apply List.Forall_nil.
Defined.

End AnalyzerMore.

(** ** From the scan to the analysis *)

Section Pipeline.
Import registry Rules.

Lemma ecr_zero_waste_policy s cfg progress :
  Forall (fun f => ID f = FindingNoLifecyclePolicy -> EstimatedMonthlyWaste f = zero)
    (Findings (result (ecr.Scan s cfg progress))).
Proof.
  apply ecr_Scan_Forall.
  - intros repoName img. eapply List.Forall_impl; [|apply ecr_image_ids].
    cbv beta. intros f Hin E. rewrite E in Hin. unfold imageIDs in Hin. cbn [In] in Hin.
    repeat (destruct Hin as [Hin|Hin]; [discriminate Hin|]). destruct Hin.
  - intros repoName. discriminate.
  - intros repoName _. reflexivity.
  - intros repoName images. discriminate.
Qed.

(** X20. With any minimum monthly cost above zero, [Analyze] keeps no
    finding of zero waste: in particular no [NO_LIFECYCLE_POLICY] finding
    of an ECR scan reaches a report. *)
Theorem positive_threshold_hides_policy_findings s cfg progress threshold :
  SFltb zero (analyzer.MinMonthlyCost threshold) = true ->
  Forall
    (fun f => ID f <> FindingNoLifecyclePolicy /\ EstimatedMonthlyWaste f <> zero)
    (analyzer.Findings (analyzer.Analyze (result (ecr.Scan s cfg progress)) threshold)).
Proof.
  intros Hpos. apply SFltb_not_leb in Hpos.
  unfold analyzer.Analyze. cbn [analyzer.Findings]. rewrite filter_loop. cbn [app].
  pose proof (ecr_zero_waste_policy s cfg progress) as Hzero.
  induction Hzero as [|f l Hf _ IH]; simpl; [apply List.Forall_nil|].
  destruct (ge (EstimatedMonthlyWaste f) (analyzer.MinMonthlyCost threshold)) eqn:Hge;
    [|exact IH].
  apply List.Forall_cons; [|exact IH].
  assert (Hne : EstimatedMonthlyWaste f <> zero).
  { intros E. rewrite E in Hge. unfold ge in Hge. congruence. }
  split; [|exact Hne]. intros E. auto.
Qed.

Lemma positive_threshold_hides_policy_findings_witness :
  Forall
    (fun f => ID f <> FindingNoLifecyclePolicy /\ EstimatedMonthlyWaste f <> zero)
    (analyzer.Findings
       (analyzer.Analyze (result (ecr.Scan Fixtures.allStaleScanner Fixtures.defaultCfg false))
          {| analyzer.MinMonthlyCost :=
               commands.awsFlags.minMonthlyCost commands.awsFlagDefaults |})).
Proof.
  apply (positive_threshold_hides_policy_findings Fixtures.allStaleScanner
           Fixtures.defaultCfg false
           {| analyzer.MinMonthlyCost :=
                commands.awsFlags.minMonthlyCost commands.awsFlagDefaults |}).
  reflexivity.
Defined.

End Pipeline.

(** ** The SARIF report *)

Section SarifFacts.
Import registry Rules.

Lemma append_loop {A B} (g : A -> B) (l : list A) (acc : list B) :
  fold_left (fun acc x => acc ++ [g x]) l acc = acc ++ map g l.
Proof.
  revert acc. induction l as [|x l IH]; intros acc; simpl.
  - rewrite app_nil_r. reflexivity.
  - rewrite IH, <- app_assoc. reflexivity.
Qed.

Lemma declared_rule (id severity : string) :
  existsb
    (fun rule =>
       String.eqb (report.ID rule) id &&
       String.eqb (report.Level (report.DefaultConfig rule)) (report.sarifLevel severity))
    report.buildSARIFRules = true ->
  exists rule,
    In rule report.buildSARIFRules /\
    report.ID rule = id /\
    report.Level (report.DefaultConfig rule) = report.sarifLevel severity.
Proof.
  intros H. apply existsb_exists in H as (rule & Hin & H).
  apply andb_true_iff in H as [H1 H2].
  apply String.eqb_eq in H1, H2. exists rule. auto.
Qed.

Lemma scan_kind_declared f :
  In (kind f)
    [ (FindingUntaggedImage, SeverityHigh, ResourceImage);
      (FindingStaleImage, SeverityHigh, ResourceImage);
      (FindingLargeImage, SeverityMedium, ResourceImage);
      (FindingMultiArchBloat, SeverityLow, ResourceImage);
      (FindingUnusedRepo, SeverityLow, ResourceRepository);
      (FindingNoLifecyclePolicy, SeverityMedium, ResourceRepository);
      (FindingVulnerableImage, SeverityCritical, ResourceImage) ] ->
  exists rule,
    In rule report.buildSARIFRules /\
    report.ID rule = ID f /\
    report.Level (report.DefaultConfig rule) = report.sarifLevel (Severity f).
Proof.
  unfold kind. cbn [In].
  intros [H|[H|[H|[H|[H|[H|[H|[]]]]]]]]; injection H as <- <- _;
    apply declared_rule; reflexivity.
Qed.

Lemma sarif_results data :
  report.Runs (report.Generate data)
  = [ {| report.RunTool :=
           {| report.Driver :=
                {| report.Name := report.Tool data;
                   report.DriverVersion := report.Version data;
                   report.Rules := report.buildSARIFRules |} |};
         report.Results :=
           map (fun f =>
                  {| report.RuleID := ID f;
                     report.ResultLevel := report.sarifLevel (Severity f);
                     report.Message := {| report.MessageText := Message f |};
                     report.Locations :=
                       [ {| report.PhysicalLocation :=
                              {| report.ArtifactLocation :=
                                   {| report.URI :=
                                        "registry://" +:+ Region f +:+ "/" +:+
                                        ResourceType f +:+ "/" +:+ ResourceID f |} |} |} ];
                     report.Props := list_to_map
                       [ ("resourceName", report.PropString (ResourceName f));
                         ("estimatedMonthlyWaste",
                          report.PropFloat (EstimatedMonthlyWaste f));
                         ("metadata", report.PropMetadata (Metadata f)) ] |})
             (report.Findings data) |} ].
Proof.
  unfold report.Generate. cbv zeta. cbn [report.Runs].
  rewrite append_loop. reflexivity.
Qed.

Lemma sarif_covers (findings : list Finding) tool version :
  Forall
    (fun f =>
       In (kind f)
         [ (FindingUntaggedImage, SeverityHigh, ResourceImage);
           (FindingStaleImage, SeverityHigh, ResourceImage);
           (FindingLargeImage, SeverityMedium, ResourceImage);
           (FindingMultiArchBloat, SeverityLow, ResourceImage);
           (FindingUnusedRepo, SeverityLow, ResourceRepository);
           (FindingNoLifecyclePolicy, SeverityMedium, ResourceRepository);
           (FindingVulnerableImage, SeverityCritical, ResourceImage) ])
    findings ->
  exists run,
    report.Runs
      (report.Generate
         {| report.Tool := tool; report.Version := version;
            report.Findings := findings |}) = [run] /\
    map report.RuleID (report.Results run) = map ID findings /\
    Forall
      (fun r =>
         exists rule,
           In rule (report.Rules (report.Driver (report.RunTool run))) /\
           report.ID rule = report.RuleID r /\
           report.Level (report.DefaultConfig rule) = report.ResultLevel r)
      (report.Results run).
Proof.
  intros Hkinds. rewrite sarif_results. cbn [report.Findings report.Tool report.Version].
  eexists. split; [reflexivity|].
  cbn [report.Results report.RunTool report.Driver report.Rules]. split.
  - rewrite map_map. reflexivity.
  - induction Hkinds as [|f l Hf _ IH]; simpl; [apply List.Forall_nil|].
    apply List.Forall_cons; [|exact IH].
    cbn [report.RuleID report.ResultLevel]. apply scan_kind_declared, Hf.
Qed.

Lemma Analyze_Forall (P : Finding -> Prop) result cfg :
  Forall P (Findings result) -> Forall P (analyzer.Findings (analyzer.Analyze result cfg)).
Proof.
  intros H. unfold analyzer.Analyze. cbn [analyzer.Findings].
  rewrite filter_loop. apply Forall_List_filter, H.
Qed.

(** X25. The SARIF report of what [Analyze] keeps of an ECR scan or of an
    Artifact Registry scan, and of what [ScanVulnerabilities] returns, has
    one result per finding, in order, and every result names a rule that
    the report declares, at the level that the rule declares as its
    default. *)
Theorem sarif_rules_cover_scan_findings :
  (forall s cfg progress threshold tool version,
     let findings :=
       analyzer.Findings (analyzer.Analyze (result (ecr.Scan s cfg progress)) threshold) in
     exists run,
       report.Runs
         (report.Generate
            {| report.Tool := tool; report.Version := version;
               report.Findings := findings |}) = [run] /\
       map report.RuleID (report.Results run) = map ID findings /\
       Forall
         (fun r =>
            exists rule,
              In rule (report.Rules (report.Driver (report.RunTool run))) /\
              report.ID rule = report.RuleID r /\
              report.Level (report.DefaultConfig rule) = report.ResultLevel r)
         (report.Results run))
  /\
  (forall s cfg progress threshold tool version,
     let findings :=
       analyzer.Findings
         (analyzer.Analyze (result (artifactregistry.Scan s cfg progress)) threshold) in
     exists run,
       report.Runs
         (report.Generate
            {| report.Tool := tool; report.Version := version;
               report.Findings := findings |}) = [run] /\
       map report.RuleID (report.Results run) = map ID findings /\
       Forall
         (fun r =>
            exists rule,
              In rule (report.Rules (report.Driver (report.RunTool run))) /\
              report.ID rule = report.RuleID r /\
              report.Level (report.DefaultConfig rule) = report.ResultLevel r)
         (report.Results run))
  /\
  (forall s repoName digest tool version,
     let findings := fst (ecr.ScanVulnerabilities s repoName digest) in
     exists run,
       report.Runs
         (report.Generate
            {| report.Tool := tool; report.Version := version;
               report.Findings := findings |}) = [run] /\
       map report.RuleID (report.Results run) = map ID findings /\
       Forall
         (fun r =>
            exists rule,
              In rule (report.Rules (report.Driver (report.RunTool run))) /\
              report.ID rule = report.RuleID r /\
              report.Level (report.DefaultConfig rule) = report.ResultLevel r)
         (report.Results run)).
Proof.
  repeat split.
  - intros s cfg progress threshold tool version findings. apply sarif_covers.
    apply Analyze_Forall.
    eapply List.Forall_impl; [|apply ecr_scan_kinds]. cbv beta. cbn [In]. tauto.
  - intros s cfg progress threshold tool version findings. apply sarif_covers.
    apply Analyze_Forall.
    eapply List.Forall_impl; [|apply ar_scan_kinds]. cbv beta. cbn [In]. tauto.
  - intros s repoName digest tool version findings. apply sarif_covers.
    unfold findings, ecr.ScanVulnerabilities.
    destruct (ecr.DescribeImageScanFindings _ _ _) as [[[severities|]]|err];
      try apply List.Forall_nil.
    cbn [ecr.ImageScanFindings]. cbv zeta.
    destruct (len severities =? 0); [apply List.Forall_nil|].
    destruct (_ && _); [apply List.Forall_nil|].
    apply List.Forall_cons; [|apply List.Forall_nil]. cbn. tauto.
Qed.

(** [TestSARIFLevelMapping] and [TestBuildSARIFRules] *)
Example TestSARIFLevelMapping :
  report.sarifLevel SeverityCritical = "error"
  /\ report.sarifLevel SeverityHigh = "error"
  /\ report.sarifLevel SeverityMedium = "warning"
  /\ report.sarifLevel SeverityLow = "note".
Proof. repeat split; reflexivity. Qed.

Example TestBuildSARIFRules : len report.buildSARIFRules = 7.
Proof. reflexivity. Qed.

End SarifFacts.

(** ** Flags and configuration *)

Section CommandFacts.
Import registry Rules.

Lemma override_idem {A} (test : A -> bool) (ok : bool) (x y : A) :
  (if test (if test x && ok then y else x) && ok then y
   else (if test x && ok then y else x))
  = (if test x && ok then y else x).
Proof.
  destruct (test x) eqn:E, ok; cbn [andb]; rewrite ?E, ?andb_false_r; try reflexivity.
  destruct (test y); reflexivity.
Qed.

(** X26. [applyAWSConfigDefaults] and [applyGCPConfigDefaults] leave every
    flag that is not at its default value as it is, and applying the same
    configuration a second time changes nothing more. *)
Theorem config_defaults_respect_flags :
  (forall cfg flags,
     let out := commands.applyAWSConfigDefaults cfg flags in
     (commands.awsFlags.format flags <> "text" ->
      commands.awsFlags.format out = commands.awsFlags.format flags) /\
     (commands.awsFlags.staleDays flags <> 90 ->
      commands.awsFlags.staleDays out = commands.awsFlags.staleDays flags) /\
     (commands.awsFlags.maxSizeMB flags <> 1024 ->
      commands.awsFlags.maxSizeMB out = commands.awsFlags.maxSizeMB flags) /\
     (eq (commands.awsFlags.minMonthlyCost flags) lit_0_10 = false ->
      commands.awsFlags.minMonthlyCost out = commands.awsFlags.minMonthlyCost flags) /\
     commands.applyAWSConfigDefaults cfg out = out)
  /\
  (forall cfg flags,
     let out := commands.applyGCPConfigDefaults cfg flags in
     (commands.gcpFlags.format flags <> "text" ->
      commands.gcpFlags.format out = commands.gcpFlags.format flags) /\
     (commands.gcpFlags.staleDays flags <> 90 ->
      commands.gcpFlags.staleDays out = commands.gcpFlags.staleDays flags) /\
     (commands.gcpFlags.maxSizeMB flags <> 1024 ->
      commands.gcpFlags.maxSizeMB out = commands.gcpFlags.maxSizeMB flags) /\
     (eq (commands.gcpFlags.minMonthlyCost flags) lit_0_10 = false ->
      commands.gcpFlags.minMonthlyCost out = commands.gcpFlags.minMonthlyCost flags) /\
     (commands.gcpFlags.project flags <> "" ->
      commands.gcpFlags.project out = commands.gcpFlags.project flags) /\
     commands.applyGCPConfigDefaults cfg out = out).
Proof.
  split; intros cfg flags out; subst out.
  - unfold commands.applyAWSConfigDefaults. cbv zeta.
    cbn [commands.awsFlags.format commands.awsFlags.staleDays commands.awsFlags.maxSizeMB
         commands.awsFlags.minMonthlyCost commands.awsFlags.region commands.awsFlags.profile
         commands.awsFlags.outputFile commands.awsFlags.includeScan
         commands.awsFlags.noProgress commands.awsFlags.timeout
         commands.awsFlags.excludeTags].
    repeat split.
    + intros H. apply String.eqb_neq in H. rewrite H. reflexivity.
    + intros H. apply Z.eqb_neq in H. rewrite H. reflexivity.
    + intros H. apply Z.eqb_neq in H. rewrite H. reflexivity.
    + intros H. rewrite H. reflexivity.
    + f_equal.
      * apply (override_idem (fun v => v =? 90)).
      * apply (override_idem (fun v => v =? 1024)).
      * apply (override_idem (fun v => String.eqb v "text")).
      * apply (override_idem (fun v => eq v lit_0_10)).
  - unfold commands.applyGCPConfigDefaults. cbv zeta.
    cbn [commands.gcpFlags.format commands.gcpFlags.staleDays commands.gcpFlags.maxSizeMB
         commands.gcpFlags.minMonthlyCost commands.gcpFlags.project
         commands.gcpFlags.locations commands.gcpFlags.outputFile
         commands.gcpFlags.noProgress commands.gcpFlags.timeout
         commands.gcpFlags.excludeTags].
    repeat split.
    + intros H. apply String.eqb_neq in H. rewrite H. reflexivity.
    + intros H. apply Z.eqb_neq in H. rewrite H. reflexivity.
    + intros H. apply Z.eqb_neq in H. rewrite H. reflexivity.
    + intros H. rewrite H. reflexivity.
    + intros H. apply String.eqb_neq in H. rewrite H. reflexivity.
    + f_equal.
      * apply (override_idem (fun v => String.eqb v "")).
      * apply (override_idem (fun v => v =? 90)).
      * apply (override_idem (fun v => v =? 1024)).
      * apply (override_idem (fun v => String.eqb v "text")).
      * apply (override_idem (fun v => eq v lit_0_10)).
Qed.

Lemma config_defaults_respect_flags_witness :
  commands.awsFlags.staleDays
    (commands.applyAWSConfigDefaults
       {| config.Provider := ""; config.Regions := []; config.Profile := "";
          config.Project := ""; config.StaleDays := 180; config.MaxSizeMB := 2048;
          config.MinMonthlyCost := of_int 1; config.Format := "json";
          config.Timeout := "";
          config.Exclude_ := {| config.ResourceIDs := []; config.Tags := [] |} |}
       {| commands.awsFlags.region := ""; commands.awsFlags.profile := "";
          commands.awsFlags.staleDays := 30; commands.awsFlags.maxSizeMB := 512;
          commands.awsFlags.format := "sarif"; commands.awsFlags.outputFile := "";
          commands.awsFlags.minMonthlyCost := of_int 5;
          commands.awsFlags.includeScan := false; commands.awsFlags.noProgress := false;
          commands.awsFlags.timeout := 0; commands.awsFlags.excludeTags := [] |})
  = 30.
Proof.
  apply (proj1 (proj2 (proj1 config_defaults_respect_flags
           {| config.Provider := ""; config.Regions := []; config.Profile := "";
              config.Project := ""; config.StaleDays := 180; config.MaxSizeMB := 2048;
              config.MinMonthlyCost := of_int 1; config.Format := "json";
              config.Timeout := "";
              config.Exclude_ := {| config.ResourceIDs := []; config.Tags := [] |} |}
           {| commands.awsFlags.region := ""; commands.awsFlags.profile := "";
              commands.awsFlags.staleDays := 30; commands.awsFlags.maxSizeMB := 512;
              commands.awsFlags.format := "sarif"; commands.awsFlags.outputFile := "";
              commands.awsFlags.minMonthlyCost := of_int 5;
              commands.awsFlags.includeScan := false; commands.awsFlags.noProgress := false;
              commands.awsFlags.timeout := 0; commands.awsFlags.excludeTags := [] |}))).
  simpl. lia.
Defined.

(** X27. [runGCP] fails with "--project is required" whenever the project
    flag is empty, whatever the configuration file says; when it goes on to
    scan, the project is the one of the flag, and the locations are those of
    the flag, or those of the configuration when the flag gives none. *)
Theorem gcp_config_project_is_never_used cfg flags :
  (commands.gcpFlags.project flags = "" ->
   commands.runGCP cfg flags = Err "--project is required for GCP scans")
  /\
  (forall flags' locations,
     commands.runGCP cfg flags = Ok (flags', locations) ->
     commands.gcpFlags.project flags' = commands.gcpFlags.project flags /\
     commands.gcpFlags.project flags' <> "" /\
     locations <> [] /\
     locations
     = (if len (commands.gcpFlags.locations flags) =? 0
        then config.Regions cfg else commands.gcpFlags.locations flags)).
Proof.
  unfold commands.runGCP. split.
  - intros ->. reflexivity.
  - intros flags' locations.
    destruct (String.eqb (commands.gcpFlags.project flags) "") eqn:N; [discriminate|].
    cbv zeta.
    change (commands.gcpFlags.locations (commands.applyGCPConfigDefaults cfg flags))
      with (commands.gcpFlags.locations flags).
    destruct (len (commands.gcpFlags.locations flags) =? 0) eqn:E1;
      destruct (0 <? len (config.Regions cfg)) eqn:E2; cbn [andb];
      rewrite ?E1; try discriminate.
    + destruct (len (config.Regions cfg) =? 0) eqn:E3; [discriminate|].
      intros H. injection H as <- <-.
      unfold commands.applyGCPConfigDefaults. cbv zeta. cbn [commands.gcpFlags.project].
      rewrite N. cbn [andb]. apply String.eqb_neq in N. repeat split; auto.
      intros E. rewrite E in E3. discriminate.
    + intros H. injection H as <- <-.
      unfold commands.applyGCPConfigDefaults. cbv zeta. cbn [commands.gcpFlags.project].
      rewrite N. cbn [andb]. apply String.eqb_neq in N. repeat split; auto.
      intros E. rewrite E in E1. discriminate.
    + intros H. injection H as <- <-.
      unfold commands.applyGCPConfigDefaults. cbv zeta. cbn [commands.gcpFlags.project].
      rewrite N. cbn [andb]. apply String.eqb_neq in N. repeat split; auto.
      intros E. rewrite E in E1. discriminate.
Qed.

Lemma gcp_config_project_is_never_used_witness :
  commands.runGCP
    {| config.Provider := "gcp"; config.Regions := ["us-central1"]; config.Profile := "";
       config.Project := "my-project"; config.StaleDays := 0; config.MaxSizeMB := 0;
       config.MinMonthlyCost := zero; config.Format := "";
       config.Timeout := "";
       config.Exclude_ := {| config.ResourceIDs := []; config.Tags := [] |} |}
    commands.gcpFlagDefaults
  = Err "--project is required for GCP scans".
Proof.
  apply (proj1 (gcp_config_project_is_never_used
           {| config.Provider := "gcp"; config.Regions := ["us-central1"];
              config.Profile := ""; config.Project := "my-project";
              config.StaleDays := 0; config.MaxSizeMB := 0;
              config.MinMonthlyCost := zero; config.Format := "";
              config.Timeout := "";
              config.Exclude_ := {| config.ResourceIDs := []; config.Tags := [] |} |}
           commands.gcpFlagDefaults)).
  reflexivity.
Defined.

(** [TestApplyAWSConfigDefaults] *)
Example TestApplyAWSConfigDefaults :
  let flags :=
    commands.applyAWSConfigDefaults
      {| config.Provider := ""; config.Regions := []; config.Profile := "";
         config.Project := ""; config.StaleDays := 180; config.MaxSizeMB := 2048;
         config.MinMonthlyCost := of_int 1; config.Format := "json";
         config.Timeout := "";
         config.Exclude_ := {| config.ResourceIDs := []; config.Tags := [] |} |}
      commands.awsFlagDefaults in
  commands.awsFlags.format flags = "json"
  /\ commands.awsFlags.staleDays flags = 180
  /\ commands.awsFlags.maxSizeMB flags = 2048
  /\ commands.awsFlags.minMonthlyCost flags = of_int 1.
Proof. vm_compute. repeat split; reflexivity. Qed.

End CommandFacts.

(** ** The Artifact Registry client *)

Section ClientFacts.
Import registry Rules artifactregistry.

Lemma get_skip (a b : string) (j : nat) :
  String.get (String.length a + j) (a +:+ b) = String.get j b.
Proof. induction a as [|c a IH]; simpl; [reflexivity|exact IH]. Qed.

Lemma substring_skip (a b : string) (m : nat) :
  String.substring (String.length a) m (a +:+ b) = String.substring 0 m b.
Proof. induction a as [|c a IH]; simpl; [reflexivity|exact IH]. Qed.

Lemma substring_all (b : string) : String.substring 0 (String.length b) b = b.
Proof. induction b as [|c b IH]; simpl; [reflexivity|]. rewrite IH. reflexivity. Qed.

Lemma String_length_app (a b : string) :
  String.length (a +:+ b) = (String.length a + String.length b)%nat.
Proof. induction a as [|c a IH]; simpl; [reflexivity|]. rewrite IH. reflexivity. Qed.

Lemma String_append_assoc (a b c : string) : (a +:+ b) +:+ c = a +:+ b +:+ c.
Proof.
  induction a as [|x a IH]; [reflexivity|].
  change (String x ((a +:+ b) +:+ c) = String x (a +:+ b +:+ c)). rewrite IH. reflexivity.
Qed.

Lemma Contains_slash_cons (c : Ascii.ascii) (s : string) :
  Contains (String c s) "/" = false <-> c <> "/"%char /\ Contains s "/" = false.
Proof.
  cbn [Contains String.prefix].
  destruct (Ascii.ascii_dec "/"%char c) as [E|N].
  - destruct s; split; try discriminate; intros [H _]; congruence.
  - split; [intros H; split; [congruence|exact H]|intros [_ H]; exact H].
Qed.

Lemma get_no_slash (s : string) (k : nat) :
  Contains s "/" = false ->
  match String.get k s with
  | Some c => Ascii.eqb c "/"%char
  | None => false
  end = false.
Proof.
  revert k. induction s as [|c s IH]; intros k H; [destruct k; reflexivity|].
  apply Contains_slash_cons in H as [Hc Hs]. destruct k; simpl.
  - apply Ascii.eqb_neq. exact Hc.
  - apply IH. exact Hs.
Qed.

Lemma extractRepoIDLoop_segment (parent id : string) (k : nat) :
  Contains id "/" = false ->
  extractRepoIDLoop (parent +:+ "/" +:+ id) (S (String.length parent) + k) = id.
Proof.
  intros Hid. induction k as [|k IH].
  - rewrite Nat.add_0_r. cbn [extractRepoIDLoop].
    replace (String.length parent) with (String.length parent + 0)%nat at 1 by lia.
    rewrite get_skip. change (String.get 0 ("/" +:+ id)) with (Some "/"%char).
    change (("/" =? "/")%char) with true. cbv iota.
    rewrite <- String_append_assoc.
    replace (S (String.length parent)) with (String.length (parent +:+ "/"))
      by (rewrite String_length_app; simpl; lia).
    rewrite substring_skip, String_length_app.
    replace (String.length (parent +:+ "/") + String.length id
             - String.length (parent +:+ "/"))%nat with (String.length id) by lia.
    apply substring_all.
  - replace (S (String.length parent) + S k)%nat
      with (S (S (String.length parent) + k)) by lia.
    cbn [extractRepoIDLoop].
    replace (S (String.length parent) + k)%nat
      with (String.length parent + S k)%nat at 1 by lia.
    rewrite get_skip. change (String.get (S k) ("/" +:+ id)) with (String.get k id).
    rewrite (get_no_slash id k Hid). exact IH.
Qed.

Lemma extractRepoIDLoop_whole (name : string) (n : nat) :
  Contains name "/" = false -> extractRepoIDLoop name n = name.
Proof.
  intros H. induction n as [|n IH]; [reflexivity|].
  cbn [extractRepoIDLoop]. rewrite (get_no_slash name n H). exact IH.
Qed.

Lemma last_segment (name : string) :
  Contains name "/" = false \/
  exists parent id, name = parent +:+ "/" +:+ id /\ Contains id "/" = false.
Proof.
  induction name as [|c name [IH|(parent & id & -> & Hid)]].
  - left. reflexivity.
  - destruct (Ascii.ascii_dec c "/"%char) as [->|N].
    + right. exists "", name. auto.
    + left. apply Contains_slash_cons. auto.
  - right. exists (String c parent), id. auto.
Qed.

Lemma extractRepoID_segment parent id :
  Contains id "/" = false -> extractRepoID (parent +:+ "/" +:+ id) = id.
Proof.
  intros Hid. unfold extractRepoID.
  replace (String.length (parent +:+ "/" +:+ id))
    with (S (String.length parent) + String.length id)%nat
    by (rewrite !String_length_app; cbn [String.length]; lia).
  apply extractRepoIDLoop_segment, Hid.
Qed.

Lemma extractRepoID_whole name : Contains name "/" = false -> extractRepoID name = name.
Proof. intros H. apply extractRepoIDLoop_whole, H. Qed.

Lemma extractRepoID_no_slash name : Contains (extractRepoID name) "/" = false.
Proof.
  destruct (last_segment name) as [H|(parent & id & -> & Hid)].
  - rewrite extractRepoID_whole; assumption.
  - rewrite extractRepoID_segment; assumption.
Qed.

(** X28. [extractRepoID] returns what follows the last [/] of a resource
    name, and the whole name when it has no [/]; its result never contains
    a [/]. *)
Theorem extractRepoID_is_the_last_segment :
  (forall parent id,
     Contains id "/" = false -> extractRepoID (parent +:+ "/" +:+ id) = id)
  /\ (forall name, Contains name "/" = false -> extractRepoID name = name)
  /\ (forall name, Contains (extractRepoID name) "/" = false).
Proof.
  repeat split;
    [exact extractRepoID_segment|exact extractRepoID_whole|exact extractRepoID_no_slash].
Qed.

Lemma extractRepoID_is_the_last_segment_witness :
  extractRepoID
    ("projects/my-project/locations/us-central1/repositories" +:+ "/" +:+ "myapp")
  = "myapp".
Proof.
  apply (proj1 extractRepoID_is_the_last_segment
           "projects/my-project/locations/us-central1/repositories" "myapp").
  reflexivity.
Defined.

(** [TestExtractRepoID] and [TestExtractRepoIDFromImage] *)
Example TestExtractRepoID :
  extractRepoID "projects/my-project/locations/us-central1/repositories/myapp" = "myapp"
  /\ extractRepoID "projects/p/locations/l/repositories/repo-name" = "repo-name"
  /\ extractRepoID "simple" = "simple".
Proof. vm_compute. repeat split; reflexivity. Qed.

Example TestExtractRepoIDFromImage :
  extractRepoIDFromImage "projects/p/locations/l/repositories/myapp/dockerImages/img@sha256:abc"
    = "myapp"
  /\ extractRepoIDFromImage "projects/p/locations/l/repositories/repo-name/dockerImages/x"
     = "repo-name"
  /\ extractRepoIDFromImage "no-marker" = ""
  /\ extractRepoIDFromImage "dockerImages/img" = "".
Proof. vm_compute. repeat split; reflexivity. Qed.

Lemma listRepositoriesLoop_spec parent location it repos :
  listRepositoriesLoop parent location it repos
  = match iteratorError it with
    | Some err => Err ("list repositories in " +:+ parent +:+ ": " +:+ err)
    | None =>
        Ok (repos ++
            map (fun repo =>
                   {| artifactregistry.Name := GetName repo;
                      artifactregistry.Location := location;
                      artifactregistry.RepoID := extractRepoID (GetName repo);
                      artifactregistry.Format := "DOCKER" |})
              (List.filter isDocker (iteratorItems it)))
    end.
Proof.
  revert repos. induction it as [|err|repo rest IH]; intros repos; simpl.
  - rewrite app_nil_r. reflexivity.
  - reflexivity.
  - rewrite IH. unfold isDocker. destruct (iteratorError rest); [reflexivity|].
    destruct (GetFormat repo); simpl; [rewrite <- app_assoc|]; reflexivity.
Qed.

Lemma client_lists_docker_repositories_helper c project location :
  match ClientListRepositories c project location with
  | Err _ => True
  | Ok repos =>
      Forall
        (fun repo =>
           artifactregistry.Location repo = location /\
           Contains (artifactregistry.RepoID repo) "/" = false)
        repos
  end.
Proof.
  unfold ClientListRepositories. cbv zeta. rewrite listRepositoriesLoop_spec.
  destruct (iteratorError _); [exact I|]. cbn [app].
  apply List.Forall_forall. intros repo Hin. apply in_map_iff in Hin as (r & <- & _).
  cbn. split; [reflexivity|]. apply extractRepoID_no_slash.
Qed.

(** X29. [Client.ListRepositories] returns the Docker-format repositories
    that the service yields, in order and no others, each with the location
    that was asked for and with the last segment of its name as repository
    ID; when the iterator fails, it returns that error, wrapped, and no
    repository. *)
Theorem client_lists_docker_repositories c project location :
  let parent := "projects/" +:+ project +:+ "/locations/" +:+ location in
  let it := innerListRepositories c parent in
  match ClientListRepositories c project location with
  | Err message =>
      exists err,
        iteratorError it = Some err /\
        message = "list repositories in " +:+ parent +:+ ": " +:+ err
  | Ok repos =>
      iteratorError it = None /\
      map artifactregistry.Name repos
        = map GetName (List.filter isDocker (iteratorItems it)) /\
      Forall
        (fun repo =>
           artifactregistry.Location repo = location /\
           artifactregistry.Format repo = "DOCKER" /\
           artifactregistry.RepoID repo = extractRepoID (artifactregistry.Name repo) /\
           Contains (artifactregistry.RepoID repo) "/" = false)
        repos
  end.
Proof.
  intros parent it. unfold ClientListRepositories. cbv zeta. fold parent. fold it.
  rewrite listRepositoriesLoop_spec.
  destruct (iteratorError it) as [err|]; [exists err; auto|].
  split; [reflexivity|]. cbn [app]. split.
  - rewrite map_map. reflexivity.
  - apply List.Forall_forall. intros repo Hin. apply in_map_iff in Hin as (r & <- & _).
    cbn. repeat split. apply extractRepoID_no_slash.
Qed.

Lemma arRepoAdds_region s cfg repo :
  Forall
    (fun f =>
       Region f = artifactregistry.Location repo /\
       (ResourceType f = ResourceRepository -> ResourceID f = artifactregistry.RepoID repo))
    (Findings (arRepoAdds s cfg repo)).
Proof.
  unfold arRepoAdds.
  destruct (artifactregistry.ListDockerImages _ _) as [images|err];
    [|apply List.Forall_nil].
  destruct (len images =? 0).
  - apply List.Forall_cons; [split; reflexivity|apply List.Forall_nil].
  - cbn [merge Findings]. apply Forall_app; split.
    + apply Forall_flat_map. intros img.
      eapply List.Forall_impl; [|apply ar_image_facts]. cbv beta.
      intros f (Htype & _ & Hregion & _). split; [exact Hregion|].
      rewrite Htype. discriminate.
    + unfold arUnusedAdds. destruct (_ && _); cbn [findingsOnly emptyResult Findings].
      * apply List.Forall_cons; [split; reflexivity|apply List.Forall_nil].
      * apply List.Forall_nil.
Qed.

(** X30. When the scanner runs over the SDK client, every finding of a
    scan carries one of the scanner's locations as its region, and every
    repository-scoped finding names a repository ID without [/]. *)
Theorem gcp_findings_are_in_scanned_locations c project locations now cfg progress :
  let s :=
    {| artifactregistry.client := ClientAPI c;
       artifactregistry.project := project;
       artifactregistry.locations := locations;
       artifactregistry.now := now |} in
  Forall
    (fun f =>
       In (Region f) locations /\
       (ResourceType f = ResourceRepository -> Contains (ResourceID f) "/" = false))
    (Findings (result (artifactregistry.Scan s cfg progress))).
Proof.
  intros s. rewrite ar_Scan_result. cbn [artifactregistry.locations s].
  apply Forall_mergeAll. apply Forall_map. apply List.Forall_forall.
  intros location Hin.
  unfold arLocationAdds. cbn [artifactregistry.client artifactregistry.project s
    artifactregistry.ListRepositories ClientAPI].
  pose proof (client_lists_docker_repositories_helper c project location) as Hclient.
  destruct (ClientListRepositories c project location) as [repos|err];
    [|apply List.Forall_nil].
  cbn [merge Findings repositoriesOnly app].
  unfold arReposAdd. apply Forall_mergeAll. apply Forall_map. apply List.Forall_forall.
  intros repo Hrepo.
  rewrite List.Forall_forall in Hclient. destruct (Hclient repo Hrepo) as (Hloc & Hid).
  destruct (arExcluded cfg repo); [apply List.Forall_nil|].
  eapply List.Forall_impl; [|apply arRepoAdds_region]. cbv beta.
  intros f (Hregion & Hrepository). split.
  - rewrite Hregion, Hloc. exact Hin.
  - intros Htype. rewrite (Hrepository Htype). exact Hid.
Qed.

End ClientFacts.

(** ** The test suites, replayed on the embedding *)

Section Replayed.
Import registry Rules Fixtures.


(** [TestMonthlyStorageCostECR], [TestMonthlyStorageCostUnknownProvider],
    [TestMonthlyStorageCostZeroBytes]: one GiB costs the rate itself. *)
Example TestMonthlyStorageCost :
  pricing.MonthlyStorageCost "ecr" "us-east-1" 1073741824 = lit_0_10
  /\ pricing.MonthlyStorageCost "artifactregistry" "unknown-region" 1073741824 = lit_0_10
  /\ pricing.MonthlyStorageCost "unknown" "us-east-1" 1073741824 = lit_0_10
  /\ pricing.MonthlyStorageCost "ecr" "us-east-1" 0 = zero.
Proof. vm_compute. repeat split; reflexivity. Qed.

(** [TestScanStaleImage]: one [STALE_IMAGE] finding, 120 days stale. *)
Example TestScanStaleImage :
  let s := newTestScanner (mockECR
    {| repos := [makeRepo "myapp"];
       images := {[ "myapp" :=
                      [makeImage "sha256:bbb" ["v1.0"] halfGB stale200 (Some stale120)] ]};
       lifecycleRepos := ∅; scanFindings := ∅;
       descRepoErr := None; descImagesErr := ∅; lifecycleErr := ∅ |}) in
  let stale := findByID (Findings (result (ecr.Scan s defaultCfg false))) FindingStaleImage in
  map kind stale = [(FindingStaleImage, SeverityHigh, ResourceImage)]
  /\ map (fun f => Metadata f !! "days_stale") stale = [Some (MetaInt 120)].
Proof. vm_compute. split; reflexivity. Qed.

(** [TestScanRecentImageNotStale] and [TestScanUntaggedImage] *)
Example TestScanRecentUntaggedImage :
  let s := newTestScanner (mockECR
    {| repos := [makeRepo "myapp"];
       images := {[ "myapp" := [makeImage "sha256:aaa" [] oneGB recent (Some recent)] ]};
       lifecycleRepos := {[ "myapp" := true ]}; scanFindings := ∅;
       descRepoErr := None; descImagesErr := ∅; lifecycleErr := ∅ |}) in
  map (fun f => (kind f, EstimatedMonthlyWaste f))
    (Findings (result (ecr.Scan s defaultCfg false)))
  = [((FindingUntaggedImage, SeverityHigh, ResourceImage), lit_0_10)].
Proof. vm_compute. reflexivity. Qed.

(** [TestScanAllStaleRepo]: two stale images of half a GiB each. *)
Example TestScanAllStaleRepo :
  let unused :=
    findByID (Findings (result (ecr.Scan allStaleScanner defaultCfg false)))
      FindingUnusedRepo in
  map kind unused = [(FindingUnusedRepo, SeverityLow, ResourceRepository)]
  /\ map EstimatedMonthlyWaste unused = [lit_0_10]
  /\ ResourcesScanned (result (ecr.Scan allStaleScanner defaultCfg false)) = 2.
Proof. vm_compute. repeat split; reflexivity. Qed.

(** [TestScanDescribeImagesError], with a lifecycle failure on the next
    repository: one error string each, and the second repository is
    scanned. *)
Example TestScanDescribeImagesError :
  let r := result (ecr.Scan brokenRepoScanner defaultCfg false) in
  Errors r
  = [ "us-east-1/broken-repo: describe images for broken-repo: throttled";
      "us-east-1/old-repo lifecycle: get lifecycle policy for old-repo: timeout" ]
  /\ map ID (Findings r) = [FindingStaleImage; FindingStaleImage; FindingUnusedRepo]
  /\ ResourcesScanned r = 2 /\ RepositoriesScanned r = 2.
Proof. vm_compute. repeat split; reflexivity. Qed.

(** [TestScanExcludeRepo] *)
Example TestScanExcludeRepo :
  let r := result (ecr.Scan excludeScanner excludeCfg true) in
  map ResourceID (Findings r) = ["included"]
  /\ Errors r = [] /\ ResourcesScanned r = 1 /\ RepositoriesScanned r = 2.
Proof. vm_compute. repeat split; reflexivity. Qed.

(** [TestScanMultiArchBloat] of both suites, and
    [TestScanMultiArchNotStaleNotReported]. *)
Example TestScanMultiArchBloat :
  map ID (ecr.analyzeImage allStaleScanner defaultCfg "multiarch"
            (withMediaType dockerManifestList
               (makeImage "sha256:multi" ["latest"] twoGB stale200 (Some stale120))))
  = [FindingStaleImage; FindingLargeImage; FindingMultiArchBloat]
  /\ map ID (artifactregistry.analyzeImage arAllStaleScanner defaultCfg arMultiarchRepo
               (makeARImage "uri-multi" ["latest"] twoGB stale200 dockerManifestList))
     = [FindingStaleImage; FindingLargeImage; FindingMultiArchBloat]
  /\ map ID (artifactregistry.analyzeImage arAllStaleScanner defaultCfg arMultiarchRepo
               (makeARImage "uri-multi" ["latest"] twoGB recent ociIndex))
     = [FindingLargeImage].
Proof. vm_compute. repeat split; reflexivity. Qed.

(** [TestScanVulnerabilities] and [TestScanVulnerabilitiesLowOnly] *)
Example TestScanVulnerabilities :
  let s := newTestScanner (mockECR
    {| repos := []; images := ∅; lifecycleRepos := ∅;
       scanFindings :=
         {[ "myapp@sha256:vuln" :=
              {| ecr.ImageScanFindings := Some ["CRITICAL"; "HIGH"; "MEDIUM"] |} ]}
         ∪ {[ "myapp@sha256:low" := {| ecr.ImageScanFindings := Some ["LOW"] |} ]};
       descRepoErr := None; descImagesErr := ∅; lifecycleErr := ∅ |}) in
  map kind (fst (ecr.ScanVulnerabilities s "myapp" "sha256:vuln"))
  = [(FindingVulnerableImage, SeverityCritical, ResourceImage)]
  /\ ecr.ScanVulnerabilities s "myapp" "sha256:low" = ([], None).
Proof. vm_compute. split; reflexivity. Qed.

(** [TestAnalyzeFiltersbyMinCost], and the inclusive boundary: wastes 5, 1/2,
    10 and 1 against a minimum of 1. *)
Example TestAnalyzeFiltersbyMinCost :
  let finding waste :=
    {| ID := FindingStaleImage; Severity := SeverityHigh; ResourceType := ResourceImage;
       ResourceID := ""; ResourceName := ""; Region := ""; Message := Sprintf "" [];
       EstimatedMonthlyWaste := waste; Metadata := ∅ |} in
  let scanned :=
    {| Findings := [ finding (of_int 5); finding (div (of_int 1) (of_int 2));
                     finding (of_int 10); finding (of_int 1) ];
       Errors := ["us-east-1: access denied"];
       ResourcesScanned := 100; RepositoriesScanned := 5 |} in
  let analysis := analyzer.Analyze scanned {| analyzer.MinMonthlyCost := of_int 1 |} in
  map EstimatedMonthlyWaste (analyzer.Findings analysis)
  = [of_int 5; of_int 10; of_int 1]
  /\ analyzer.TotalMonthlyWaste (analyzer.Summary_ analysis) = of_int 16
  /\ analyzer.TotalFindings (analyzer.Summary_ analysis) = 3
  /\ index (analyzer.BySeverity (analyzer.Summary_ analysis)) "high" = 3
  /\ analyzer.Errors analysis = ["us-east-1: access denied"].
Proof. vm_compute. repeat split; reflexivity. Qed.

(** [TestScanStaleImage] of the Artifact Registry suite: the finding notes
    that staleness is based on the upload time. *)
Example TestScanStaleImageAR :
  let s := newARTestScanner (mockAR
    {| arRepos := {[ "my-project/us-central1" := [arOldRepo] ]};
       arImages := {[ "projects/my-project/locations/us-central1/repositories/old-repo"
                      := [makeARImage "uri" ["v1.0"] halfGB stale120 ""] ]};
       listRepoErr := ∅; listImagesErr := ∅ |}) ["us-central1"] in
  let stale :=
    findByID (Findings (result (artifactregistry.Scan s defaultCfg false)))
      FindingStaleImage in
  map kind stale = [(FindingStaleImage, SeverityHigh, ResourceImage)]
  /\ map (fun f => Metadata f !! "note") stale
     = [Some (MetaString "GCP AR has no pull timestamp; staleness based on upload time")]
  /\ map (fun f => Metadata f !! "days_stale") stale = [Some (MetaInt 120)].
Proof. vm_compute. repeat split; reflexivity. Qed.

(** [TestScanMultipleLocations] and [TestScanProgress]: two locations with
    one repository each; without a callback nothing is reported. *)
Example TestScanMultipleLocations :
  let repo location name :=
    makeARRepo ("projects/my-project/locations/" +:+ location +:+ "/repositories/" +:+ name)
      location name in
  let s := newARTestScanner (mockAR
    {| arRepos := {[ "my-project/us-central1" := [repo "us-central1" "r1"] ]}
                  ∪ {[ "my-project/europe-west1" := [repo "europe-west1" "r2"] ]};
       arImages :=
         {[ "projects/my-project/locations/us-central1/repositories/r1"
            := [makeARImage "uri1" ["v1"] hundredMB recent ""] ]}
         ∪ {[ "projects/my-project/locations/europe-west1/repositories/r2"
              := [makeARImage "uri2" ["v1"] hundredMB recent ""] ]};
       listRepoErr := ∅; listImagesErr := ∅ |}) ["us-central1"; "europe-west1"] in
  RepositoriesScanned (result (artifactregistry.Scan s defaultCfg false)) = 2
  /\ ResourcesScanned (result (artifactregistry.Scan s defaultCfg false)) = 2
  /\ progressed (artifactregistry.Scan s defaultCfg false) = []
  /\ len (progressed (artifactregistry.Scan s defaultCfg true)) = 6.
Proof. vm_compute. repeat split; reflexivity. Qed.

End Replayed.
